(** * AskDoc backend (server.js): folder tree, cascade delete, search

    A shallow embedding of the request handlers of [server.js] that work
    on the [folders] and [files] tables, and the properties of the
    specification checked against them.  The repository holds two copies
    of the server; the routes modelled here read the same in both.

    The store is the SQLite connection the server opens with
    [new sqlite3.Database('askdoc.db')]: the server never issues
    [PRAGMA foreign_keys = ON], so the [FOREIGN KEY ... ON DELETE CASCADE]
    clauses of the two [CREATE TABLE] statements are parsed and not
    enforced (the engine's default), while [PRIMARY KEY], [NOT NULL] and
    [CHECK] are.  Text is UTF-8, one [ascii] per byte. *)

From Stdlib Require Import List ZArith Lia String Ascii Bool Arith.
From Stdlib Require Import Permutation Sorting.Sorted Relations.
Import ListNotations.

Set Warnings "-register-all".

Open Scope string_scope.
Open Scope list_scope.
Open Scope Z_scope.

(* ================================================================== *)
(** * Part I: definitions                                               *)
(* ================================================================== *)

(** ** Small utilities *)

Definition opt_Z_eqb (a b : option Z) : bool :=
  match a, b with
  | None, None => true
  | Some x, Some y => Z.eqb x y
  | _, _ => false
  end.

Definition mem_Z (x : Z) (l : list Z) : bool := existsb (Z.eqb x) l.

Definition mem_string (x : string) (l : list string) : bool :=
  existsb (String.eqb x) l.

(** [Array.prototype.map] with a callback that may not return. *)
Fixpoint mapM {A B : Type} (f : A -> option B) (l : list A) : option (list B) :=
  match l with
  | [] => Some []
  | x :: l' =>
      match f x with
      | None => None
      | Some y =>
          match mapM f l' with
          | None => None
          | Some ys => Some (y :: ys)
          end
      end
  end.

(** ** The SQL the handlers rely on *)

Module Sql.

(** [ORDER BY] as a stable insertion sort on a "comes no later than"
    test; the engine leaves the order of ties open. *)
Section OrderBy.
Context {A : Type} (leb : A -> A -> bool).

Fixpoint insert_row (x : A) (l : list A) : list A :=
  match l with
  | [] => [x]
  | y :: l' => if leb x y then x :: l else y :: insert_row x l'
  end.

Fixpoint order_by (l : list A) : list A :=
  match l with
  | [] => []
  | x :: l' => insert_row x (order_by l')
  end.
End OrderBy.

(** [LIMIT n]. *)
Definition limit {A : Type} (n : nat) (l : list A) : list A := firstn n l.

(** BINARY collation of TEXT: byte-wise comparison. *)
Definition text_leb (a b : string) : bool := String.leb a b.

(** INTEGER columns that may hold NULL: NULL sorts first under ASC. *)
Definition null_int_compare (a b : option Z) : comparison :=
  match a, b with
  | None, None => Eq
  | None, Some _ => Lt
  | Some _, None => Gt
  | Some x, Some y => Z.compare x y
  end.

(** The [LIKE] operator (no ESCAPE clause), as the engine's
    [patternCompare] runs it: the letters A-Z and a-z match without
    regard to case, [_] takes one character of the text, [%] any run of
    them.  Text is UTF-8, taken to be well-formed; pattern and text are
    read as C strings, so each ends at its first NUL byte. *)
Definition lower (c : ascii) : ascii :=
  let n := N_of_ascii c in
  if (andb (65 <=? n) (n <=? 90))%N then ascii_of_N (n + 32) else c.

Definition char_eq_nocase (c d : ascii) : bool :=
  Ascii.eqb (lower c) (lower d).

Definition is_continuation (c : ascii) : bool :=
  (N.land (N_of_ascii c) 192 =? 128)%N.

Fixpoint skip_continuation (s : list ascii) : list ascii :=
  match s with
  | c :: s' => if is_continuation c then skip_continuation s' else s
  | [] => []
  end.

(** One character of UTF-8 text: a lead byte and its continuation bytes. *)
Definition skip_char (s : list ascii) : option (list ascii) :=
  match s with
  | [] => None
  | c :: s' =>
      if (192 <=? N_of_ascii c)%N then Some (skip_continuation s')
      else Some s'
  end.

Definition is_nul (c : ascii) : bool := (N_of_ascii c =? 0)%N.

Fixpoint c_string (s : list ascii) : list ascii :=
  match s with
  | [] => []
  | c :: s' => if is_nul c then [] else c :: c_string s'
  end.

(** [star] tells that a [%] has been passed and nothing but wildcards
    since: a [_] then still takes its character, the pattern may end
    anywhere in the text, and any other character is looked for along
    the text. *)
Fixpoint patternCompare (star : bool) (p s : list ascii) {struct p} : bool :=
  match p with
  | [] => if star then true else match s with [] => true | _ :: _ => false end
  | c :: p' =>
      if Ascii.eqb c "%" then patternCompare true p' s
      else if Ascii.eqb c "_" then
        match skip_char s with
        | None => false
        | Some s' => patternCompare star p' s'
        end
      else if star then
        (fix scan (s : list ascii) : bool :=
           match s with
           | [] => false
           | d :: s' =>
               char_eq_nocase c d && patternCompare false p' s' || scan s'
           end) s
      else
        match s with
        | [] => false
        | d :: s' => char_eq_nocase c d && patternCompare false p' s'
        end
  end.

Definition like_bytes (p s : list ascii) : bool :=
  patternCompare false (c_string p) (c_string s).

Definition like (text pattern : string) : bool :=
  like_bytes (list_ascii_of_string pattern) (list_ascii_of_string text).

End Sql.

(** ** Rows of the two tables

    [parent_id] and [folder_id] hold what the handlers bind: NULL, or a
    number.  The engine keeps a number that is a 64-bit integer as an
    INTEGER and any other as a REAL, and compares the two kinds by value;
    the column is held as that value, an infinity in the way
    [Js.infinity] below writes it. *)

Module Folder.
Record t : Type := mk
  { id : Z;
    name : string;
    parent_id : option Z;
    tab_type : string;
    created_at : string }.
End Folder.

Module File.
Record t : Type := mk
  { id : Z;
    name : string;
    original_name : string;
    file_path : string;
    file_size : Z;
    mime_type : option string;
    folder_id : option Z;
    tab_type : string;
    created_at : string }.
End File.

(** The connection's data: both tables, and the AUTOINCREMENT counter of
    [folders] (the largest id ever handed out, kept in [sqlite_sequence]). *)
Record database : Type := mkDb
  { folders : list Folder.t;
    files : list File.t;
    folders_seq : Z }.

(** The uploads directory as far as the handlers see it: the paths that
    exist, and the paths whose [fs.unlinkSync] throws. *)
Record disk : Type := mkDisk
  { present : list string;
    undeletable : list string }.

Definition existsSync (d : disk) (p : string) : bool := mem_string p (present d).

(** [fs.unlinkSync]: [None] when it throws. *)
Definition unlinkSync (d : disk) (p : string) : option disk :=
  if mem_string p (undeletable d) || negb (mem_string p (present d)) then None
  else Some (mkDisk (filter (fun q => negb (String.eqb q p)) (present d))
                    (undeletable d)).

(** ** Route 1: the folder tree ([GET /api/folders/:tabType]) *)

(** A row of [SELECT id, name, parent_id, created_at FROM folders]. *)
Module Item.
Record t : Type := mk
  { id : Z;
    name : string;
    parent_id : option Z;
    created_at : string }.

Definition of_folder (f : Folder.t) : t :=
  mk (Folder.id f) (Folder.name f) (Folder.parent_id f) (Folder.created_at f).
End Item.

(** [{...item, children: [...]}]. *)
Inductive node : Type :=
  Node { item : Item.t; children : list node }.

(** [buildTree(items, parentId = null)].  The JavaScript function recurses
    once per level of the tree; [fuel] bounds the depth of the recursion
    and [None] stands for a recursion that never comes back.  The
    [console.log] inside the callback is left out. *)
Fixpoint buildTree (fuel : nat) (items : list Item.t) (parentId : option Z)
  : option (list node) :=
  match fuel with
  | O => None
  | S fuel' =>
      mapM (fun item =>
              match buildTree fuel' items (Some (Item.id item)) with
              | None => None
              | Some sub => Some (Node item sub)
              end)
           (filter (fun item => opt_Z_eqb (Item.parent_id item) parentId) items)
  end.

(** [ORDER BY parent_id ASC, name ASC]. *)
Definition by_parent_then_name (a b : Folder.t) : bool :=
  match Sql.null_int_compare (Folder.parent_id a) (Folder.parent_id b) with
  | Lt => true
  | Eq => Sql.text_leb (Folder.name a) (Folder.name b)
  | Gt => false
  end.

(** [query] of the route; [tabType] is a path segment, hence always text. *)
Definition foldersQuery (d : database) (tabType : string) : list Item.t :=
  map Item.of_folder
      (Sql.order_by by_parent_then_name
         (filter (fun f => String.eqb (Folder.tab_type f) tabType) (folders d))).

(** The records of a forest, parents before children. *)
Fixpoint flatten (n : node) : list Item.t :=
  item n :: flat_map flatten (children n).

Definition flatten_forest (forest : list node) : list Item.t :=
  flat_map flatten forest.

(** ** The recursive common table expression [folder_tree]

    [WITH RECURSIVE folder_tree AS (base UNION ALL
       SELECT f.* FROM folders f INNER JOIN folder_tree ft
       ON f.parent_id = ft.id)]:
    the rows found so far are joined with [folders] again until a round
    adds nothing.  [UNION ALL] keeps duplicates, so on a table with a
    cycle of parents below the base rows the query never ends; [fuel]
    bounds the number of rounds.  The rows are listed round by round and
    the children of a row in the order of the table; SQL leaves the
    order of the rows open. *)

Definition recursive_select (tbl : list Folder.t) (ft : list Folder.t)
  : list Folder.t :=
  flat_map (fun r =>
              filter (fun f => opt_Z_eqb (Folder.parent_id f) (Some (Folder.id r)))
                     tbl)
           ft.

Fixpoint folder_tree (fuel : nat) (tbl : list Folder.t) (work : list Folder.t)
  : option (list Folder.t) :=
  match work with
  | [] => Some []
  | _ :: _ =>
      match fuel with
      | O => None
      | S fuel' =>
          match folder_tree fuel' tbl (recursive_select tbl work) with
          | None => None
          | Some rest => Some (work ++ rest)
          end
      end
  end.

(** [x IN (SELECT id FROM folder_tree)] for a column that may be NULL. *)
Definition in_tree (x : option Z) (tree : list Folder.t) : bool :=
  match x with
  | None => false
  | Some i => mem_Z i (map Folder.id tree)
  end.

(** ** Route 6: cascade delete ([DELETE /api/folders/:id])

    The route parameter reaches every statement as the value of a [?]
    compared with the INTEGER column [id]; it is modelled by the integer
    it denotes, also where the answer echoes it ([folderId], [fileId]). *)

(** A row of [getSubItemsQuery]: [type, id, name, file_path]. *)
Record sub_item : Type := mkItem
  { type : string;
    sub_id : Z;
    sub_name : string;
    sub_path : option string }.

Definition getSubItemsQuery (fuel : nat) (d : database) (id : Z)
  : option (list sub_item) :=
  match folder_tree fuel (folders d)
          (filter (fun f => Z.eqb (Folder.id f) id) (folders d)) with
  | None => None
  | Some tree =>
      Some (map (fun f => mkItem "folder" (Folder.id f) (Folder.name f) None) tree
            ++ map (fun f => mkItem "file" (File.id f) (File.original_name f)
                                   (Some (File.file_path f)))
                   (filter (fun f => in_tree (File.folder_id f) tree) (files d)))
  end.

(** A [DELETE] gives the new tables and the number of rows it removed
    ([this.changes]). *)
Definition deleteFilesQuery (fuel : nat) (d : database) (id : Z)
  : option (database * Z) :=
  match folder_tree fuel (folders d)
          (filter (fun f => Z.eqb (Folder.id f) id) (folders d)) with
  | None => None
  | Some tree =>
      let gone := fun f => in_tree (File.folder_id f) tree in
      Some (mkDb (folders d) (filter (fun f => negb (gone f)) (files d))
                 (folders_seq d),
            Z.of_nat (List.length (filter gone (files d))))
  end.

(** Run with [[id, id]]: the base select is [WHERE id = ? AND id != ?]. *)
Definition deleteSubfoldersQuery (fuel : nat) (d : database) (id1 id2 : Z)
  : option (database * Z) :=
  match folder_tree fuel (folders d)
          (filter (fun f => Z.eqb (Folder.id f) id1
                            && negb (Z.eqb (Folder.id f) id2)) (folders d)) with
  | None => None
  | Some tree =>
      let gone := fun f => mem_Z (Folder.id f) (map Folder.id tree) in
      Some (mkDb (filter (fun f => negb (gone f)) (folders d)) (files d)
                 (folders_seq d),
            Z.of_nat (List.length (filter gone (folders d))))
  end.

Definition deleteFolderQuery (d : database) (id : Z) : database * Z :=
  let gone := fun f => Z.eqb (Folder.id f) id in
  (mkDb (filter (fun f => negb (gone f)) (folders d)) (files d) (folders_seq d),
   Z.of_nat (List.length (filter gone (folders d)))).

(** ** The world a handler runs in *)

(** Values of a JSON body or answer, as far as the handlers use them.
    A number is a double; the handlers meet integers only, and [JNum]
    holds the integer, or one of the two infinities in the way
    [Js.infinity] below writes them. *)
Inductive jsval : Type :=
  | JUndefined
  | JNull
  | JBool (b : bool)
  | JNum (n : Z)
  | JStr (s : string).

Definition object : Type := list (string * jsval).

Inductive console_arg : Type :=
  | AId (id : Z)
  | AValue (v : jsval)
  | AObject (o : object)
  | AText (s : string)
  | AItems (items : list sub_item)
  | AFile (row : File.t)
  | ARows (rows : list Item.t)
  | ATree (forest : list node).

(** [console.log(msg, arg)] and [console.error(msg, arg)]. *)
Inductive console_line : Type :=
  | Log (msg : string) (arg : console_arg)
  | Error (msg : string) (arg : console_arg).

(** [faults] scripts the engine: its n-th entry tells whether the n-th
    statement the handler sends comes back with [err] set ([Some message])
    or runs ([None], also once the script is used up). *)
Record world : Type := mkWorld
  { db : database;
    fs : disk;
    console : list console_line;
    faults : list (option string);
    clock : string }.

(** [res.json(payload)], or [res.status(code).json({ error })].  The
    payload is the value handed to [res.json]; [Js.sent_object] below
    gives what [JSON.stringify] makes of an object. *)
Inductive response (A : Type) : Type :=
  | Json (payload : A)
  | Status (code : Z) (error : string).
Arguments Json {A} payload.
Arguments Status {A} code error.

(** Handlers: state passing over [world]; [None] is a handler that never
    answers, because a query or a recursion of its own does not end, or
    because it throws where nothing catches. *)
Definition M (A : Type) : Type := world -> option (A * world).

Definition ret {A : Type} (a : A) : M A := fun w => Some (a, w).

Definition bind {A B : Type} (c : M A) (k : A -> M B) : M B :=
  fun w => match c w with
           | None => None
           | Some (a, w') => k a w'
           end.

Notation "x <- c ;; k" := (bind c (fun x => k))
  (at level 61, c at next level, right associativity).
Notation "c ;;; k" := (bind c (fun _ => k))
  (at level 61, right associativity).

Definition say (l : console_line) : M unit :=
  fun w => Some (tt, mkWorld (db w) (fs w) (console w ++ [l]) (faults w) (clock w)).

(** [db.all] / [db.get]: a statement that reads. *)
Definition db_read {A : Type} (q : database -> option A) : M (string + A) :=
  fun w =>
    let later := mkWorld (db w) (fs w) (console w) (tl (faults w)) (clock w) in
    match hd None (faults w) with
    | Some err => Some (inl err, later)
    | None =>
        match q (db w) with
        | None => None
        | Some a => Some (inr a, later)
        end
    end.

(** [db.run]: a statement that writes; the answer is what the callback
    reads from [this] ([changes] or [lastID]). *)
Definition db_run (q : database -> option (string + database * Z)) : M (string + Z) :=
  fun w =>
    let later := mkWorld (db w) (fs w) (console w) (tl (faults w)) (clock w) in
    match hd None (faults w) with
    | Some err => Some (inl err, later)
    | None =>
        match q (db w) with
        | None => None
        | Some (inl err) => Some (inl err, later)
        | Some (inr (d', n)) =>
            Some (inr n, mkWorld d' (fs w) (console w) (tl (faults w)) (clock w))
        end
    end.

Definition accepted (r : option (database * Z)) : option (string + database * Z) :=
  match r with
  | None => None
  | Some x => Some (inr x)
  end.

Fixpoint forEach {A : Type} (l : list A) (f : A -> M unit) : M unit :=
  match l with
  | [] => ret tt
  | x :: l' => f x ;;; forEach l' f
  end.

(** The body of both blob loops:
    [if (fs.existsSync(p)) { try { fs.unlinkSync(p); console.log(...) }
                             catch (err) { console.error(...) } }]. *)
Definition remove_blob (p : string) : M unit :=
  fun w =>
    if existsSync (fs w) p then
      match unlinkSync (fs w) p with
      | Some disk' =>
          say (Log "파일 삭제됨:" (AText p))
              (mkWorld (db w) disk' (console w) (faults w) (clock w))
      | None => say (Error "파일 삭제 오류:" (AText p)) w
      end
    else ret tt w.

(** [item.type === 'file' && item.file_path]. *)
Definition is_stored_file (it : sub_item) : bool :=
  String.eqb (type it) "file"
  && match sub_path it with
     | Some p => negb (String.eqb p "")
     | None => false
     end.

Definition path_of (it : sub_item) : string :=
  match sub_path it with
  | Some p => p
  | None => ""
  end.

(** The handler's first half, on the file system: the stored files among
    the rows found, each removed if it is there. *)
Definition blob_phase (items : list sub_item) : M unit :=
  forEach (filter is_stored_file items) (fun f => remove_blob (path_of f)).

(** Its second half, on the tables: the three [DELETE] statements, each
    sent from the callback of the one before. *)
Definition database_phase (fuel : nat) (id : Z) : M (response object) :=
  r <- db_run (fun d => accepted (deleteFilesQuery fuel d id)) ;;
  match r with
  | inl err =>
      say (Error "파일 DB 삭제 오류:" (AText err)) ;;;
      ret (Status 500 err)
  | inr _ =>
      r <- db_run (fun d => accepted (deleteSubfoldersQuery fuel d id id)) ;;
      match r with
      | inl err =>
          say (Error "하위 폴더 삭제 오류:" (AText err)) ;;;
          ret (Status 500 err)
      | inr _ =>
          r <- db_run (fun d => Some (inr (deleteFolderQuery d id))) ;;
          match r with
          | inl err =>
              say (Error "메인 폴더 삭제 오류:" (AText err)) ;;;
              ret (Status 500 err)
          | inr changes =>
              say (Log "폴더 삭제 완료:" (AId id)) ;;;
              ret (Json [("message", JStr "폴더가 삭제되었습니다.");
                         ("deletedRows", JNum changes);
                         ("folderId", JNum id)])
          end
      end
  end.

(** [app.delete('/api/folders/:id', ...)]. *)
Definition delete_folder (fuel : nat) (id : Z) : M (response object) :=
  say (Log "폴더 삭제 요청:" (AId id)) ;;;
  r <- db_read (fun d => getSubItemsQuery fuel d id) ;;
  match r with
  | inl err =>
      say (Error "하위 항목 조회 오류:" (AText err)) ;;;
      ret (Status 500 err)
  | inr items =>
      say (Log "삭제할 항목들:" (AItems items)) ;;;
      blob_phase items ;;;
      database_phase fuel id
  end.

(** ** Route 7: delete one file ([DELETE /api/files/:id]) *)

(** [selectQuery] of the route, [SELECT * FROM files WHERE id = ?] read
    with [db.get]: the first row, if any. *)
Definition selectFileQuery (d : database) (id : Z) : option File.t :=
  find (fun f => Z.eqb (File.id f) id) (files d).

(** [deleteQuery] of the route, [DELETE FROM files WHERE id = ?]. *)
Definition deleteFileQuery (d : database) (id : Z) : database * Z :=
  let gone := fun f => Z.eqb (File.id f) id in
  (mkDb (folders d) (filter (fun f => negb (gone f)) (files d)) (folders_seq d),
   Z.of_nat (List.length (filter gone (files d)))).

Definition delete_file (id : Z) : M (response object) :=
  say (Log "파일 삭제 요청:" (AId id)) ;;;
  r <- db_read (fun d => Some (selectFileQuery d id)) ;;
  match r with
  | inl err =>
      say (Error "파일 조회 오류:" (AText err)) ;;;
      ret (Status 500 err)
  | inr None => ret (Status 404 "파일을 찾을 수 없습니다.")
  | inr (Some row) =>
      say (Log "삭제할 파일 정보:" (AFile row)) ;;;
      (if negb (String.eqb (File.file_path row) "")
       then remove_blob (File.file_path row)
       else ret tt) ;;;
      r <- db_run (fun d => Some (inr (deleteFileQuery d id))) ;;
      match r with
      | inl err =>
          say (Error "파일 DB 삭제 오류:" (AText err)) ;;;
          ret (Status 500 err)
      | inr changes =>
          say (Log "파일 DB 삭제 완료:" (AId id)) ;;;
          ret (Json [("message", JStr "파일이 삭제되었습니다.");
                     ("deletedRows", JNum changes);
                     ("fileId", JNum id);
                     ("fileName", JStr (File.original_name row))])
      end
  end.

(** ** Route 1, the handler *)

Definition list_folders (fuel : nat) (tabType : string) : M (response (list node)) :=
  r <- db_read (fun d => Some (foldersQuery d tabType)) ;;
  match r with
  | inl err =>
      say (Error "폴더 조회 오류:" (AText err)) ;;;
      ret (Status 500 err)
  | inr rows =>
      say (Log "DB에서 가져온 폴더들:" (ARows rows)) ;;;
      fun w =>
        match buildTree fuel rows None with
        | None => None
        | Some result =>
            (say (Log "최종 폴더 트리 구조:" (ATree result)) ;;;
             ret (Json result)) w
        end
  end.

(** ** Route 3: create a folder ([POST /api/folders]) *)

Module Js.

(** Truthiness, as [!x] and [x && ...] test it. *)
Definition truthy (v : jsval) : bool :=
  match v with
  | JUndefined | JNull => false
  | JBool b => b
  | JNum n => negb (Z.eqb n 0)
  | JStr s => negb (String.eqb s "")
  end.

(** [v !== s] for a string literal [s]. *)
Definition differs_from (v : jsval) (s : string) : bool :=
  match v with
  | JStr t => negb (String.eqb t s)
  | _ => true
  end.

(** [v && v !== 'null' && v !== '']. *)
Definition given (v : jsval) : bool :=
  truthy v && differs_from v "null" && differs_from v "".

(** *** Numbers

    Every finite double is below 2^1024 in magnitude.  The two infinities
    are written as the first integers outside that range, so that order
    and equality among the numbers the program meets are those of [Z]. *)
Definition infinity : Z := 2 ^ 1024.

Definition is_finite (n : Z) : bool := Z.abs n <? infinity.

(** The double nearest to an integer: 53 significant bits, a tie goes to
    the even significand, and what would round to 2^1024 or more is an
    infinity. *)
Definition to_double (z : Z) : Z :=
  let a := Z.abs z in
  let e := Z.log2 a - 52 in
  if e <=? 0 then z
  else
    let q := a / 2 ^ e in
    let r := a mod 2 ^ e in
    let half := 2 ^ (e - 1) in
    let q' := if (half <? r) || ((r =? half) && Z.odd q) then q + 1 else q in
    Z.sgn z * Z.min (q' * 2 ^ e) infinity.

(** [JSON.stringify], which [res.json] applies to its argument, writes a
    number that is not finite as null. *)
Definition sent (v : jsval) : jsval :=
  match v with
  | JNum n => if is_finite n then v else JNull
  | _ => v
  end.

Definition sent_object (o : object) : object :=
  map (fun field => (fst field, sent (snd field))) o.

Fixpoint decimal_length (fuel : nat) (x : Z) : Z :=
  match fuel with
  | O => 1
  | S fuel' => if x <? 10 then 1 else 1 + decimal_length fuel' (x / 10)
  end.

(** The digits [String(x)] starts with, for a double [x] >= 10^21: the
    text is in exponent form, [d.ddd...e+NN], on the shortest decimal
    that reads back as [x], the nearest to [x] if there are several.  A
    decimal of [k] digits is tried on both sides of [x]. *)
Definition shortest_with (x k : Z) : option Z :=
  let unit := 10 ^ (decimal_length 400 x - k) in
  let lo := x / unit in
  let hi := lo + 1 in
  let lo_ok := to_double (lo * unit) =? x in
  let hi_ok := to_double (hi * unit) =? x in
  let leading := fun s => if s =? 10 ^ k then 1 else s / 10 ^ (k - 1) in
  if lo_ok && hi_ok then
    let below := x - lo * unit in
    let above := hi * unit - x in
    if (below <? above) || ((below =? above) && Z.even lo)
    then Some (leading lo) else Some (leading hi)
  else if lo_ok then Some (leading lo)
  else if hi_ok then Some (leading hi)
  else None.

Fixpoint shortest_leading_digit (x : Z) (ks : list Z) : Z :=
  match ks with
  | [] => x / 10 ^ (decimal_length 400 x - 1)
  | k :: ks' =>
      match shortest_with x k with
      | Some d => d
      | None => shortest_leading_digit x ks'
      end
  end.

(** *** [parseInt] *)

(** White space of one byte: space, and TAB to CR. *)
Definition is_space (c : ascii) : bool :=
  let n := N_of_ascii c in
  ((n =? 32) || ((9 <=? n) && (n <=? 13)))%N.

(** U+00A0, in UTF-8. *)
Definition is_space2 (a b : ascii) : bool :=
  ((N_of_ascii a =? 194) && (N_of_ascii b =? 160))%N.

(** U+1680, U+2000 to U+200A, U+2028, U+2029, U+202F, U+205F, U+3000 and
    U+FEFF, in UTF-8. *)
Definition is_space3 (a b c : ascii) : bool :=
  let '(x, y, z) := (N_of_ascii a, N_of_ascii b, N_of_ascii c) in
  (((x =? 225) && (y =? 154) && (z =? 128))
   || ((x =? 226) && (y =? 128)
       && (((128 <=? z) && (z <=? 138)) || (z =? 168) || (z =? 169) || (z =? 175)))
   || ((x =? 226) && (y =? 129) && (z =? 159))
   || ((x =? 227) && (y =? 128) && (z =? 128))
   || ((x =? 239) && (y =? 187) && (z =? 191)))%N.

(** The white space and line terminators [parseInt] strips from the
    front of its text. *)
Fixpoint skip_spaces (s : list ascii) : list ascii :=
  match s with
  | [] => []
  | a :: s1 =>
      if is_space a then skip_spaces s1
      else
        match s1 with
        | [] => s
        | b :: s2 =>
            if is_space2 a b then skip_spaces s2
            else
              match s2 with
              | [] => s
              | c :: s3 => if is_space3 a b c then skip_spaces s3 else s
              end
        end
  end.

Definition digit_of (radix : Z) (c : ascii) : option Z :=
  let n := Z.of_N (N_of_ascii c) in
  let v :=
    if (48 <=? n) && (n <=? 57) then Some (n - 48)
    else if (97 <=? n) && (n <=? 122) then Some (n - 87)
    else if (65 <=? n) && (n <=? 90) then Some (n - 55)
    else None in
  match v with
  | Some x => if x <? radix then Some x else None
  | None => None
  end.

(** The longest run of digits at the front; [None] when there is none. *)
Fixpoint digits (radix : Z) (s : list ascii) (acc : option Z) : option Z :=
  match s with
  | [] => acc
  | c :: s' =>
      match digit_of radix c with
      | None => acc
      | Some v =>
          digits radix s'
            (Some (radix * match acc with Some a => a | None => 0 end + v))
      end
  end.

(** [parseInt(text)] without a radix; [None] is NaN.  The value of the
    digits becomes a double; a zero keeps no sign. *)
Definition parseInt_text (text : string) : option Z :=
  let s := skip_spaces (list_ascii_of_string text) in
  let '(negative, s) :=
    match s with
    | "-"%char :: s' => (true, s')
    | "+"%char :: s' => (false, s')
    | _ => (false, s)
    end in
  let '(radix, s) :=
    match s with
    | "0"%char :: "x"%char :: s' => (16, s')
    | "0"%char :: "X"%char :: s' => (16, s')
    | _ => (10, s)
    end in
  match digits radix s None with
  | None => None
  | Some v => Some (to_double (if negative then - v else v))
  end.

(** [parseInt(v)]: the argument is turned into text first.  An integer
    below 10^21 prints in plain decimal, a larger one in exponent form,
    of which [parseInt] reads the first digit, and an infinity prints as
    a word. *)
Definition parseInt (v : jsval) : option Z :=
  match v with
  | JNum n =>
      if is_finite n then
        if Z.abs n <? 10 ^ 21 then Some n
        else Some (Z.sgn n
                   * shortest_leading_digit (Z.abs n)
                       [1; 2; 3; 4; 5; 6; 7; 8; 9; 10; 11; 12; 13; 14; 15; 16; 17])
      else None
  | JStr s => parseInt_text s
  | JUndefined | JNull | JBool _ => None
  end.

End Js.

(** [req.body] of the route: [name] and [tabType] absent or text,
    [parentId] any scalar. *)
Record folder_body : Type := mkBody
  { name : option string;
    parentId : jsval;
    tabType : option string }.

Definition of_text (s : option string) : jsval :=
  match s with
  | Some t => JStr t
  | None => JUndefined
  end.

Definition of_int (n : option Z) : jsval :=
  match n with
  | Some i => JNum i
  | None => JNull
  end.

Definition max_id (tbl : list Folder.t) : Z :=
  fold_right Z.max 0 (map Folder.id tbl).

(** [INSERT INTO folders (name, parent_id, tab_type) VALUES (?, ?, ?)]:
    the CHECK on [tab_type], the next AUTOINCREMENT id (64-bit), the
    default [created_at]; the answer is [this.lastID]. *)
Definition next_folder_id (d : database) : Z :=
  Z.max (max_id (folders d)) (folders_seq d) + 1.

Definition insertFolderQuery (d : database) (now : string)
    (name : string) (parent : option Z) (tabType : string)
  : string + database * Z :=
  if String.eqb tabType "my" || String.eqb tabType "public" then
    let id := next_folder_id d in
    if id <=? 9223372036854775807 then
      inr (mkDb (folders d ++ [Folder.mk id name parent tabType now]) (files d) id,
           id)
    else inl "SQLITE_FULL: database or disk is full"
  else inl "SQLITE_CONSTRAINT: CHECK constraint failed: tab_type IN ('my', 'public')".

Definition create_folder (body : folder_body) : M (response object) :=
  say (Log "폴더 생성 요청:"
           (AObject [("name", of_text (name body));
                     ("parentId", parentId body);
                     ("tabType", of_text (tabType body))])) ;;;
  match name body, tabType body with
  | Some nm, Some tab =>
      if String.eqb nm "" || String.eqb tab "" then
        ret (Status 400 "폴더명과 탭 타입이 필요합니다.")
      else
        let parsed :=
          if Js.given (parentId body) then
            match Js.parseInt (parentId body) with
            | None => None
            | Some p => Some (Some p)
            end
          else Some None in
        match parsed with
        | None => ret (Status 400 "잘못된 부모 폴더 ID입니다.")
        | Some processedParentId =>
            say (Log "처리된 parentId:" (AValue (of_int processedParentId))) ;;;
            r <- (fun w =>
                    db_run (fun d => Some (insertFolderQuery d (clock w) nm
                                             processedParentId tab)) w) ;;
            match r with
            | inl err =>
                say (Error "폴더 생성 오류:" (AText err)) ;;;
                ret (Status 500 err)
            | inr lastID =>
                say (Log "폴더 생성 성공:" (AId lastID)) ;;;
                ret (Json [("id", JNum lastID);
                           ("name", JStr nm);
                           ("parent_id", of_int processedParentId);
                           ("tab_type", JStr tab)])
            end
        end
  | _, _ => ret (Status 400 "폴더명과 탭 타입이 필요합니다.")
  end.

(** ** Route 8: search ([GET /api/search])

    The engine refuses a [LIKE] pattern of more than 50000 bytes; a
    request line cannot carry one, and the case is left out. *)

(** A row of [SELECT f.*, fo.name as folder_name]. *)
Record search_row : Type := mkRow
  { file : File.t;
    folder_name : option string }.

(** [files f LEFT JOIN folders fo ON f.folder_id = fo.id]. *)
Definition left_join (fs : list File.t) (fos : list Folder.t) : list search_row :=
  flat_map (fun f =>
              match filter (fun fo => opt_Z_eqb (File.folder_id f)
                                                (Some (Folder.id fo))) fos with
              | [] => [mkRow f None]
              | matches => map (fun fo => mkRow f (Some (Folder.name fo))) matches
              end)
           fs.

(** [ORDER BY f.created_at DESC]. *)
Definition newest_first (a b : search_row) : bool :=
  Sql.text_leb (File.created_at (file b)) (File.created_at (file a)).

(** [WHERE f.tab_type = ? AND (f.original_name LIKE ? OR f.name LIKE ?)];
    an absent [tabType] is bound as NULL, which equals nothing. *)
Definition search_where (tabType : option string) (pattern : string)
    (r : search_row) : bool :=
  match tabType with
  | None => false
  | Some tab =>
      String.eqb (File.tab_type (file r)) tab
      && (Sql.like (File.original_name (file r)) pattern
          || Sql.like (File.name (file r)) pattern)
  end.

Definition searchQuery (d : database) (tabType : option string) (pattern : string)
  : list search_row :=
  Sql.limit 50
    (Sql.order_by newest_first
       (filter (search_where tabType pattern) (left_join (files d) (folders d)))).

Definition search (query tabType : option string)
  : M (response (list search_row)) :=
  match query with
  | None | Some EmptyString => ret (Status 400 "검색어가 필요합니다.")
  | Some q =>
      let searchTerm := ("%" ++ q ++ "%")%string in
      r <- db_read (fun d => Some (searchQuery d tabType searchTerm)) ;;
      match r with
      | inl err => ret (Status 500 err)
      | inr rows => ret (Json rows)
      end
  end.

(** ** Notions used to state the properties *)

(** The tables after [deleteFilesQuery], given the rows of [folder_tree]. *)
Definition without_files_of (tree : list Folder.t) (d : database) : database :=
  mkDb (folders d)
       (filter (fun f => negb (in_tree (File.folder_id f) tree)) (files d))
       (folders_seq d).

(** The tables after [deleteFolderQuery]. *)
Definition without_folder (id : Z) (d : database) : database :=
  mkDb (filter (fun f => negb (Z.eqb (Folder.id f) id)) (folders d))
       (files d) (folders_seq d).

Definition rows_with_id (id : Z) (d : database) : Z :=
  Z.of_nat (List.length (filter (fun f => Z.eqb (Folder.id f) id) (folders d))).

Definition base_rows (id : Z) (d : database) : list Folder.t :=
  filter (fun f => Z.eqb (Folder.id f) id) (folders d).

(** The rows [getSubItemsQuery] answers with, given the rows of
    [folder_tree]. *)
Definition sub_items (tree : list Folder.t) (d : database) : list sub_item :=
  map (fun f => mkItem "folder" (Folder.id f) (Folder.name f) None) tree
  ++ map (fun f => mkItem "file" (File.id f) (File.original_name f)
                         (Some (File.file_path f)))
         (filter (fun f => in_tree (File.folder_id f) tree) (files d)).

(** The world when the blob loop starts: the request and the rows found
    are on the console, the first statement is behind. *)
Definition before_blobs (id : Z) (tree : list Folder.t) (w : world) : world :=
  mkWorld (db w) (fs w)
          (console w ++ [Log "폴더 삭제 요청:" (AId id);
                         Log "삭제할 항목들:" (AItems (sub_items tree (db w)))])
          (skipn 1 (faults w)) (clock w).

(** The two lines the blob loop can write about a path. *)
Definition blob_removed (p : string) : console_line := Log "파일 삭제됨:" (AText p).
Definition blob_stuck (p : string) : console_line := Error "파일 삭제 오류:" (AText p).

(** The blob loop as a function of the paths it visits: the disk it
    leaves and the lines it writes. *)
Fixpoint blob_trace (paths : list string) (d : disk) : disk * list console_line :=
  match paths with
  | [] => (d, [])
  | p :: rest =>
      if existsSync d p then
        match unlinkSync d p with
        | Some d' =>
            (fst (blob_trace rest d'), blob_removed p :: snd (blob_trace rest d'))
        | None =>
            (fst (blob_trace rest d), blob_stuck p :: snd (blob_trace rest d))
        end
      else blob_trace rest d
  end.

(** The paths [blob_phase] visits. *)
Definition stored_paths (items : list sub_item) : list string :=
  map path_of (filter is_stored_file items).

(** The world when the database phase starts. *)
Definition after_blobs (id : Z) (tree : list Folder.t) (w : world) : world :=
  let w0 := before_blobs id tree w in
  let paths := stored_paths (sub_items tree (db w)) in
  mkWorld (db w) (fst (blob_trace paths (fs w)))
          (console w0 ++ snd (blob_trace paths (fs w)))
          (faults w0) (clock w).

(** The engine runs the first [n] statements it is sent. *)
Definition no_fault (n : nat) (w : world) : bool :=
  forallb (fun o => match o with None => true | Some _ => false end)
          (firstn n (faults w)).

(** *** Parent links

    What the hierarchy of a set of folder records consists of: the pairs
    (id, parent_id). *)
Definition links : Type := list (Z * option Z).

Definition folder_links (tbl : list Folder.t) : links :=
  map (fun f => (Folder.id f, Folder.parent_id f)) tbl.

Definition item_links (items : list Item.t) : links :=
  map (fun it => (Item.id it, Item.parent_id it)) items.

Fixpoint distinct (l : list Z) : bool :=
  match l with
  | [] => true
  | x :: l' => negb (mem_Z x l') && distinct l'
  end.

(** [id] is the PRIMARY KEY: no two records share one. *)
Definition unique_ids (l : links) : bool := distinct (map fst l).

(** The parent link of the record with id [i], if there is such a record. *)
Definition parent_of (l : links) (i : Z) : option (option Z) :=
  option_map snd (find (fun e => Z.eqb (fst e) i) l).

(** Following parent links from [p] upwards ends, at a root or at an id
    that is no record's, within [fuel] records. *)
Fixpoint chain_ends (fuel : nat) (l : links) (p : option Z) : bool :=
  match p with
  | None => true
  | Some i =>
      match parent_of l i with
      | None => true
      | Some q =>
          match fuel with
          | O => false
          | S fuel' => chain_ends fuel' l q
          end
      end
  end.

(** No record is its own ancestor: a chain of parents that does not come
    back visits each record at most once, so it ends within as many
    steps as there are records. *)
Definition no_cycles (l : links) : bool :=
  forallb (fun e => chain_ends (List.length l) l (snd e)) l.

(** Every parent_id is null or the id of a record of the set. *)
Definition parents_resolve (l : links) : bool :=
  forallb (fun e => match snd e with
                    | None => true
                    | Some p => mem_Z p (map fst l)
                    end) l.

(** A forest, in the words of the specification. *)
Definition is_forest (l : links) : bool :=
  unique_ids l && parents_resolve l && no_cycles l.

(** The number of records on the chain of parents from [p] upwards. *)
Fixpoint depth (fuel : nat) (l : links) (p : option Z) : nat :=
  match p with
  | None => O
  | Some i =>
      match parent_of l i with
      | None => O
      | Some q =>
          match fuel with
          | O => O
          | S fuel' => S (depth fuel' l q)
          end
      end
  end.

(** ** The example of the specification

    Folders 1:root, 2:child of 1, 3:grandchild of 2; files a in 3, b in 1
    and c at the root of the namespace. *)
Module Example.

Definition folder (id : Z) (name : string) (parent : option Z) : Folder.t :=
  Folder.mk id name parent "my" "2024-05-01 09:00:00".

Definition stored (id : Z) (name : string) (folder_id : option Z) (at_ : string)
  : File.t :=
  File.mk id ("1714554000000-" ++ name)%string name ("uploads/" ++ name)%string
          1024 (Some "application/pdf") folder_id "my" at_.

Definition tables : database :=
  mkDb [folder 1 "root" None; folder 2 "child" (Some 1);
        folder 3 "grandchild" (Some 2)]
       [stored 1 "a" (Some 3) "2024-05-01 09:01:00";
        stored 2 "b" (Some 1) "2024-05-01 09:02:00";
        stored 3 "c" None "2024-05-01 09:03:00"]
       3.

(** Every blob in place, the engine sound. *)
Definition start : world :=
  mkWorld tables (mkDisk ["uploads/a"; "uploads/b"; "uploads/c"] []) [] []
          "2024-05-02 10:00:00".

(** The blob of file a is gone, and the blob of file b cannot be removed. *)
Definition damaged : world :=
  mkWorld tables (mkDisk ["uploads/b"; "uploads/c"] ["uploads/b"]) [] []
          "2024-05-02 10:00:00".

(** The same with a folder 4 in the other namespace. *)
Definition shared : world :=
  mkWorld (mkDb (folders tables
                 ++ [Folder.mk 4 "team" None "public" "2024-05-01 09:30:00"])
                (files tables) 4)
          (mkDisk ["uploads/a"; "uploads/b"; "uploads/c"] []) [] []
          "2024-05-02 10:00:00".

(** The folder table some requests later: folder 1 is gone and its
    descendants are still there, next to two new root folders. *)
Definition orphaned : world :=
  mkWorld (mkDb [folder 2 "child" (Some 1); folder 3 "grandchild" (Some 2);
                 folder 4 "zeta" None; folder 5 "alpha" None;
                 folder 6 "beta" (Some 4)]
                [stored 3 "c" None "2024-05-01 09:03:00"] 6)
          (mkDisk ["uploads/c"] []) [] [] "2024-05-03 10:00:00".

(** The engine fails the third statement it is sent. *)
Definition busy : world :=
  mkWorld tables (mkDisk ["uploads/a"; "uploads/b"; "uploads/c"] []) []
          [None; None; Some "SQLITE_BUSY: database is locked"]
          "2024-05-02 10:00:00".

End Example.

(** *** Search terms and matching *)

Definition bytes (s : string) : list ascii := list_ascii_of_string s.

(** [text] contains [term] as a substring once the letters A-Z of both
    are lowered. *)
Definition contains_nocase (text term : string) : Prop :=
  exists pre post,
    map Sql.lower (bytes text) = pre ++ map Sql.lower (bytes term) ++ post.

(** The term has none of the two characters [LIKE] gives a meaning to. *)
Definition wildcard_free (term : string) : bool :=
  forallb (fun c => negb (Ascii.eqb c "%") && negb (Ascii.eqb c "_")) (bytes term).


Definition nul_free (s : string) : bool :=
  forallb (fun c => negb (Sql.is_nul c)) (bytes s).


(** *** Forests *)

(** A node and all the nodes below it. *)
Fixpoint nodes (n : node) : list node :=
  n :: flat_map nodes (children n).

Definition all_nodes (forest : list node) : list node := flat_map nodes forest.

(** The nodes of one level are in the byte-wise order of their names. *)
Definition names_sorted (level : list node) : Prop :=
  StronglySorted
    (fun a b => String.leb (Item.name (item a)) (Item.name (item b)) = true)
    level.

(** The chain of ids from a record up to a root: [path_to items p path]
    when [path] starts at the record [p] names (nothing for [None]) and
    follows parent links, inside [items], until a record without parent. *)
Inductive path_to (items : list Item.t) : option Z -> list Z -> Prop :=
  | path_root : path_to items None []
  | path_step (it : Item.t) (path : list Z) :
      In it items ->
      path_to items (Item.parent_id it) path ->
      path_to items (Some (Item.id it)) (Item.id it :: path).

(** The order of [ORDER BY parent_id ASC, name ASC] on the rows sent to
    the tree builder. *)
Definition item_le (a b : Item.t) : Prop :=
  match Sql.null_int_compare (Item.parent_id a) (Item.parent_id b) with
  | Lt => True
  | Eq => Sql.text_leb (Item.name a) (Item.name b) = true
  | Gt => False
  end.

(** *** The same notions as propositions *)

(** The record with id [c] names [p] as its parent. *)
Definition child_of (l : links) (c p : Z) : Prop := In (c, Some p) l.

(** [a] is a parent, or a parent of a parent, ... of [c]. *)
Definition ancestor (l : links) : Z -> Z -> Prop := clos_trans Z (child_of l).

Definition forest (l : links) : Prop :=
  NoDup (map fst l)
  /\ (forall c p, child_of l c p -> In p (map fst l))
  /\ (forall c, ~ ancestor l c c).

(** A run of records, each the child of the next. *)
Inductive linked (l : links) : list Z -> Prop :=
  | linked_one (x : Z) : In x (map fst l) -> linked l [x]
  | linked_cons (x y : Z) (rest : list Z) :
      child_of l x y -> linked l (y :: rest) -> linked l (x :: y :: rest).

(** The folders at or below the rows [work]: the set the recursive
    query is meant to compute. *)
Inductive below (tbl work : list Folder.t) : Folder.t -> Prop :=
  | below_base (f : Folder.t) : In f work -> below tbl work f
  | below_step (r f : Folder.t) :
      below tbl work r -> In f tbl ->
      Folder.parent_id f = Some (Folder.id r) -> below tbl work f.

(** ** Route 2: the files of a namespace ([GET /api/files/:tabType])

    The route's [console.log] lines, which print counts and rows through
    template strings, are left out. *)

(** A row of [SELECT id, name, original_name, file_size, mime_type,
    folder_id, created_at FROM files]. *)
Module Listing.
Record t : Type := mk
  { id : Z;
    name : string;
    original_name : string;
    file_size : Z;
    mime_type : option string;
    folder_id : option Z;
    created_at : string }.

Definition of_file (f : File.t) : t :=
  mk (File.id f) (File.name f) (File.original_name f) (File.file_size f)
     (File.mime_type f) (File.folder_id f) (File.created_at f).
End Listing.

(** What the route appends to [WHERE tab_type = ?]: nothing,
    [AND folder_id = ?] with [parseInt(folderId)] bound ([None] is NaN,
    which reaches the engine as NULL), or [AND folder_id IS NULL]. *)
Inductive folder_condition : Type :=
  | AnyFolder
  | FolderIs (bound : option Z)
  | FolderIsNull.

(** [folderId] is [req.query.folderId]: absent or text. *)
Definition folder_condition_of (folderId : option string) : folder_condition :=
  match folderId with
  | None => AnyFolder
  | Some s =>
      if String.eqb s "" then AnyFolder
      else if Js.truthy (JStr s) && Js.differs_from (JStr s) "null"
           then FolderIs (Js.parseInt (JStr s))
           else FolderIsNull
  end.

Definition folder_condition_holds (c : folder_condition) (f : File.t) : bool :=
  match c with
  | AnyFolder => true
  | FolderIs None => false
  | FolderIs (Some i) => opt_Z_eqb (File.folder_id f) (Some i)
  | FolderIsNull =>
      match File.folder_id f with
      | None => true
      | Some _ => false
      end
  end.

(** [ORDER BY name]. *)
Definition by_stored_name (a b : File.t) : bool :=
  Sql.text_leb (File.name a) (File.name b).

Definition filesQuery (d : database) (tabType : string) (c : folder_condition)
  : list Listing.t :=
  map Listing.of_file
      (Sql.order_by by_stored_name
         (filter (fun f => String.eqb (File.tab_type f) tabType
                           && folder_condition_holds c f) (files d))).

Definition list_files (tabType : string) (folderId : option string)
  : M (response (list Listing.t)) :=
  r <- db_read (fun d => Some (filesQuery d tabType (folder_condition_of folderId))) ;;
  match r with
  | inl err =>
      say (Error "파일 조회 오류:" (AText err)) ;;;
      ret (Status 500 err)
  | inr rows => ret (Json rows)
  end.

(** ** Route 4: upload ([POST /api/upload])

    The upload middleware has stored the blob and filled [req.file]
    before the handler runs.  The AUTOINCREMENT counter of [files] is
    not part of [database]; the handler takes it and gives it back. *)

Module Upload.
(** [req.file].  [originalname] is the name as the handler reads it
    again as UTF-8 ([Buffer.from(..., 'latin1').toString('utf8')]), taken
    to be well-formed. *)
Record file : Type := mkFile
  { filename : string;
    originalname : string;
    path : string;
    size : Z;
    mimetype : string }.

(** [req.body]: the text fields of the form. *)
Record body : Type := mkBody
  { folderId : option string;
    tabType : option string }.
End Upload.

Definition max_file_id (tbl : list File.t) : Z :=
  fold_right Z.max 0 (map File.id tbl).

Definition next_file_id (d : database) (files_seq : Z) : Z :=
  Z.max (max_file_id (files d)) files_seq + 1.

(** [INSERT INTO files (name, original_name, file_path, file_size,
    mime_type, folder_id, tab_type) VALUES (?, ?, ?, ?, ?, ?, ?)]:
    [tab_type] is NOT NULL and CHECKed; the answer is [this.lastID]. *)
Definition insertFileQuery (d : database) (files_seq : Z) (now : string)
    (name original_name file_path : string) (file_size : Z)
    (mime_type : option string) (folder_id : option Z) (tabType : option string)
  : string + database * Z :=
  match tabType with
  | None => inl "SQLITE_CONSTRAINT: NOT NULL constraint failed: files.tab_type"
  | Some tab =>
      if String.eqb tab "my" || String.eqb tab "public" then
        let id := next_file_id d files_seq in
        if id <=? 9223372036854775807 then
          inr (mkDb (folders d)
                    (files d ++ [File.mk id name original_name file_path file_size
                                         mime_type folder_id tab now])
                    (folders_seq d),
               id)
        else inl "SQLITE_FULL: database or disk is full"
      else inl "SQLITE_CONSTRAINT: CHECK constraint failed: tab_type IN ('my', 'public')"
  end.

(** [fs.unlink(p, () => {})]: the removal, its failure ignored. *)
Definition unlink_quiet (p : string) : M unit :=
  fun w =>
    match unlinkSync (fs w) p with
    | Some disk' =>
        Some (tt, mkWorld (db w) disk' (console w) (faults w) (clock w))
    | None => Some (tt, w)
    end.

(** [processedParentId] and [processedFolderId]: [Some None] is null,
    [None] the NaN that makes the handler answer 400. *)
Definition processed_id (v : jsval) : option (option Z) :=
  if Js.given v then
    match Js.parseInt v with
    | None => None
    | Some p => Some (Some p)
    end
  else Some None.

(** The request line every upload writes first. *)
Definition upload_request_line (file : option Upload.file) (body : Upload.body)
  : console_line :=
  Log "파일 업로드 요청:"
      (AObject
         (match file with
          | Some f => [("file.filename", JStr (Upload.filename f));
                       ("file.originalname", JStr (Upload.originalname f));
                       ("file.path", JStr (Upload.path f));
                       ("file.size", JNum (Upload.size f));
                       ("file.mimetype", JStr (Upload.mimetype f))]
          | None => [("file", JUndefined)]
          end
          ++ [("body.folderId", of_text (Upload.folderId body));
              ("body.tabType", of_text (Upload.tabType body))])).

Definition upload (files_seq : Z) (file : option Upload.file) (body : Upload.body)
  : M (response object * Z) :=
  say (upload_request_line file body) ;;;
  match file with
  | None => ret (Status 400 "파일이 필요합니다.", files_seq)
  | Some f =>
      match processed_id (of_text (Upload.folderId body)) with
      | None => ret (Status 400 "잘못된 폴더 ID입니다.", files_seq)
      | Some processedFolderId =>
          say (Log "처리된 folderId:" (AValue (of_int processedFolderId))) ;;;
          r <- (fun w =>
                  db_run (fun d =>
                            Some (insertFileQuery d files_seq (clock w)
                                    (Upload.filename f) (Upload.originalname f)
                                    (Upload.path f) (Upload.size f)
                                    (Some (Upload.mimetype f))
                                    processedFolderId (Upload.tabType body))) w) ;;
          match r with
          | inl err =>
              say (Error "파일 업로드 오류:" (AText err)) ;;;
              unlink_quiet (Upload.path f) ;;;
              ret (Status 500 err, files_seq)
          | inr lastID =>
              say (Log "파일 업로드 성공:" (AId lastID)) ;;;
              ret (Json [("id", JNum lastID);
                         ("name", JStr (Upload.filename f));
                         ("original_name", JStr (Upload.originalname f));
                         ("file_size", JNum (Upload.size f));
                         ("mime_type", JStr (Upload.mimetype f));
                         ("folder_id", of_int processedFolderId);
                         ("tab_type", of_text (Upload.tabType body))],
                   lastID)
          end
      end
  end.

(** ** Routes 5 and 5-1: download and preview

    [join] stands for [path.join(uploadsDir, name)], and
    [createReadStream] for what piping the stream of a path into the
    answer comes to: the blob goes out to its end, or the stream raises
    an error, before or after the first bytes, and with them the headers,
    have been sent. *)

Inductive stream_outcome : Type :=
  | Piped
  | Broke (headersSent : bool) (err : string).

(** The answer: the headers and the whole blob; a refusal before any
    header was set; the 500 of the stream's error handler, which goes out
    under the headers set before it, the content type apart; or headers
    and a part of the blob, after which nothing more is sent. *)
Inductive file_answer : Type :=
  | SendFile (path : string) (headers : list (string * string))
  | Refused (code : Z) (error : string)
  | StreamError (kept : list (string * string)) (error : string)
  | Cut (path : string) (headers : list (string * string)).

(** [encodeURIComponent] on UTF-8 text: the unreserved characters stay,
    every other byte becomes [%XX]. *)
Definition unreserved (c : ascii) : bool :=
  let n := N_of_ascii c in
  ((48 <=? n) && (n <=? 57) || (65 <=? n) && (n <=? 90)
   || (97 <=? n) && (n <=? 122))%N
  || existsb (Ascii.eqb c) (bytes "-_.!~*'()").

Definition hex_digit (n : N) : ascii :=
  if (n <? 10)%N then ascii_of_N (48 + n) else ascii_of_N (55 + n).

Definition percent_encode (c : ascii) : list ascii :=
  if unreserved c then [c]
  else ["%"%char; hex_digit (N_of_ascii c / 16); hex_digit (N_of_ascii c mod 16)].

Definition encodeURIComponent (s : string) : string :=
  string_of_list_ascii (flat_map percent_encode (bytes s)).

Definition double_quote : string := String (ascii_of_N 34) "".

(** [row.file_path || path.join(uploadsDir, row.name)]. *)
Definition blob_path (join : string -> string) (row : File.t) : string :=
  if String.eqb (File.file_path row) "" then join (File.name row)
  else File.file_path row.

(** [row.mime_type || 'application/octet-stream']. *)
Definition content_type (row : File.t) : string :=
  match File.mime_type row with
  | Some m => if String.eqb m "" then "application/octet-stream" else m
  | None => "application/octet-stream"
  end.

Definition disposition (kind : string) (row : File.t) : string :=
  (kind ++ "; filename=" ++ double_quote
        ++ encodeURIComponent (File.original_name row) ++ double_quote)%string.

(** [res.setHeader] throws on a value with a character other than TAB,
    U+0020 to U+007E and U+0080 to U+00FF; in UTF-8 the last are the
    sequences of two bytes that start with C2 or C3. *)
Fixpoint header_safe_bytes (s : list ascii) : bool :=
  match s with
  | [] => true
  | a :: s1 =>
      let x := N_of_ascii a in
      if ((x =? 9) || ((32 <=? x) && (x <=? 126)))%N then header_safe_bytes s1
      else
        match s1 with
        | b :: s2 =>
            ((x =? 194) || (x =? 195))%N && Sql.is_continuation b
            && header_safe_bytes s2
        | [] => false
        end
  end.

Definition header_safe (value : string) : bool := header_safe_bytes (bytes value).

(** An exception in the callback of a query: nothing catches it, the
    process ends, and the request gets no answer. *)
Definition throw {A : Type} : M A := fun _ => None.

(** [app.get('/api/download/:fileId', ...)]. *)
Definition download (join : string -> string)
    (createReadStream : string -> stream_outcome) (fileId : Z) : M file_answer :=
  r <- db_read (fun d => Some (selectFileQuery d fileId)) ;;
  match r with
  | inl err => ret (Refused 500 err)
  | inr None => ret (Refused 404 "파일을 찾을 수 없습니다.")
  | inr (Some row) =>
      let filePath := blob_path join row in
      fun w =>
        if existsSync (fs w) filePath then
          if header_safe (content_type row) then
            match createReadStream filePath with
            | Piped =>
                ret (SendFile filePath
                       [("Content-Disposition", disposition "attachment" row);
                        ("Content-Type", content_type row)]) w
            | Broke headersSent err =>
                (say (Error "파일 전송 오류:" (AText err)) ;;;
                 if headersSent then
                   ret (Cut filePath
                          [("Content-Disposition", disposition "attachment" row);
                           ("Content-Type", content_type row)])
                 else
                   ret (StreamError
                          [("Content-Disposition", disposition "attachment" row)]
                          "파일 전송 중 오류가 발생했습니다.")) w
            end
          else throw w
        else ret (Refused 404 "파일이 서버에 존재하지 않습니다.") w
  end.

(** The header a PDF gets in the preview. *)
Definition frame_options (row : File.t) : list (string * string) :=
  match File.mime_type row with
  | Some m => if String.eqb m "application/pdf"
              then [("X-Frame-Options", "SAMEORIGIN")]
              else []
  | None => []
  end.

(** [app.get('/api/preview/:fileId', ...)]. *)
Definition preview (join : string -> string)
    (createReadStream : string -> stream_outcome) (fileId : Z) : M file_answer :=
  r <- db_read (fun d => Some (selectFileQuery d fileId)) ;;
  match r with
  | inl err => ret (Refused 500 err)
  | inr None => ret (Refused 404 "파일을 찾을 수 없습니다.")
  | inr (Some row) =>
      let filePath := blob_path join row in
      fun w =>
        if existsSync (fs w) filePath then
          if header_safe (content_type row) then
            match createReadStream filePath with
            | Piped =>
                ret (SendFile filePath
                       ([("Content-Disposition", disposition "inline" row);
                         ("Content-Type", content_type row)]
                        ++ frame_options row)) w
            | Broke headersSent err =>
                (say (Error "파일 전송 오류:" (AText err)) ;;;
                 if headersSent then
                   ret (Cut filePath
                          ([("Content-Disposition", disposition "inline" row);
                            ("Content-Type", content_type row)]
                           ++ frame_options row))
                 else
                   ret (StreamError
                          ([("Content-Disposition", disposition "inline" row)]
                           ++ frame_options row)
                          "파일 전송 중 오류가 발생했습니다.")) w
            end
          else throw w
        else ret (Refused 404 "파일이 서버에 존재하지 않습니다.") w
  end.

(** ** Route 5-2: the Office preview ([GET /api/office-preview/:fileId])

    The page is a fixed template around the file name and a sample
    document of one of three kinds; the template and the samples are not
    spelled out, the answer names the kind.  The [console.log] line of
    the template function is left out. *)

Inductive office_kind : Type := Word | Excel | PowerPoint.

Inductive page_answer : Type :=
  | Page (title : string) (document : option office_kind)
  | NoPage (code : Z) (error : string).

Fixpoint starts_with (p s : list ascii) : bool :=
  match p, s with
  | [], _ => true
  | _ :: _, [] => false
  | c :: p', d :: s' => Ascii.eqb c d && starts_with p' s'
  end.

(** [text.includes(needle)]. *)
Fixpoint includes_bytes (needle s : list ascii) : bool :=
  starts_with needle s
  || match s with
     | [] => false
     | _ :: s' => includes_bytes needle s'
     end.

Definition includes (text needle : string) : bool :=
  includes_bytes (bytes needle) (bytes text).

Fixpoint starts_with_nocase (p s : list ascii) : bool :=
  match p, s with
  | [], _ => true
  | _ :: _, [] => false
  | c :: p', d :: s' => Sql.char_eq_nocase c d && starts_with_nocase p' s'
  end.

(** [name.match(/\.(e1|e2|...)$/i)]: the name ends in a dot and one of
    the extensions, ASCII letters compared without case. *)
Definition has_extension (exts : list string) (name : string) : bool :=
  existsb (fun ext => starts_with_nocase (rev (bytes ("." ++ ext)%string))
                                         (rev (bytes name)))
          exts.

Definition isOfficeFile (row : File.t) : bool :=
  match File.mime_type row with
  | None => false
  | Some m =>
      negb (String.eqb m "")
      && (includes m "word" || includes m "excel" || includes m "powerpoint"
          || includes m "spreadsheet" || includes m "presentation"
          || has_extension ["doc"; "docx"; "xls"; "xlsx"; "ppt"; "pptx"]
                           (File.original_name row))
  end.

(** The branch of [generateOfficePreviewHtml] that fills [documentContent]. *)
Definition document_kind (row : File.t) : option office_kind :=
  let mimeType := match File.mime_type row with Some m => m | None => "" end in
  let fileName := File.original_name row in
  if includes mimeType "word" || has_extension ["doc"; "docx"] fileName
  then Some Word
  else if includes mimeType "excel" || includes mimeType "spreadsheet"
          || has_extension ["xls"; "xlsx"] fileName
  then Some Excel
  else if includes mimeType "powerpoint" || includes mimeType "presentation"
          || has_extension ["ppt"; "pptx"] fileName
  then Some PowerPoint
  else None.

Definition office_preview (join : string -> string) (fileId : Z) : M page_answer :=
  r <- db_read (fun d => Some (selectFileQuery d fileId)) ;;
  match r with
  | inl err => ret (NoPage 500 err)
  | inr None => ret (NoPage 404 "파일을 찾을 수 없습니다.")
  | inr (Some row) =>
      fun w =>
        if existsSync (fs w) (blob_path join row) then
          if isOfficeFile row
          then ret (Page (File.original_name row) (document_kind row)) w
          else ret (NoPage 400 "지원되지 않는 파일 형식입니다.") w
        else ret (NoPage 404 "파일이 서버에 존재하지 않습니다.") w
  end.

(* ================================================================== *)
(** * Part II: properties                                               *)
(* ================================================================== *)

(** ** Lists and membership tests *)

Lemma mem_Z_In (x : Z) (l : list Z) : mem_Z x l = true <-> In x l.
Proof.
  unfold mem_Z. rewrite existsb_exists. split.
  - intros [y [Hy Heq]]. apply Z.eqb_eq in Heq. now subst.
  - intros H. exists x. split; [assumption | apply Z.eqb_refl].
Qed.

Lemma mem_string_In (x : string) (l : list string) :
  mem_string x l = true <-> In x l.
Proof.
  unfold mem_string. rewrite existsb_exists. split.
  - intros [y [Hy Heq]]. apply String.eqb_eq in Heq. now subst.
  - intros H. exists x. split; [assumption | apply String.eqb_refl].
Qed.

Lemma filter_all {A : Type} (p : A -> bool) (l : list A) :
  (forall x, In x l -> p x = true) -> filter p l = l.
Proof.
  induction l as [|a l IH]; simpl; intros H; [reflexivity|].
  rewrite (H a (or_introl eq_refl)). f_equal. apply IH. intros; apply H; now right.
Qed.

Lemma filter_none {A : Type} (p : A -> bool) (l : list A) :
  (forall x, In x l -> p x = false) -> filter p l = [].
Proof.
  induction l as [|a l IH]; simpl; intros H; [reflexivity|].
  rewrite (H a (or_introl eq_refl)). apply IH. intros; apply H; now right.
Qed.

Lemma filter_id_absent (id : Z) (tbl : list Folder.t) :
  ~ In id (map Folder.id tbl) ->
  filter (fun f => Z.eqb (Folder.id f) id) tbl = [].
Proof.
  intros H. apply filter_none. intros f Hf.
  apply Z.eqb_neq. intros <-. apply H. now apply in_map.
Qed.

Lemma database_eta (d : database) : mkDb (folders d) (files d) (folders_seq d) = d.
Proof. now destruct d. Qed.

Lemma world_eta (w : world) :
  mkWorld (db w) (fs w) (console w) (faults w) (clock w) = w.
Proof. now destruct w. Qed.

(** ** The recursive query *)

Lemma folder_tree_nil (fuel : nat) (tbl : list Folder.t) :
  folder_tree fuel tbl [] = Some [].
Proof. now destruct fuel. Qed.

(** The base select of [deleteSubfoldersQuery], run with the same id
    twice, selects nothing. *)
Lemma subfolders_base_empty (id : Z) (tbl : list Folder.t) :
  filter (fun f => Z.eqb (Folder.id f) id && negb (Z.eqb (Folder.id f) id)) tbl = [].
Proof. apply filter_none. intros f _. now destruct (Z.eqb (Folder.id f) id). Qed.

Lemma deleteSubfoldersQuery_same_id (fuel : nat) (d : database) (id : Z) :
  deleteSubfoldersQuery fuel d id id = Some (d, 0).
Proof.
  unfold deleteSubfoldersQuery. rewrite subfolders_base_empty, folder_tree_nil.
  cbn [map mem_Z existsb negb].
  rewrite filter_all by (intros; reflexivity).
  rewrite filter_none by (intros; reflexivity).
  now rewrite database_eta.
Qed.

(** ** What the cascade delete does, statement by statement *)

Lemma deleteFilesQuery_tree (fuel : nat) (d : database) (id : Z) (tree : list Folder.t) :
  folder_tree fuel (folders d) (base_rows id d) = Some tree ->
  exists n, deleteFilesQuery fuel d id = Some (without_files_of tree d, n).
Proof.
  unfold deleteFilesQuery, base_rows. intros ->. eexists. reflexivity.
Qed.

Lemma database_phase_spec (fuel : nat) (id : Z) (w : world) (tree : list Folder.t) :
  folder_tree fuel (folders (db w)) (base_rows id (db w)) = Some tree ->
  database_phase fuel id w =
  match nth 0 (faults w) None with
  | Some e =>
      Some (Status 500 e,
            mkWorld (db w) (fs w)
                    (console w ++ [Error "파일 DB 삭제 오류:" (AText e)])
                    (skipn 1 (faults w)) (clock w))
  | None =>
      match nth 1 (faults w) None with
      | Some e =>
          Some (Status 500 e,
                mkWorld (without_files_of tree (db w)) (fs w)
                        (console w ++ [Error "하위 폴더 삭제 오류:" (AText e)])
                        (skipn 2 (faults w)) (clock w))
      | None =>
          match nth 2 (faults w) None with
          | Some e =>
              Some (Status 500 e,
                    mkWorld (without_files_of tree (db w)) (fs w)
                            (console w ++ [Error "메인 폴더 삭제 오류:" (AText e)])
                            (skipn 3 (faults w)) (clock w))
          | None =>
              Some (Json [("message", JStr "폴더가 삭제되었습니다.");
                          ("deletedRows", JNum (rows_with_id id (db w)));
                          ("folderId", JNum id)],
                    mkWorld (without_folder id (without_files_of tree (db w))) (fs w)
                            (console w ++ [Log "폴더 삭제 완료:" (AId id)])
                            (skipn 3 (faults w)) (clock w))
          end
      end
  end.
Proof.
  intros Htree.
  destruct (deleteFilesQuery_tree _ _ _ _ Htree) as [n Hfiles].
  unfold database_phase, bind, db_run.
  destruct w as [d disk0 out fl clk]; simpl in *.
  destruct fl as [|[e0|] fl]; simpl; try reflexivity;
    rewrite Hfiles; simpl; rewrite deleteSubfoldersQuery_same_id; simpl.
  - reflexivity.
  - destruct fl as [|[e1|] fl]; simpl; try reflexivity.
    destruct fl as [|[e2|] fl]; simpl; reflexivity.
Qed.

Lemma getSubItemsQuery_tree (fuel : nat) (d : database) (id : Z) :
  getSubItemsQuery fuel d id =
  match folder_tree fuel (folders d) (base_rows id d) with
  | None => None
  | Some tree => Some (sub_items tree d)
  end.
Proof. reflexivity. Qed.

Lemma delete_folder_cases (fuel : nat) (id : Z) (w : world) :
  delete_folder fuel id w =
  match nth 0 (faults w) None with
  | Some e =>
      Some (Status 500 e,
            mkWorld (db w) (fs w)
                    (console w ++ [Log "폴더 삭제 요청:" (AId id);
                                   Error "하위 항목 조회 오류:" (AText e)])
                    (skipn 1 (faults w)) (clock w))
  | None =>
      match folder_tree fuel (folders (db w)) (base_rows id (db w)) with
      | None => None
      | Some tree =>
          (blob_phase (sub_items tree (db w)) ;;; database_phase fuel id)
            (before_blobs id tree w)
      end
  end.
Proof.
  unfold delete_folder, bind at 1 2, db_read, say at 1. simpl.
  rewrite getSubItemsQuery_tree. unfold before_blobs.
  destruct w as [d disk0 out fl clk]; simpl.
  destruct fl as [|[e0|] fl]; simpl.
  - destruct (folder_tree fuel (folders d) (base_rows id d)); [|reflexivity].
    unfold bind at 1, say at 1. simpl. now rewrite <- app_assoc.
  - unfold bind, say, ret. simpl. now rewrite <- app_assoc.
  - destruct (folder_tree fuel (folders d) (base_rows id d)); [|reflexivity].
    unfold bind at 1, say at 1. simpl. now rewrite <- app_assoc.
Qed.

(** ** The blob loop: what it leaves on the disk and on the console *)

Lemma forEach_remove_blob_trace {A : Type} (g : A -> string) (l : list A) (w : world) :
  forEach l (fun x => remove_blob (g x)) w =
  Some (tt, mkWorld (db w) (fst (blob_trace (map g l) (fs w)))
                    (console w ++ snd (blob_trace (map g l) (fs w)))
                    (faults w) (clock w)).
Proof.
  revert w. induction l as [|a l IH]; intros w; simpl.
  - unfold ret. rewrite app_nil_r. now rewrite world_eta.
  - unfold bind, remove_blob.
    destruct (existsSync (fs w) (g a)).
    + destruct (unlinkSync (fs w) (g a)) as [d'|]; unfold say;
        rewrite IH; simpl; now rewrite <- app_assoc.
    + unfold ret. apply IH.
Qed.

Lemma blob_phase_trace (items : list sub_item) (w : world) :
  blob_phase items w =
  Some (tt, mkWorld (db w) (fst (blob_trace (stored_paths items) (fs w)))
                    (console w ++ snd (blob_trace (stored_paths items) (fs w)))
                    (faults w) (clock w)).
Proof. apply forEach_remove_blob_trace. Qed.

Lemma unlinkSync_present (d d' : disk) (p q : string) :
  unlinkSync d p = Some d' ->
  undeletable d' = undeletable d
  /\ ~ In p (undeletable d)
  /\ (In q (present d') <-> In q (present d) /\ q <> p).
Proof.
  unfold unlinkSync.
  destruct (mem_string p (undeletable d)) eqn:Hu; [discriminate|].
  destruct (mem_string p (present d)); [|discriminate]. simpl.
  intros [= <-]. simpl. split; [reflexivity|]. split.
  - intros Hin. apply mem_string_In in Hin. congruence.
  - rewrite filter_In, negb_true_iff, String.eqb_neq. tauto.
Qed.

Lemma unlinkSync_throws (d : disk) (p : string) :
  In p (undeletable d) -> unlinkSync d p = None.
Proof.
  intros H. apply mem_string_In in H. unfold unlinkSync. now rewrite H.
Qed.

Lemma unlinkSync_removes (d : disk) (p : string) :
  In p (present d) -> ~ In p (undeletable d) -> exists d', unlinkSync d p = Some d'.
Proof.
  intros Hp Hu. apply mem_string_In in Hp. unfold unlinkSync. rewrite Hp.
  destruct (mem_string p (undeletable d)) eqn:E.
  - apply mem_string_In in E. contradiction.
  - simpl. eauto.
Qed.

Lemma blob_trace_undeletable (paths : list string) (d : disk) :
  undeletable (fst (blob_trace paths d)) = undeletable d.
Proof.
  revert d. induction paths as [|p rest IH]; intros d; simpl; [reflexivity|].
  destruct (existsSync d p); [|apply IH].
  destruct (unlinkSync d p) as [d'|] eqn:E; simpl; rewrite IH; [|reflexivity].
  now destruct (unlinkSync_present d d' p p E).
Qed.

(** Nothing comes back: what is on the disk afterwards was there before. *)
Lemma blob_trace_shrinks (paths : list string) (d : disk) (q : string) :
  In q (present (fst (blob_trace paths d))) -> In q (present d).
Proof.
  revert d. induction paths as [|p rest IH]; intros d; simpl; [auto|].
  destruct (existsSync d p); [|apply IH].
  destruct (unlinkSync d p) as [d'|] eqn:E; simpl; intros H; apply IH in H; [|assumption].
  now apply (unlinkSync_present d d' p q E) in H.
Qed.

(** A blob whose removal throws is still there afterwards. *)
Lemma blob_trace_keeps_stuck (paths : list string) (d : disk) (q : string) :
  In q (present d) -> In q (undeletable d) ->
  In q (present (fst (blob_trace paths d))).
Proof.
  revert d. induction paths as [|p rest IH]; intros d Hp Hu; simpl; [assumption|].
  destruct (existsSync d p); [|now apply IH].
  destruct (unlinkSync d p) as [d'|] eqn:E; simpl; [|now apply IH].
  destruct (unlinkSync_present d d' p q E) as [Hsame [Hnot Hiff]].
  apply IH; [|now rewrite Hsame].
  apply Hiff. split; [assumption|]. intros ->. contradiction.
Qed.

(** A path that is not on the disk gets no line of its own. *)
Lemma blob_trace_absent_silent (paths : list string) (d : disk) (q : string) :
  ~ In q (present d) ->
  ~ In (blob_removed q) (snd (blob_trace paths d))
  /\ ~ In (blob_stuck q) (snd (blob_trace paths d)).
Proof.
  revert d. induction paths as [|p rest IH]; intros d Hq; simpl; [tauto|].
  destruct (existsSync d p) eqn:Hp; [|now apply IH].
  apply mem_string_In in Hp.
  assert (Hne : p <> q) by (intros ->; contradiction).
  destruct (unlinkSync d p) as [d'|] eqn:E; simpl.
  - assert (Hq' : ~ In q (present d')).
    { intros H. apply (unlinkSync_present d d' p q E) in H. tauto. }
    destruct (IH d' Hq') as [H1 H2]. split; intros [Heq|Hin]; auto.
    + injection Heq as Heq. contradiction.
    + discriminate Heq.
  - destruct (IH d Hq) as [H1 H2]. split; intros [Heq|Hin]; auto.
    + discriminate Heq.
    + injection Heq as Heq. contradiction.
Qed.

(** A visited blob whose removal throws is reported by [console.error]. *)
Lemma blob_trace_stuck_logged (paths : list string) (d : disk) (q : string) :
  In q paths -> In q (present d) -> In q (undeletable d) ->
  In (blob_stuck q) (snd (blob_trace paths d)).
Proof.
  revert d. induction paths as [|p rest IH]; intros d Hin Hp Hu; [contradiction|].
  simpl. destruct (string_dec p q) as [->|Hne].
  - apply mem_string_In in Hp. unfold existsSync. rewrite Hp.
    rewrite unlinkSync_throws by assumption. simpl. now left.
  - destruct Hin as [Heq|Hin]; [contradiction|].
    destruct (existsSync d p); [|now apply IH].
    destruct (unlinkSync d p) as [d'|] eqn:E; simpl; right; [|now apply IH].
    destruct (unlinkSync_present d d' p q E) as [Hsame [Hnot Hiff]].
    apply IH; [assumption | | now rewrite Hsame].
    apply Hiff. split; [assumption|]. congruence.
Qed.

(** A visited blob that can be removed is removed, and reported. *)
Lemma blob_trace_removed (paths : list string) (d : disk) (q : string) :
  In q paths -> In q (present d) -> ~ In q (undeletable d) ->
  In (blob_removed q) (snd (blob_trace paths d))
  /\ ~ In q (present (fst (blob_trace paths d))).
Proof.
  revert d. induction paths as [|p rest IH]; intros d Hin Hp Hu; [contradiction|].
  simpl. destruct (string_dec p q) as [->|Hne].
  - destruct (unlinkSync_removes d q Hp Hu) as [d' E].
    apply mem_string_In in Hp. unfold existsSync. rewrite Hp, E. simpl.
    split; [now left|]. intros H. apply blob_trace_shrinks in H.
    apply (unlinkSync_present d d' q q E) in H. tauto.
  - destruct Hin as [Heq|Hin]; [contradiction|].
    destruct (existsSync d p); [|now apply IH].
    destruct (unlinkSync d p) as [d'|] eqn:E; simpl.
    + destruct (unlinkSync_present d d' p q E) as [Hsame [Hnot Hiff]].
      destruct (IH d' Hin) as [H1 H2]; [apply Hiff; split; congruence
                                       | now rewrite Hsame |].
      split; [now right | assumption].
    + destruct (IH d Hin Hp Hu) as [H1 H2]. split; [now right | assumption].
Qed.

(** ** The handler as a whole *)

Lemma delete_folder_run (fuel : nat) (id : Z) (w : world) (tree : list Folder.t) :
  nth 0 (faults w) None = None ->
  folder_tree fuel (folders (db w)) (base_rows id (db w)) = Some tree ->
  delete_folder fuel id w = database_phase fuel id (after_blobs id tree w).
Proof.
  intros H0 Htree. rewrite delete_folder_cases, H0, Htree.
  unfold bind. rewrite blob_phase_trace. reflexivity.
Qed.

Lemma no_fault_nth (n : nat) (w : world) :
  no_fault n w = true -> forall k, (k < n)%nat -> nth k (faults w) None = None.
Proof.
  unfold no_fault. generalize (faults w) as l. induction n as [|n IH]; intros l H k Hk.
  - lia.
  - destruct l as [|o l]; [now destruct k|]. simpl in H.
    apply andb_true_iff in H. destruct H as [Ho Hl].
    destruct k as [|k]; simpl.
    + now destruct o.
    + apply IH; [assumption | lia].
Qed.

Lemma nth_skipn_fault (n k : nat) (l : list (option string)) :
  nth k (skipn n l) None = nth (n + k) l None.
Proof.
  revert l. induction n as [|n IH]; intros l; [reflexivity|].
  destruct l as [|o l]; simpl; [now destruct k | apply IH].
Qed.

Lemma after_blobs_faults (id : Z) (tree : list Folder.t) (w : world) (k : nat) :
  nth k (faults (after_blobs id tree w)) None = nth (S k) (faults w) None.
Proof. exact (nth_skipn_fault 1 k (faults w)). Qed.

(** ** Termination of the recursive query *)

Lemma folder_tree_more_fuel (n m : nat) (tbl work tree : list Folder.t) :
  folder_tree n tbl work = Some tree -> (n <= m)%nat ->
  folder_tree m tbl work = Some tree.
Proof.
  revert m work tree. induction n as [|n IH]; intros m work tree H Hle.
  - destruct work; [|discriminate]. simpl in H. injection H as <-.
    apply folder_tree_nil.
  - destruct work as [|r work]; [injection H as <-; apply folder_tree_nil|].
    destruct m as [|m]; [lia|]. simpl in *.
    destruct (folder_tree n tbl _) as [rest|] eqn:E; [|discriminate].
    rewrite (IH m _ rest E) by lia. assumption.
Qed.

Lemma recursive_select_In (tbl work : list Folder.t) (f : Folder.t) :
  In f (recursive_select tbl work) <->
  exists r, In r work /\ In f tbl /\ Folder.parent_id f = Some (Folder.id r).
Proof.
  unfold recursive_select. rewrite in_flat_map. split.
  - intros [r [Hr Hf]]. apply filter_In in Hf. destruct Hf as [Hf Heq].
    exists r. repeat split; try assumption.
    destruct (Folder.parent_id f) as [p|]; simpl in Heq; [|discriminate].
    apply Z.eqb_eq in Heq. now subst.
  - intros [r [Hr [Hf Heq]]]. exists r. split; [assumption|].
    apply filter_In. split; [assumption|]. rewrite Heq. simpl. apply Z.eqb_refl.
Qed.

(** With a height that drops from every folder to its children, the
    query ends after as many rounds as the rows it starts from are high. *)
Lemma folder_tree_ends_by_height (tbl : list Folder.t) (h : Z -> nat) :
  (forall f p, In f tbl -> Folder.parent_id f = Some p ->
               (h (Folder.id f) < h p)%nat) ->
  forall k work fuel,
    (forall r, In r work -> (h (Folder.id r) < k)%nat) ->
    (k <= fuel)%nat ->
    exists tree, folder_tree fuel tbl work = Some tree.
Proof.
  intros Hh. induction k as [|k IH]; intros work fuel Hwork Hfuel.
  - destruct work as [|r work]; [exists []; apply folder_tree_nil|].
    specialize (Hwork r (or_introl eq_refl)). lia.
  - destruct work as [|r work]; [exists []; apply folder_tree_nil|].
    destruct fuel as [|fuel]; [lia|]. cbn [folder_tree].
    destruct (IH (recursive_select tbl (r :: work)) fuel) as [rest Hrest].
    + intros f Hf. apply recursive_select_In in Hf.
      destruct Hf as [r' [Hr' [Hf Hp]]].
      specialize (Hh f _ Hf Hp). specialize (Hwork r' Hr'). lia.
    + lia.
    + rewrite Hrest. eauto.
Qed.

(** ** Parent links: unique ids, chains, depth *)

Lemma distinct_NoDup (l : list Z) : distinct l = true <-> NoDup l.
Proof.
  induction l as [|x l IH]; simpl.
  - split; [constructor | reflexivity].
  - rewrite andb_true_iff, negb_true_iff, IH. split.
    + intros [Hx Hl]. constructor; [|assumption].
      intros Hin. apply mem_Z_In in Hin. congruence.
    + intros H. inversion H as [|? ? Hx Hl]; subst. split; [|assumption].
      destruct (mem_Z x l) eqn:E; [|reflexivity].
      apply mem_Z_In in E. contradiction.
Qed.

Lemma parent_of_unique (l : links) (i : Z) (q : option Z) :
  unique_ids l = true -> In (i, q) l -> parent_of l i = Some q.
Proof.
  unfold unique_ids, parent_of. rewrite distinct_NoDup.
  induction l as [|[j r] l IH]; intros Hnd Hin; [contradiction|].
  simpl in *. inversion Hnd as [|? ? Hj Hl]; subst.
  destruct Hin as [Heq|Hin].
  - injection Heq as -> ->. now rewrite Z.eqb_refl.
  - destruct (Z.eqb j i) eqn:E.
    + apply Z.eqb_eq in E. subst. exfalso. apply Hj.
      change i with (fst (i, q)). now apply in_map.
    + now apply IH.
Qed.

Lemma parent_of_absent (l : links) (i : Z) :
  ~ In i (map fst l) -> parent_of l i = None.
Proof.
  unfold parent_of. intros H.
  destruct (find (fun e => Z.eqb (fst e) i) l) as [e|] eqn:E; [|reflexivity].
  apply find_some in E. destruct E as [Hin Heq]. apply Z.eqb_eq in Heq.
  exfalso. apply H. subst. now apply in_map.
Qed.

Lemma depth_le (fuel : nat) (l : links) (p : option Z) : (depth fuel l p <= fuel)%nat.
Proof.
  revert p. induction fuel as [|n IH]; intros [i|]; simpl; try lia.
  - destruct (parent_of l i); lia.
  - destruct (parent_of l i) as [q|]; [|lia]. specialize (IH q). lia.
Qed.

Lemma depth_stable (n m : nat) (l : links) (p : option Z) :
  chain_ends n l p = true -> (n <= m)%nat -> depth m l p = depth n l p.
Proof.
  revert m p. induction n as [|n IH]; intros m [i|] H Hle.
  - simpl in *. destruct (parent_of l i) eqn:E; [discriminate|].
    destruct m; simpl; now rewrite E.
  - now destruct m.
  - destruct m as [|m]; [lia|]. simpl in *.
    destruct (parent_of l i) as [q|]; [|reflexivity].
    f_equal. apply IH; [assumption | lia].
  - now destruct m.
Qed.

(** In a table without cycles a folder lies one deeper than its parent. *)
Lemma depth_of_child (l : links) (c i : Z) :
  unique_ids l = true -> no_cycles l = true -> In (c, Some i) l ->
  depth (S (List.length l)) l (Some c) = S (depth (S (List.length l)) l (Some i)).
Proof.
  intros Hu Hc Hin.
  cbn [depth]. rewrite (parent_of_unique l c (Some i) Hu Hin).
  unfold no_cycles in Hc. rewrite forallb_forall in Hc.
  specialize (Hc _ Hin). simpl in Hc.
  change (S (depth (List.length l) l (Some i))
          = S (depth (S (List.length l)) l (Some i))).
  f_equal. symmetry. apply depth_stable; [assumption | lia].
Qed.

Lemma folder_links_In (tbl : list Folder.t) (f : Folder.t) :
  In f tbl -> In (Folder.id f, Folder.parent_id f) (folder_links tbl).
Proof.
  intros H. unfold folder_links.
  now apply (in_map (fun f => (Folder.id f, Folder.parent_id f))).
Qed.

Lemma folder_links_length (tbl : list Folder.t) :
  List.length (folder_links tbl) = List.length tbl.
Proof. apply length_map. Qed.

(** On a table with unique ids and no cycle of parents the recursive
    query ends, whatever rows it starts from, and more rounds do not
    change what it finds. *)
Lemma folder_tree_terminates (tbl work : list Folder.t) :
  unique_ids (folder_links tbl) = true ->
  no_cycles (folder_links tbl) = true ->
  exists tree, forall fuel, (List.length tbl + 3 <= fuel)%nat ->
                            folder_tree fuel tbl work = Some tree.
Proof.
  intros Hu Hc.
  set (l := folder_links tbl).
  set (L := List.length l).
  set (h := fun i => (S (S L) - depth (S L) l (Some i))%nat).
  assert (Hh : forall f p, In f tbl -> Folder.parent_id f = Some p ->
                           (h (Folder.id f) < h p)%nat).
  { intros f p Hf Hp. unfold h.
    pose proof (folder_links_In tbl f Hf) as Hin. rewrite Hp in Hin.
    pose proof (depth_of_child l _ _ Hu Hc Hin) as Hd. fold L in Hd.
    pose proof (depth_le (S L) l (Some (Folder.id f))). lia. }
  destruct (folder_tree_ends_by_height tbl h Hh (S (S (S L))) work (S (S (S L))))
    as [tree Htree].
  - intros r _. unfold h. lia.
  - lia.
  - exists tree. intros fuel Hfuel.
    apply (folder_tree_more_fuel (S (S (S L)))); [assumption|].
    unfold L, l. rewrite folder_links_length. lia.
Qed.

Lemma blob_trace_lines (paths : list string) (d : disk) (line : console_line) :
  In line (snd (blob_trace paths d)) ->
  exists q, In q paths /\ In q (present d)
            /\ (line = blob_removed q \/ line = blob_stuck q).
Proof.
  revert d. induction paths as [|p rest IH]; intros d H; [contradiction|].
  simpl in H. destruct (existsSync d p) eqn:Hp.
  - apply mem_string_In in Hp.
    destruct (unlinkSync d p) as [d'|] eqn:E; simpl in H; destruct H as [<-|H].
    + exists p. simpl. auto.
    + destruct (IH d' H) as [q [Hq [Hpr Hline]]]. exists q. simpl.
      apply (unlinkSync_present d d' p q E) in Hpr. tauto.
    + exists p. simpl. auto.
    + destruct (IH d H) as [q [Hq [Hpr Hline]]]. exists q. simpl. tauto.
  - destruct (IH d H) as [q [Hq [Hpr Hline]]]. exists q. simpl. tauto.
Qed.

Lemma rows_with_id_absent (id : Z) (d : database) :
  ~ In id (map Folder.id (folders d)) -> rows_with_id id d = 0.
Proof. intros H. unfold rows_with_id. now rewrite filter_id_absent. Qed.

Lemma rows_with_id_unique (id : Z) (d : database) :
  NoDup (map Folder.id (folders d)) -> 0 <= rows_with_id id d <= 1.
Proof.
  unfold rows_with_id. induction (folders d) as [|f tbl IH]; simpl; intros Hnd; [lia|].
  inversion Hnd as [|? ? Hf Htbl]; subst.
  destruct (Z.eqb (Folder.id f) id) eqn:E.
  - apply Z.eqb_eq in E. subst. rewrite filter_id_absent by assumption. simpl. lia.
  - now apply IH.
Qed.

Lemma without_folder_absent (id : Z) (d : database) :
  ~ In id (map Folder.id (folders d)) -> without_folder id d = d.
Proof.
  intros H. unfold without_folder. rewrite filter_all; [apply database_eta|].
  intros f Hf. apply negb_true_iff, Z.eqb_neq. intros <-. apply H. now apply in_map.
Qed.

Lemma without_files_of_nil (d : database) : without_files_of [] d = d.
Proof.
  unfold without_files_of. rewrite filter_all; [apply database_eta|].
  intros f _. now destruct (File.folder_id f).
Qed.

Lemma sub_items_nil (d : database) : sub_items [] d = [].
Proof.
  unfold sub_items. simpl. rewrite filter_none; [reflexivity|].
  intros f _. now destruct (File.folder_id f).
Qed.

(** ** Claims about the cascade delete *)

(** C5.  Deleting a folder id that is in no row of the folder table
    succeeds whenever the engine runs the four statements: the answer
    carries [deletedRows: 0], both tables and the disk are as before, and
    the console holds the request, the empty list of rows found and the
    completion line.  No bound on the rounds of the recursive query is
    needed: it starts from no row. *)
Theorem delete_folder_absent_id_is_noop (fuel : nat) (id : Z) (w : world) :
  ~ In id (map Folder.id (folders (db w))) ->
  no_fault 4 w = true ->
  delete_folder fuel id w =
  Some (Json [("message", JStr "폴더가 삭제되었습니다.");
              ("deletedRows", JNum 0);
              ("folderId", JNum id)],
        mkWorld (db w) (fs w)
                (console w ++ [Log "폴더 삭제 요청:" (AId id);
                               Log "삭제할 항목들:" (AItems []);
                               Log "폴더 삭제 완료:" (AId id)])
                (skipn 4 (faults w)) (clock w)).
Proof.
  intros Habsent Hok.
  pose proof (no_fault_nth 4 w Hok) as Hnth.
  assert (Hbase : base_rows id (db w) = [])
    by (apply filter_id_absent; assumption).
  assert (Htree : folder_tree fuel (folders (db w)) (base_rows id (db w)) = Some [])
    by (rewrite Hbase; apply folder_tree_nil).
  rewrite (delete_folder_run fuel id w [] (Hnth 0%nat ltac:(lia)) Htree).
  rewrite (database_phase_spec fuel id (after_blobs id [] w) [] Htree).
  rewrite !after_blobs_faults.
  rewrite (Hnth 1%nat), (Hnth 2%nat), (Hnth 3%nat) by lia.
  unfold after_blobs, before_blobs, stored_paths.
  cbn [db fs console faults clock].
  rewrite sub_items_nil. cbn [filter map blob_trace fst snd].
  rewrite without_files_of_nil, (without_folder_absent id (db w) Habsent).
  rewrite (rows_with_id_absent id (db w) Habsent).
  rewrite app_nil_r, <- app_assoc. simpl.
  do 2 f_equal. f_equal. now destruct (faults w) as [|? [|? [|? [|? ?]]]].
Qed.

Lemma delete_folder_absent_id_is_noop_witness :
  delete_folder 0 7 Example.start =
  Some (Json [("message", JStr "폴더가 삭제되었습니다.");
              ("deletedRows", JNum 0);
              ("folderId", JNum 7)],
        mkWorld (db Example.start) (fs Example.start)
                [Log "폴더 삭제 요청:" (AId 7);
                 Log "삭제할 항목들:" (AItems []);
                 Log "폴더 삭제 완료:" (AId 7)]
                [] (clock Example.start)).
Proof.
  apply (delete_folder_absent_id_is_noop 0 7 Example.start).
  - simpl. lia.
  - reflexivity.
Defined.

(** A cascade delete that succeeds has run all four statements. *)
Lemma delete_folder_success (fuel : nat) (id : Z) (w w' : world) (o : object) :
  delete_folder fuel id w = Some (Json o, w') ->
  exists tree,
    folder_tree fuel (folders (db w)) (base_rows id (db w)) = Some tree
    /\ db w' = without_folder id (without_files_of tree (db w))
    /\ o = [("message", JStr "폴더가 삭제되었습니다.");
            ("deletedRows", JNum (rows_with_id id (db w)));
            ("folderId", JNum id)].
Proof.
  intros H. rewrite delete_folder_cases in H.
  destruct (nth 0 (faults w) None) as [e|] eqn:H0; [discriminate|].
  destruct (folder_tree fuel (folders (db w)) (base_rows id (db w)))
    as [tree|] eqn:Htree; [|discriminate].
  exists tree. split; [reflexivity|].
  unfold bind in H. rewrite blob_phase_trace in H.
  change (database_phase fuel id (after_blobs id tree w) = Some (Json o, w')) in H.
  rewrite (database_phase_spec fuel id (after_blobs id tree w) tree Htree) in H.
  destruct (nth 0 (faults (after_blobs id tree w)) None); [discriminate|].
  destruct (nth 1 (faults (after_blobs id tree w)) None); [discriminate|].
  destruct (nth 2 (faults (after_blobs id tree w)) None); [discriminate|].
  injection H as <- <-. split; reflexivity.
Qed.


(** C1, on the example of the specification: deleting folder 1 answers
    with success and removes files a and b, but only the row of folder 1
    leaves the folder table; its descendants 2 and 3 stay, folder 2 with
    a parent_id that no longer names a row.  The base select of
    [deleteSubfoldersQuery] asks for [id = 1 AND id != 1]. *)
Theorem cascade_delete_leaves_descendant_folders :
  exists o w',
    delete_folder 3 1 Example.start = Some (Json o, w')
    /\ map Folder.id (folders (db w')) = [2; 3]
    /\ map Folder.parent_id (folders (db w')) = [Some 1; Some 2]
    /\ map File.id (files (db w')) = [3].
Proof. eexists. eexists. split; [vm_compute; reflexivity|]. now vm_compute. Qed.

(** C2 is not what the handler does: when the engine fails the second
    [DELETE] (the third statement), the handler answers 500 and the file
    rows removed by the first [DELETE] stay removed. *)
Lemma cascade_delete_is_not_atomic :
  exists w',
    delete_folder 3 1 Example.busy
    = Some (Status 500 "SQLITE_BUSY: database is locked", w')
    /\ map File.id (files (db Example.busy)) = [1; 2; 3]
    /\ map File.id (files (db w')) = [3]
    /\ db w' <> db Example.busy.
Proof.
  eexists. split; [vm_compute; reflexivity|].
  split; [reflexivity|]. split; [reflexivity|]. discriminate.
Qed.

(** C2, amended.  On a folder table with unique ids and no cycle of
    parents, when the engine fails one of the three [DELETE] statements
    (statement [k] of the handler, [k] = 1, 2, 3, the statements before it
    having run), the handler answers 500 with the engine's message.  If
    the failing statement is the first, both tables are as they were; if
    it is a later one, the file rows of the subtree are already gone and
    stay gone; the folder table is as it was when the second fails. *)
Theorem cascade_delete_failure_is_reported
    (fuel : nat) (id : Z) (w : world) (k : nat) (e : string) :
  unique_ids (folder_links (folders (db w))) = true ->
  no_cycles (folder_links (folders (db w))) = true ->
  (List.length (folders (db w)) + 3 <= fuel)%nat ->
  (1 <= k <= 3)%nat ->
  no_fault k w = true ->
  nth k (faults w) None = Some e ->
  exists tree w',
    folder_tree fuel (folders (db w)) (base_rows id (db w)) = Some tree
    /\ delete_folder fuel id w = Some (Status 500 e, w')
    /\ (k = 1%nat -> db w' = db w)
    /\ (k = 2%nat -> db w' = without_files_of tree (db w))
    /\ (k = 3%nat -> files (db w') = files (without_files_of tree (db w))).
Proof.
  intros Hu Hc Hfuel Hk Hok He.
  destruct (folder_tree_terminates (folders (db w)) (base_rows id (db w)) Hu Hc)
    as [tree Htree].
  specialize (Htree fuel Hfuel).
  pose proof (no_fault_nth k w Hok) as Hnth.
  exists tree.
  rewrite (delete_folder_run fuel id w tree (Hnth 0%nat ltac:(lia)) Htree).
  rewrite (database_phase_spec fuel id (after_blobs id tree w) tree Htree).
  rewrite !after_blobs_faults.
  assert (Hcases : k = 1%nat \/ k = 2%nat \/ k = 3%nat) by lia.
  destruct Hcases as [-> | [-> | ->]].
  - rewrite He. eexists. split; [exact Htree|]. split; [reflexivity|].
    simpl. repeat split; intros; try reflexivity; lia.
  - rewrite (Hnth 1%nat) by lia. rewrite He.
    eexists. split; [exact Htree|]. split; [reflexivity|].
    simpl. repeat split; intros; try reflexivity; lia.
  - rewrite (Hnth 1%nat), (Hnth 2%nat) by lia. rewrite He.
    eexists. split; [exact Htree|]. split; [reflexivity|].
    simpl. repeat split; intros; try reflexivity; lia.
Qed.

Lemma cascade_delete_failure_is_reported_witness :
  exists tree w',
    folder_tree 6 (folders Example.tables) (base_rows 1 Example.tables) = Some tree
    /\ delete_folder 6 1 Example.busy
       = Some (Status 500 "SQLITE_BUSY: database is locked", w')
    /\ (2%nat = 1%nat -> db w' = Example.tables)
    /\ (2%nat = 2%nat -> db w' = without_files_of tree Example.tables)
    /\ (2%nat = 3%nat ->
        files (db w') = files (without_files_of tree Example.tables)).
Proof.
  apply (cascade_delete_failure_is_reported 6 1 Example.busy 2
           "SQLITE_BUSY: database is locked").
  - reflexivity.
  - reflexivity.
  - simpl. lia.
  - lia.
  - reflexivity.
  - reflexivity.
Defined.

Lemma stored_paths_In (tree : list Folder.t) (d : database) (p : string) :
  In p (stored_paths (sub_items tree d)) <->
  exists f, In f (files d) /\ in_tree (File.folder_id f) tree = true
            /\ File.file_path f = p /\ p <> "".
Proof.
  unfold stored_paths, sub_items. rewrite in_map_iff. split.
  - intros [it [Hp Hit]]. apply filter_In in Hit. destruct Hit as [Hit Hst].
    apply in_app_or in Hit. destruct Hit as [Hit|Hit].
    + apply in_map_iff in Hit. destruct Hit as [f [<- _]]. discriminate Hst.
    + apply in_map_iff in Hit. destruct Hit as [f [<- Hf]].
      apply filter_In in Hf. destruct Hf as [Hf Hin].
      exists f. unfold is_stored_file in Hst. simpl in *.
      apply negb_true_iff, String.eqb_neq in Hst. subst p. auto.
  - intros [f [Hf [Hin [Hp Hne]]]].
    exists (mkItem "file" (File.id f) (File.original_name f) (Some (File.file_path f))).
    split; [exact Hp|]. apply filter_In. split.
    + apply in_or_app. right.
      apply (in_map (fun f => mkItem "file" (File.id f) (File.original_name f)
                                     (Some (File.file_path f)))).
      apply filter_In. auto.
    + unfold is_stored_file. simpl. apply negb_true_iff, String.eqb_neq. congruence.
Qed.

(** C9 is not what the handler does for a blob that is not there: on the
    example with the blob of file a gone, the cascade delete of folder 1
    succeeds and removes the rows, but no line of the console is about
    [uploads/a]; the path occurs only inside the listing of the rows
    found, written before any blob is looked at.  The blob of file b,
    whose removal throws, does get its [console.error] line. *)
Lemma missing_blob_is_skipped_silently :
  exists o w',
    delete_folder 3 1 Example.damaged = Some (Json o, w')
    /\ existsSync (fs Example.damaged) "uploads/a" = false
    /\ In "uploads/a"
          (stored_paths (sub_items (folders Example.tables) Example.tables))
    /\ map File.id (files (db w')) = [3]
    /\ In (blob_stuck "uploads/b") (console w')
    /\ forall msg, ~ In (Log msg (AText "uploads/a")) (console w')
                   /\ ~ In (Error msg (AText "uploads/a")) (console w').
Proof.
  eexists. eexists. split; [vm_compute; reflexivity|].
  split; [reflexivity|]. split; [simpl; auto|]. split; [reflexivity|].
  split; [simpl; auto|].
  intros msg. split; intros H; simpl in H;
    repeat (destruct H as [H|H]; [discriminate H|]); exact H.
Qed.

(** C9, amended.  On a folder table with unique ids and no cycle of
    parents, when the engine runs the four statements, the cascade
    delete succeeds whatever the state of the blobs, and the three
    [DELETE] statements run.  For a file of the subtree with a stored
    path: if the blob is not on the disk the loop passes it over and
    writes no line about it; if it is there and its removal throws, the
    loop writes the [console.error] line and the blob stays. *)
Theorem cascade_delete_survives_blob_failures (fuel : nat) (id : Z) (w : world) :
  unique_ids (folder_links (folders (db w))) = true ->
  no_cycles (folder_links (folders (db w))) = true ->
  (List.length (folders (db w)) + 3 <= fuel)%nat ->
  no_fault 4 w = true ->
  exists tree lines w',
    folder_tree fuel (folders (db w)) (base_rows id (db w)) = Some tree
    /\ delete_folder fuel id w
       = Some (Json [("message", JStr "폴더가 삭제되었습니다.");
                     ("deletedRows", JNum (rows_with_id id (db w)));
                     ("folderId", JNum id)], w')
    /\ db w' = without_folder id (without_files_of tree (db w))
    /\ console w' = console w
                    ++ [Log "폴더 삭제 요청:" (AId id);
                        Log "삭제할 항목들:" (AItems (sub_items tree (db w)))]
                    ++ lines ++ [Log "폴더 삭제 완료:" (AId id)]
    /\ forall f, In f (files (db w)) ->
                 in_tree (File.folder_id f) tree = true ->
                 File.file_path f <> "" ->
                 (~ In (File.file_path f) (present (fs w)) ->
                  forall msg,
                    ~ In (Log msg (AText (File.file_path f))) lines
                    /\ ~ In (Error msg (AText (File.file_path f))) lines)
                 /\ (In (File.file_path f) (present (fs w)) ->
                     In (File.file_path f) (undeletable (fs w)) ->
                     In (blob_stuck (File.file_path f)) lines
                     /\ In (File.file_path f) (present (fs w'))).
Proof.
  intros Hu Hc Hfuel Hok.
  destruct (folder_tree_terminates (folders (db w)) (base_rows id (db w)) Hu Hc)
    as [tree Htree].
  specialize (Htree fuel Hfuel).
  pose proof (no_fault_nth 4 w Hok) as Hnth.
  set (paths := stored_paths (sub_items tree (db w))).
  exists tree, (snd (blob_trace paths (fs w))).
  rewrite (delete_folder_run fuel id w tree (Hnth 0%nat ltac:(lia)) Htree).
  rewrite (database_phase_spec fuel id (after_blobs id tree w) tree Htree).
  rewrite !after_blobs_faults.
  rewrite (Hnth 1%nat), (Hnth 2%nat), (Hnth 3%nat) by lia.
  eexists. split; [exact Htree|]. split; [reflexivity|].
  split; [reflexivity|]. split.
  - simpl. fold paths. now rewrite <- !app_assoc.
  - intros f Hf Hin Hpath.
    assert (Hvisited : In (File.file_path f) paths).
    { apply stored_paths_In. exists f. auto. }
    split.
    + intros Habsent msg. split; intros Hline;
        destruct (blob_trace_lines _ _ _ Hline) as [q [_ [Hq [Heq|Heq]]]];
        try discriminate Heq; injection Heq as _ Heq; subst q; contradiction.
    + intros Hthere Hstuck. split.
      * now apply blob_trace_stuck_logged.
      * simpl. fold paths. now apply blob_trace_keeps_stuck.
Qed.

Lemma cascade_delete_survives_blob_failures_witness :
  exists tree lines w',
    folder_tree 6 (folders Example.tables) (base_rows 1 Example.tables) = Some tree
    /\ delete_folder 6 1 Example.damaged
       = Some (Json [("message", JStr "폴더가 삭제되었습니다.");
                     ("deletedRows", JNum (rows_with_id 1 Example.tables));
                     ("folderId", JNum 1)], w')
    /\ db w' = without_folder 1 (without_files_of tree Example.tables)
    /\ console w' = console Example.damaged
                    ++ [Log "폴더 삭제 요청:" (AId 1);
                        Log "삭제할 항목들:" (AItems (sub_items tree Example.tables))]
                    ++ lines ++ [Log "폴더 삭제 완료:" (AId 1)]
    /\ forall f, In f (files Example.tables) ->
                 in_tree (File.folder_id f) tree = true ->
                 File.file_path f <> "" ->
                 (~ In (File.file_path f) (present (fs Example.damaged)) ->
                  forall msg,
                    ~ In (Log msg (AText (File.file_path f))) lines
                    /\ ~ In (Error msg (AText (File.file_path f))) lines)
                 /\ (In (File.file_path f) (present (fs Example.damaged)) ->
                     In (File.file_path f) (undeletable (fs Example.damaged)) ->
                     In (blob_stuck (File.file_path f)) lines
                     /\ In (File.file_path f) (present (fs w'))).
Proof.
  apply (cascade_delete_survives_blob_failures 6 1 Example.damaged).
  - reflexivity.
  - reflexivity.
  - simpl. lia.
  - reflexivity.
Defined.

(** ** Claims about deleting one file *)

Lemma selectFileQuery_absent (d : database) (id : Z) :
  ~ In id (map File.id (files d)) -> selectFileQuery d id = None.
Proof.
  intros H. unfold selectFileQuery.
  destruct (find (fun f => Z.eqb (File.id f) id) (files d)) as [f|] eqn:E;
    [|reflexivity].
  apply find_some in E. destruct E as [Hin Heq]. apply Z.eqb_eq in Heq.
  exfalso. apply H. subst. now apply in_map.
Qed.

(** C4 is not what the handler does: an id that is in no row of the file
    table is answered with status 404, not with success. *)
Lemma delete_file_absent_id_fails :
  ~ In 9 (map File.id (files (db Example.start)))
  /\ delete_file 9 Example.start
     = Some (Status 404 "파일을 찾을 수 없습니다.",
             mkWorld (db Example.start) (fs Example.start)
                     [Log "파일 삭제 요청:" (AId 9)] [] (clock Example.start)).
Proof.
  split; [|reflexivity]. simpl. intros [H|[H|[H|[]]]]; discriminate H.
Qed.

(** C4, amended.  For an id that is in no row of the file table the
    handler answers with an error and leaves both tables and the disk as
    they were: 404 "file not found" when the engine runs the SELECT, 500
    with the engine's message when it fails it. *)
Theorem delete_file_absent_id_is_not_found (id : Z) (w : world) :
  ~ In id (map File.id (files (db w))) ->
  exists code err w',
    delete_file id w = Some (Status code err, w')
    /\ db w' = db w
    /\ fs w' = fs w
    /\ (nth 0 (faults w) None = None ->
        code = 404 /\ err = "파일을 찾을 수 없습니다.")
    /\ (forall e, nth 0 (faults w) None = Some e -> code = 500 /\ err = e).
Proof.
  intros Habsent. unfold delete_file, bind, say, db_read, ret. simpl.
  rewrite (selectFileQuery_absent _ _ Habsent).
  destruct (faults w) as [|[e|] later]; simpl;
    do 3 eexists; (split; [reflexivity|]); simpl;
    (split; [reflexivity|]); (split; [reflexivity|]); split.
  - auto.
  - intros e H. discriminate H.
  - intros H. discriminate H.
  - intros e' [= ->]. auto.
  - auto.
  - intros e H. discriminate H.
Qed.

Lemma delete_file_absent_id_is_not_found_witness :
  exists code err w',
    delete_file 9 Example.start = Some (Status code err, w')
    /\ db w' = db Example.start
    /\ fs w' = fs Example.start
    /\ (nth 0 (faults Example.start) None = None ->
        code = 404 /\ err = "파일을 찾을 수 없습니다.")
    /\ (forall e, nth 0 (faults Example.start) None = Some e ->
                  code = 500 /\ err = e).
Proof.
  apply (delete_file_absent_id_is_not_found 9 Example.start).
  simpl. intros [H|[H|[H|[]]]]; discriminate H.
Defined.

(** ** Claims about creating a folder *)

(** C3 is not what the handler does: on the example, a folder is created
    in namespace "my" under folder 4, which lives in namespace "public",
    and another under id 99, which is no folder's id; both requests are
    answered with the new row. *)
Lemma create_folder_accepts_foreign_parent :
  (exists w',
      create_folder (mkBody (Some "notes") (JNum 4) (Some "my")) Example.shared
      = Some (Json [("id", JNum 5); ("name", JStr "notes");
                    ("parent_id", JNum 4); ("tab_type", JStr "my")], w')
      /\ map Folder.tab_type
             (filter (fun f => Z.eqb (Folder.id f) 4) (folders (db Example.shared)))
         = ["public"]
      /\ map Folder.id (folders (db w')) = [1; 2; 3; 4; 5])
  /\ (exists w',
         create_folder (mkBody (Some "notes") (JStr "99") (Some "my")) Example.shared
         = Some (Json [("id", JNum 5); ("name", JStr "notes");
                       ("parent_id", JNum 99); ("tab_type", JStr "my")], w')
         /\ ~ In 99 (map Folder.id (folders (db Example.shared)))
         /\ map Folder.id (folders (db w')) = [1; 2; 3; 4; 5]).
Proof.
  split; eexists; (split; [vm_compute; reflexivity|]).
  - split; reflexivity.
  - split; [|reflexivity]. simpl. intros [H|[H|[H|[H|[]]]]]; discriminate H.
Qed.

(** C3, amended.  The handler does not look the parent up.  A request
    with a name, a namespace "my" or "public" and a parentId that names a
    folder of a different namespace succeeds when the engine runs the
    INSERT (and the id counter has not reached 2^63 - 1): the answer is
    the new row, and the row is added to the folder table in the
    request's namespace with that parent_id. *)
Theorem create_folder_does_not_check_parent_namespace
    (body : folder_body) (w : world) (nm tab : string) (p : Z) (parent : Folder.t) :
  name body = Some nm -> nm <> "" ->
  tabType body = Some tab -> tab = "my" \/ tab = "public" ->
  Js.given (parentId body) = true ->
  Js.parseInt (parentId body) = Some p ->
  In parent (folders (db w)) -> Folder.id parent = p ->
  Folder.tab_type parent <> tab ->
  no_fault 1 w = true ->
  next_folder_id (db w) <= 9223372036854775807 ->
  exists w',
    create_folder body w
    = Some (Json [("id", JNum (next_folder_id (db w))); ("name", JStr nm);
                  ("parent_id", JNum p); ("tab_type", JStr tab)], w')
    /\ folders (db w')
       = folders (db w)
         ++ [Folder.mk (next_folder_id (db w)) nm (Some p) tab (clock w)]
    /\ files (db w') = files (db w).
Proof.
  intros Hname Hnm Htab Hns Hgiven Hparse _ _ _ Hok Hroom.
  pose proof (no_fault_nth 1 w Hok 0%nat ltac:(lia)) as H0.
  assert (Hhd : hd None (faults w) = None) by (now destruct (faults w)).
  unfold create_folder. rewrite Hname, Htab.
  apply String.eqb_neq in Hnm. rewrite Hnm.
  assert (Htabne : String.eqb tab "" = false) by (now destruct Hns; subst).
  rewrite Htabne, Hgiven, Hparse. cbn [orb].
  unfold bind, say, db_run, ret. cbn [db fs console faults clock].
  rewrite Hhd. unfold insertFolderQuery.
  assert (Hcheck : String.eqb tab "my" || String.eqb tab "public" = true)
    by (now destruct Hns; subst).
  rewrite Hcheck. apply Z.leb_le in Hroom. rewrite Hroom.
  eexists. split; [reflexivity|]. split; reflexivity.
Qed.

Lemma create_folder_does_not_check_parent_namespace_witness :
  exists w',
    create_folder (mkBody (Some "notes") (JStr "4") (Some "my")) Example.shared
    = Some (Json [("id", JNum (next_folder_id (db Example.shared)));
                  ("name", JStr "notes");
                  ("parent_id", JNum 4); ("tab_type", JStr "my")], w')
    /\ folders (db w')
       = folders (db Example.shared)
         ++ [Folder.mk (next_folder_id (db Example.shared)) "notes" (Some 4) "my"
                       (clock Example.shared)]
    /\ files (db w') = files (db Example.shared).
Proof.
  apply (create_folder_does_not_check_parent_namespace
           (mkBody (Some "notes") (JStr "4") (Some "my")) Example.shared
           "notes" "my" 4
           (Folder.mk 4 "team" None "public" "2024-05-01 09:30:00")).
  - reflexivity.
  - discriminate.
  - reflexivity.
  - left. reflexivity.
  - reflexivity.
  - reflexivity.
  - simpl. auto 10.
  - reflexivity.
  - discriminate.
  - reflexivity.
  - vm_compute. discriminate.
Defined.

(** ** [ORDER BY] and [LIMIT] *)

Section OrderByFacts.
Context {A : Type} (leb : A -> A -> bool).
Hypothesis leb_total : forall a b, leb a b = true \/ leb b a = true.
Hypothesis leb_trans : forall a b c, leb a b = true -> leb b c = true -> leb a c = true.

Lemma insert_row_perm (x : A) (l : list A) :
  Permutation (Sql.insert_row leb x l) (x :: l).
Proof.
  induction l as [|y l IH]; simpl; [reflexivity|].
  destruct (leb x y); [reflexivity|].
  rewrite IH. apply perm_swap.
Qed.

Lemma order_by_perm (l : list A) : Permutation (Sql.order_by leb l) l.
Proof.
  induction l as [|x l IH]; simpl; [reflexivity|].
  rewrite insert_row_perm. now apply perm_skip.
Qed.

Lemma order_by_In (l : list A) (x : A) : In x (Sql.order_by leb l) <-> In x l.
Proof.
  split; apply Permutation_in; [|symmetry]; apply order_by_perm.
Qed.

Lemma insert_row_sorted (x : A) (l : list A) :
  StronglySorted (fun a b => leb a b = true) l ->
  StronglySorted (fun a b => leb a b = true) (Sql.insert_row leb x l).
Proof.
  induction l as [|y l IH]; simpl; intros Hs.
  - constructor; constructor.
  - apply StronglySorted_inv in Hs. destruct Hs as [Hl Hy].
    destruct (leb x y) eqn:E.
    + constructor; [now constructor|]. constructor; [assumption|].
      rewrite Forall_forall in *. intros z Hz. eapply leb_trans; eauto.
    + constructor; [now apply IH|].
      assert (Hyx : leb y x = true) by (destruct (leb_total x y); congruence).
      rewrite Forall_forall in *. intros z Hz.
      apply (Permutation_in _ (insert_row_perm x l)) in Hz.
      destruct Hz as [<-|Hz]; auto.
Qed.

Lemma order_by_sorted (l : list A) :
  StronglySorted (fun a b => leb a b = true) (Sql.order_by leb l).
Proof.
  induction l as [|x l IH]; simpl; [constructor | now apply insert_row_sorted].
Qed.
End OrderByFacts.




Lemma filter_sorted {A : Type} (R : A -> A -> Prop) (p : A -> bool) (l : list A) :
  StronglySorted R l -> StronglySorted R (filter p l).
Proof.
  induction l as [|x l IH]; simpl; intros Hs; [constructor|].
  apply StronglySorted_inv in Hs. destruct Hs as [Hl Hx].
  destruct (p x); [|now apply IH].
  constructor; [now apply IH|].
  rewrite Forall_forall in *. intros y Hy. apply Hx.
  apply filter_In in Hy. tauto.
Qed.

(** ** Byte-wise order of text *)

Lemma string_compare_trans (s1 s2 s3 : string) :
  String.compare s1 s2 <> Gt -> String.compare s2 s3 <> Gt ->
  String.compare s1 s3 <> Gt.
Proof.
  revert s2 s3. induction s1 as [|c1 s1 IH]; intros s2 s3 H12 H23.
  - destruct s3; simpl; discriminate.
  - destruct s2 as [|c2 s2]; [simpl in H12; congruence|].
    destruct s3 as [|c3 s3]; [simpl in H23; congruence|].
    simpl in *. unfold Ascii.compare in *.
    destruct (N.compare_spec (N_of_ascii c1) (N_of_ascii c2)) as [E12|L12|G12];
      [| |congruence].
    + rewrite E12.
      destruct (N.compare_spec (N_of_ascii c2) (N_of_ascii c3)); try congruence.
      now apply (IH s2).
    + destruct (N.compare_spec (N_of_ascii c2) (N_of_ascii c3)) as [E23|L23|G23];
        [| |congruence].
      * rewrite <- E23. apply N.compare_lt_iff in L12. rewrite L12. discriminate.
      * assert (L13 : (N_of_ascii c1 < N_of_ascii c3)%N) by lia.
        apply N.compare_lt_iff in L13. rewrite L13. discriminate.
Qed.

Lemma text_leb_trans (a b c : string) :
  Sql.text_leb a b = true -> Sql.text_leb b c = true -> Sql.text_leb a c = true.
Proof.
  unfold Sql.text_leb, String.leb. intros H1 H2.
  pose proof (string_compare_trans a b c) as H.
  destruct (String.compare a b); destruct (String.compare b c);
    destruct (String.compare a c); try reflexivity; try discriminate;
    exfalso; apply H; congruence.
Qed.

Lemma text_leb_total (a b : string) :
  Sql.text_leb a b = true \/ Sql.text_leb b a = true.
Proof. apply String.leb_total. Qed.

(** ** The [LIKE] operator on a term without wildcards *)

Lemma bytes_append (a b : string) : bytes (a ++ b)%string = bytes a ++ bytes b.
Proof. induction a as [|c a IH]; simpl; [reflexivity | now rewrite IH]. Qed.

Lemma char_eq_nocase_lower (c d : ascii) :
  Sql.char_eq_nocase c d = true <-> Sql.lower c = Sql.lower d.
Proof. unfold Sql.char_eq_nocase. apply Ascii.eqb_eq. Qed.

Lemma c_string_nul_free (l : list ascii) :
  forallb (fun c => negb (Sql.is_nul c)) l = true -> Sql.c_string l = l.
Proof.
  induction l as [|c l IH]; simpl; [reflexivity|]. intros H.
  apply andb_true_iff in H. destruct H as [Hc Hl].
  apply negb_true_iff in Hc. rewrite Hc. f_equal. now apply IH.
Qed.


Lemma c_string_app (a b : list ascii) :
  Sql.c_string (a ++ b)
  = if forallb (fun c => negb (Sql.is_nul c)) a then a ++ Sql.c_string b
    else Sql.c_string a.
Proof.
  induction a as [|c a IH]; simpl; [reflexivity|].
  destruct (Sql.is_nul c); simpl; [reflexivity|]. rewrite IH.
  destruct (forallb _ a); reflexivity.
Qed.

Lemma c_string_idem (l : list ascii) :
  forallb (fun c => negb (Sql.is_nul c)) (Sql.c_string l) = true.
Proof.
  induction l as [|c l IH]; simpl; [reflexivity|].
  destruct (Sql.is_nul c) eqn:E; simpl; [reflexivity|]. now rewrite E.
Qed.



(** A pattern that starts with a character other than the wildcards. *)
Lemma compare_literal (c : ascii) (p s : list ascii) :
  Ascii.eqb c "%" = false -> Ascii.eqb c "_" = false ->
  Sql.patternCompare false (c :: p) s =
  match s with
  | [] => false
  | d :: s' => Sql.char_eq_nocase c d && Sql.patternCompare false p s'
  end.
Proof. intros H1 H2. cbn [Sql.patternCompare]. now rewrite H1, H2. Qed.

(** After a [%], such a pattern may start anywhere in the text. *)
Lemma compare_star_literal (c : ascii) (p s : list ascii) :
  Ascii.eqb c "%" = false -> Ascii.eqb c "_" = false ->
  (Sql.patternCompare true (c :: p) s = true <->
   exists pre rest, s = pre ++ rest /\ Sql.patternCompare false (c :: p) rest = true).
Proof.
  intros H1 H2. cbn [Sql.patternCompare]. rewrite H1, H2.
  induction s as [|d s IH].
  - split; [discriminate|]. intros [pre [rest [Heq H]]].
    symmetry in Heq. apply app_eq_nil in Heq. destruct Heq as [_ ->].
    discriminate H.
  - rewrite orb_true_iff, IH. split.
    + intros [H|[pre [rest [-> H]]]].
      * exists [], (d :: s). auto.
      * exists (d :: pre), rest. auto.
    + intros [[|d' pre] [rest [Heq H]]]; simpl in Heq.
      * left. subst rest. exact H.
      * right. injection Heq as -> ->. eauto.
Qed.


Lemma compare_prefix (p s : list ascii) :
  forallb (fun c => negb (Ascii.eqb c "%") && negb (Ascii.eqb c "_")) p = true ->
  (Sql.patternCompare false (p ++ ["%"%char]) s = true <->
   exists mid post, s = mid ++ post /\ map Sql.lower mid = map Sql.lower p).
Proof.
  revert s. induction p as [|c p IH]; intros s Hfree.
  - simpl. split.
    + intros _. exists [], s. auto.
    + reflexivity.
  - simpl in Hfree. apply andb_true_iff in Hfree. destruct Hfree as [Hc Hp].
    apply andb_true_iff in Hc. destruct Hc as [H1 H2].
    apply negb_true_iff in H1, H2.
    simpl app. rewrite (compare_literal c _ s H1 H2).
    destruct s as [|d s].
    + split; [discriminate|]. intros [mid [post [Heq Hmid]]].
      symmetry in Heq. apply app_eq_nil in Heq. destruct Heq as [-> _].
      discriminate.
    + rewrite andb_true_iff, char_eq_nocase_lower, (IH s Hp). split.
      * intros [Hcd [mid [post [-> Hmid]]]].
        exists (d :: mid), post. simpl. split; [reflexivity|]. congruence.
      * intros [[|d' mid] [post [Heq Hmid]]]; [discriminate|].
        simpl in *. injection Heq as -> ->. injection Hmid as Hd Hmid.
        split; [congruence|]. eauto.
Qed.

(** The pattern [%t%] on C strings without NUL: containment. *)
Lemma compare_contains (t s : list ascii) :
  forallb (fun c => negb (Ascii.eqb c "%") && negb (Ascii.eqb c "_")) t = true ->
  (Sql.patternCompare false ("%"%char :: t ++ ["%"%char]) s = true <->
   exists pre post, map Sql.lower s = pre ++ map Sql.lower t ++ post).
Proof.
  intros Hfree. cbn [Sql.patternCompare]. rewrite Ascii.eqb_refl.
  destruct t as [|c t].
  - simpl. split; [|reflexivity]. intros _. exists [], (map Sql.lower s). reflexivity.
  - pose proof Hfree as Hc. simpl in Hc. apply andb_true_iff in Hc.
    destruct Hc as [Hc _]. apply andb_true_iff in Hc. destruct Hc as [H1 H2].
    apply negb_true_iff in H1, H2.
    change ((c :: t) ++ ["%"%char]) with (c :: (t ++ ["%"%char])).
    rewrite (compare_star_literal c _ s H1 H2).
    change (c :: (t ++ ["%"%char])) with ((c :: t) ++ ["%"%char]). split.
    + intros [pre [rest [-> H]]]. apply (compare_prefix _ _ Hfree) in H.
      destruct H as [mid [post [-> Hmid]]].
      exists (map Sql.lower pre), (map Sql.lower post).
      rewrite !map_app. now rewrite Hmid.
    + intros [pre [post Heq]].
      apply map_eq_app in Heq. destruct Heq as [pre' [rest [Heq [_ Hrest]]]].
      apply map_eq_app in Hrest. destruct Hrest as [mid [post' [-> [Hmid _]]]].
      exists pre', (mid ++ post'). split; [assumption|].
      apply (compare_prefix _ _ Hfree). eauto.
Qed.



(** On a term and a text without NUL, and no [%] and [_] in the term,
    [LIKE '%term%'] is containment without regard to the case of ASCII
    letters. *)
Lemma like_contains (text term : string) :
  wildcard_free term = true ->
  nul_free term = true ->
  nul_free text = true ->
  (Sql.like text ("%" ++ term ++ "%")%string = true <-> contains_nocase text term).
Proof.
  intros Hfree Hterm Htext. unfold Sql.like, Sql.like_bytes, contains_nocase.
  change (list_ascii_of_string ("%" ++ term ++ "%")%string)
    with ("%"%char :: bytes (term ++ "%")%string).
  rewrite bytes_append. change (bytes "%") with ["%"%char].
  cbn [Sql.c_string]. change (Sql.is_nul "%") with false. cbv iota.
  rewrite c_string_app. unfold nul_free in Hterm, Htext. rewrite Hterm.
  change (Sql.c_string ["%"%char]) with ["%"%char].
  fold (bytes text). rewrite (c_string_nul_free _ Htext).
  apply (compare_contains _ _ Hfree).
Qed.

(** ** Claims about the search *)









(** ** The tree builder: structure of its result *)

Lemma node_induction (Q : node -> Prop) :
  (forall it sub, Forall Q sub -> Q (Node it sub)) -> forall n, Q n.
Proof.
  intros step. fix self 1. intros [it sub]. apply step.
  induction sub as [|c sub IH]; constructor; [apply self | exact IH].
Qed.

Lemma flatten_nodes (n : node) : flatten n = map item (nodes n).
Proof.
  induction n as [it sub IH] using node_induction. simpl. f_equal.
  induction sub as [|c sub IHsub]; simpl; [reflexivity|].
  inversion IH as [|? ? Hc Hsub]; subst.
  rewrite map_app, Hc. f_equal. now apply IHsub.
Qed.

Lemma flatten_forest_nodes (forest : list node) :
  flatten_forest forest = map item (all_nodes forest).
Proof.
  unfold flatten_forest, all_nodes.
  induction forest as [|n forest IH]; simpl; [reflexivity|].
  now rewrite map_app, flatten_nodes, IH.
Qed.

Lemma mapM_Forall2 {A B : Type} (f : A -> option B) (l : list A) (ys : list B) :
  mapM f l = Some ys <-> Forall2 (fun x y => f x = Some y) l ys.
Proof.
  revert ys. induction l as [|x l IH]; intros ys; simpl.
  - split; [intros [= <-]; constructor | intros H; now inversion H].
  - destruct (f x) as [y|] eqn:E.
    + destruct (mapM f l) as [ys'|] eqn:E'.
      * split.
        -- intros [= <-]. constructor; [assumption | now apply IH].
        -- intros H. inversion H as [|? ? ? ? Hy Hl]; subst.
           apply IH in Hl. congruence.
      * split; [discriminate|]. intros H.
        inversion H as [|? ? ? ? Hy Hl]; subst. apply IH in Hl. discriminate.
    + split; [discriminate|]. intros H.
      inversion H as [|? ? ? ? Hy Hl]; subst. congruence.
Qed.

(** One level of the result: the records whose parent is [parentId], in
    the order of the input, each with the forest built for its id. *)
Lemma buildTree_level (fuel : nat) (items : list Item.t) (parentId : option Z)
    (forest : list node) :
  buildTree (S fuel) items parentId = Some forest <->
  Forall2 (fun it nd => item nd = it
                        /\ buildTree fuel items (Some (Item.id it))
                           = Some (children nd))
          (filter (fun it => opt_Z_eqb (Item.parent_id it) parentId) items)
          forest.
Proof.
  cbn [buildTree]. rewrite mapM_Forall2.
  split; intros H; (eapply Forall2_impl; [|exact H]); intros it nd; simpl.
  - destruct (buildTree fuel items (Some (Item.id it))); [|discriminate].
    intros [= <-]. auto.
  - intros [<- Hsub]. destruct nd as [it' sub]. simpl in *. now rewrite Hsub.
Qed.

Lemma opt_Z_eqb_eq (a b : option Z) : opt_Z_eqb a b = true <-> a = b.
Proof.
  destruct a, b; simpl; try (split; congruence).
  rewrite Z.eqb_eq. split; congruence.
Qed.

Lemma Forall2_map_eq {A B : Type} (g : B -> A) (l : list A) (ys : list B)
    (Q : A -> B -> Prop) :
  Forall2 (fun x y => g y = x /\ Q x y) l ys -> map g ys = l.
Proof. induction 1 as [|x y l ys [Hg _] _ IH]; simpl; congruence. Qed.

Lemma buildTree_level_items (fuel : nat) (items : list Item.t)
    (parentId : option Z) (forest : list node) :
  buildTree (S fuel) items parentId = Some forest ->
  map item forest
  = filter (fun it => opt_Z_eqb (Item.parent_id it) parentId) items.
Proof. intros H. apply buildTree_level in H. now apply Forall2_map_eq in H. Qed.

Lemma buildTree_level_node (fuel : nat) (items : list Item.t)
    (parentId : option Z) (forest : list node) (nd : node) :
  buildTree (S fuel) items parentId = Some forest -> In nd forest ->
  In (item nd) items
  /\ Item.parent_id (item nd) = parentId
  /\ buildTree fuel items (Some (Item.id (item nd))) = Some (children nd).
Proof.
  intros H Hin. pose proof (buildTree_level_items _ _ _ _ H) as Hitems.
  apply buildTree_level in H.
  assert (Hit : In (item nd) (map item forest)) by now apply in_map.
  rewrite Hitems in Hit. apply filter_In in Hit. destruct Hit as [Hit Hp].
  apply opt_Z_eqb_eq in Hp. split; [assumption|]. split; [assumption|].
  clear - H Hin. induction H as [|it nd' l forest [Heq Hsub] _ IH];
    [contradiction|].
  destruct Hin as [->|Hin]; [now rewrite Heq | now apply IH].
Qed.

(** Every node of the result, at any level, carries a record of the
    input whose parent is the level's key, and the forest built for its
    own id. *)
Lemma buildTree_node (fuel : nat) (items : list Item.t) (parentId : option Z)
    (forest : list node) (nd : node) :
  buildTree fuel items parentId = Some forest -> In nd (all_nodes forest) ->
  In (item nd) items
  /\ (Item.parent_id (item nd) = parentId
      \/ exists par, In par items
                     /\ Item.parent_id (item nd) = Some (Item.id par))
  /\ exists n, buildTree (S n) items (Some (Item.id (item nd)))
               = Some (children nd).
Proof.
  revert parentId forest nd.
  induction fuel as [|fuel IH]; intros parentId forest nd H Hin; [discriminate|].
  unfold all_nodes in Hin. apply in_flat_map in Hin.
  destruct Hin as [top [Htop Hnd]].
  destruct (buildTree_level_node _ _ _ _ _ H Htop) as [Hit [Hp Hsub]].
  assert (Hcases : nd = top \/ In nd (all_nodes (children top)))
    by (destruct top; destruct Hnd as [<-|Hnd]; auto).
  destruct Hcases as [->|Hbelow].
  - split; [assumption|]. split; [now left|].
    destruct fuel as [|fuel]; [discriminate|]. eauto.
  - destruct (IH _ _ nd Hsub Hbelow) as [Hit' [Hp' Hsub']].
    split; [assumption|]. split; [|assumption].
    right. destruct Hp' as [Hp'|Hp']; [|assumption]. eauto.
Qed.

(** ** The tree builder: it returns *)

Lemma mapM_total {A B : Type} (f : A -> option B) (l : list A) :
  (forall x, In x l -> exists y, f x = Some y) -> exists ys, mapM f l = Some ys.
Proof.
  induction l as [|x l IH]; intros H; simpl; [eauto|].
  destruct (H x (or_introl eq_refl)) as [y ->].
  destruct IH as [ys ->]; [intros; apply H; now right|]. eauto.
Qed.

Lemma mapM_ext_in {A B : Type} (f g : A -> option B) (l : list A) (ys : list B) :
  (forall x y, In x l -> f x = Some y -> g x = Some y) ->
  mapM f l = Some ys -> mapM g l = Some ys.
Proof.
  revert ys. induction l as [|x l IH]; intros ys H Hm; simpl in *; [assumption|].
  destruct (f x) as [y|] eqn:E; [|discriminate].
  rewrite (H x y (or_introl eq_refl) E).
  destruct (mapM f l) as [ys'|]; [|discriminate].
  rewrite (IH ys'); [assumption | intros; apply H; auto | reflexivity].
Qed.

Lemma buildTree_more_fuel (n m : nat) (items : list Item.t) (parentId : option Z)
    (forest : list node) :
  buildTree n items parentId = Some forest -> (n <= m)%nat ->
  buildTree m items parentId = Some forest.
Proof.
  revert m parentId forest. induction n as [|n IH]; intros m parentId forest H Hle;
    [discriminate|].
  destruct m as [|m]; [lia|]. cbn [buildTree] in *.
  eapply mapM_ext_in; [|exact H].
  intros it nd _. simpl.
  destruct (buildTree n items (Some (Item.id it))) as [sub|] eqn:E; [|discriminate].
  rewrite (IH m _ sub E) by lia. auto.
Qed.

Lemma path_to_incl (items : list Item.t) (p : option Z) (path : list Z) :
  path_to items p path -> incl path (map Item.id items).
Proof.
  induction 1 as [|it path Hit _ IH]; intros x Hx; [contradiction|].
  destruct Hx as [<-|Hx]; [now apply in_map | now apply IH].
Qed.

Lemma item_unique (items : list Item.t) (a b : Item.t) :
  NoDup (map Item.id items) -> In a items -> In b items ->
  Item.id a = Item.id b -> a = b.
Proof.
  induction items as [|x items IH]; intros Hnd Ha Hb Heq; [contradiction|].
  simpl in Hnd. inversion Hnd as [|? ? Hx Hrest]; subst.
  destruct Ha as [->|Ha], Hb as [->|Hb]; auto.
  - exfalso. apply Hx. rewrite Heq. now apply in_map.
  - exfalso. apply Hx. rewrite <- Heq. now apply in_map.
Qed.

(** With unique ids the chain of a record is determined. *)
Lemma path_to_functional (items : list Item.t) (p : option Z) (p1 p2 : list Z) :
  NoDup (map Item.id items) ->
  path_to items p p1 -> path_to items p p2 -> p1 = p2.
Proof.
  intros Hnd H1. revert p2.
  induction H1 as [|it path Hit _ IH]; intros p2 H2.
  - now inversion H2.
  - inversion H2 as [|it' path' Hit' Hpath' Heq]; subst.
    assert (it' = it) by (apply (item_unique items); auto). subst it'.
    f_equal. now apply IH.
Qed.

Lemma path_to_suffix (items : list Item.t) (p : option Z) (path : list Z) (x : Z) :
  path_to items p path -> In x path ->
  exists pre suf, path = pre ++ x :: suf /\ path_to items (Some x) (x :: suf).
Proof.
  induction 1 as [|it path Hit Hpath IH]; intros Hx; [contradiction|].
  destruct Hx as [<-|Hx].
  - exists [], path. split; [reflexivity|]. now constructor.
  - destruct (IH Hx) as [pre [suf [-> Hsuf]]].
    exists (Item.id it :: pre), suf. auto.
Qed.

(** With unique ids no id comes twice on a chain. *)
Lemma path_to_NoDup (items : list Item.t) (p : option Z) (path : list Z) :
  NoDup (map Item.id items) -> path_to items p path -> NoDup path.
Proof.
  intros Hnd. induction 1 as [|it path Hit Hpath IH]; constructor; [|assumption].
  intros Hin.
  destruct (path_to_suffix _ _ _ _ Hpath Hin) as [pre [suf [Heq Hsuf]]].
  assert (Hfull : path_to items (Some (Item.id it)) (Item.id it :: path))
    by now constructor.
  pose proof (path_to_functional _ _ _ _ Hnd Hsuf Hfull) as Hsame.
  injection Hsame as Hsame. rewrite Hsame in Heq.
  apply (f_equal (@List.length Z)) in Heq.
  rewrite length_app in Heq. simpl in Heq. lia.
Qed.

Lemma path_to_length (items : list Item.t) (p : option Z) (path : list Z) :
  NoDup (map Item.id items) -> path_to items p path ->
  (List.length path <= List.length items)%nat.
Proof.
  intros Hnd Hpath. rewrite <- (length_map Item.id items).
  apply NoDup_incl_length; [eapply path_to_NoDup | eapply path_to_incl]; eauto.
Qed.

(** The recursion goes down one record of a chain at a time, so it is
    never deeper than there are records. *)
Lemma buildTree_returns_below (items : list Item.t) :
  NoDup (map Item.id items) ->
  forall fuel parentId path,
    path_to items parentId path ->
    (List.length items < fuel + List.length path)%nat ->
    exists forest, buildTree fuel items parentId = Some forest.
Proof.
  intros Hnd. induction fuel as [|fuel IH]; intros parentId path Hpath Hlen.
  - pose proof (path_to_length _ _ _ Hnd Hpath). simpl in Hlen. lia.
  - cbn [buildTree]. apply mapM_total. intros it Hit.
    apply filter_In in Hit. destruct Hit as [Hit Hp].
    apply opt_Z_eqb_eq in Hp.
    destruct (IH (Some (Item.id it)) (Item.id it :: path)) as [sub ->].
    + constructor; [assumption | now rewrite Hp].
    + simpl. lia.
    + eauto.
Qed.

Lemma buildTree_returns (items : list Item.t) (fuel : nat) :
  NoDup (map Item.id items) ->
  (List.length items < fuel)%nat ->
  exists forest, buildTree fuel items None = Some forest.
Proof.
  intros Hnd Hlen. apply (buildTree_returns_below items Hnd fuel None []).
  - constructor.
  - simpl. lia.
Qed.

(** ** The tree builder: every record of a forest, once *)

Lemma all_nodes_top (forest : list node) (nd : node) :
  In nd forest -> In nd (all_nodes forest).
Proof.
  intros H. unfold all_nodes. apply in_flat_map. exists nd.
  split; [assumption|]. destruct nd. simpl. now left.
Qed.

Lemma all_nodes_child (forest : list node) (nd c : node) :
  In nd (all_nodes forest) -> In c (children nd) -> In c (all_nodes forest).
Proof.
  unfold all_nodes. intros Hnd Hc. apply in_flat_map in Hnd.
  destruct Hnd as [top [Htop Hnd]]. apply in_flat_map. exists top.
  split; [assumption|]. clear Htop. revert Hnd.
  induction top as [it sub IH] using node_induction.
  cbn [nodes]. intros [<-|Hnd].
  - right. apply in_flat_map. exists c. split; [exact Hc|].
    destruct c. simpl. now left.
  - right. apply in_flat_map in Hnd. destruct Hnd as [t [Ht Hnd]].
    apply in_flat_map. exists t. split; [assumption|].
    rewrite Forall_forall in IH. now apply IH.
Qed.

(** A record with a chain to a root has a node in the result. *)
Lemma buildTree_reaches (fuel : nat) (items : list Item.t) (forest : list node)
    (it : Item.t) (path : list Z) :
  buildTree fuel items None = Some forest ->
  In it items ->
  path_to items (Item.parent_id it) path ->
  exists nd, In nd (all_nodes forest) /\ item nd = it.
Proof.
  intros Hbuild Hit Hpath.
  remember (Item.parent_id it) as p eqn:Hp. revert it Hit Hp.
  induction Hpath as [|par path Hpar Hup IH]; intros it Hit Hp.
  - destruct fuel as [|fuel]; [discriminate|].
    pose proof (buildTree_level_items _ _ _ _ Hbuild) as Hlevel.
    assert (Hin : In it (map item forest)).
    { rewrite Hlevel. apply filter_In. split; [assumption|].
      apply opt_Z_eqb_eq. congruence. }
    apply in_map_iff in Hin. destruct Hin as [nd [Heq Hnd]].
    exists nd. split; [now apply all_nodes_top | assumption].
  - destruct (IH par Hpar eq_refl) as [ndp [Hndp Heqp]].
    destruct (buildTree_node _ _ _ _ _ Hbuild Hndp) as [_ [_ [n Hsub]]].
    rewrite Heqp in Hsub.
    pose proof (buildTree_level_items _ _ _ _ Hsub) as Hlevel.
    assert (Hin : In it (map item (children ndp))).
    { rewrite Hlevel. apply filter_In. split; [assumption|].
      apply opt_Z_eqb_eq. congruence. }
    apply in_map_iff in Hin. destruct Hin as [nd [Heq Hnd]].
    exists nd. split; [|assumption]. eapply all_nodes_child; eauto.
Qed.

Lemma list_length_app_self {A : Type} (pre l : list A) : pre ++ l = l -> pre = [].
Proof.
  intros H. apply (f_equal (@List.length A)) in H. rewrite length_app in H.
  destruct pre; [reflexivity | simpl in H; lia].
Qed.

Lemma NoDup_flat_map_keyed {A B K : Type} (g : A -> list B) (key : A -> K)
    (rel : B -> K -> Prop) (l : list A) :
  (forall x c c', rel x c -> rel x c' -> c = c') ->
  NoDup (map key l) ->
  (forall a, In a l -> NoDup (g a) /\ forall x, In x (g a) -> rel x (key a)) ->
  NoDup (flat_map g l).
Proof.
  intros Hfun. induction l as [|a l IH]; intros Hkeys Hall; simpl; [constructor|].
  inversion Hkeys as [|? ? Ha Hl]; subst.
  destruct (Hall a (or_introl eq_refl)) as [Hnd Hrel].
  apply NoDup_app; [assumption | apply IH; auto; intros; apply Hall; now right |].
  intros x Hx Hx'. apply in_flat_map in Hx'. destruct Hx' as [b [Hb Hxb]].
  destruct (Hall b (or_intror Hb)) as [_ Hrelb].
  apply Ha. rewrite (Hfun x _ _ (Hrel x Hx) (Hrelb x Hxb)). now apply in_map.
Qed.

Lemma NoDup_map_filter {Row Key : Type} (key : Row -> Key) (keep : Row -> bool)
    (rows : list Row) :
  NoDup (map key rows) -> NoDup (map key (filter keep rows)).
Proof.
  intros Hrows. induction rows as [|r rows IH]; simpl in *; [constructor|].
  inversion Hrows as [|? ? Hr Hrest]; subst.
  destruct (keep r); [|now apply IH]. simpl. constructor; [|now apply IH].
  intros Hin. apply Hr. apply in_map_iff in Hin. destruct Hin as [x [Hx Hin]].
  apply filter_In in Hin. rewrite <- Hx. apply in_map. tauto.
Qed.

(** Below a key with chain [path], every id of the result has a chain
    that goes through the key, and no id comes twice. *)
Lemma buildTree_ids_once (items : list Item.t) :
  NoDup (map Item.id items) ->
  forall fuel parentId path forest,
    path_to items parentId path ->
    buildTree fuel items parentId = Some forest ->
    NoDup (map Item.id (flatten_forest forest))
    /\ forall x, In x (map Item.id (flatten_forest forest)) ->
                 exists pre, pre <> [] /\ path_to items (Some x) (pre ++ path).
Proof.
  intros Hnd. induction fuel as [|fuel IH]; intros parentId path forest Hpath Hbuild;
    [discriminate|].
  set (rel := fun (x c : Z) => exists pre, path_to items (Some x) (pre ++ c :: path)).
  assert (Hfun : forall x c c', rel x c -> rel x c' -> c = c').
  { intros x c c' [pre H] [pre' H'].
    pose proof (path_to_functional _ _ _ _ Hnd H H') as Heq.
    change (pre ++ [c] ++ path = pre' ++ [c'] ++ path) in Heq.
    rewrite !app_assoc in Heq. apply app_inv_tail in Heq.
    now apply app_inj_tail in Heq. }
  assert (Hnodes : forall nd, In nd forest ->
            NoDup (map Item.id (flatten nd))
            /\ forall x, In x (map Item.id (flatten nd)) ->
                         rel x (Item.id (item nd))).
  { intros nd Hin.
    destruct (buildTree_level_node _ _ _ _ _ Hbuild Hin) as [Hit [Hp Hsub]].
    assert (Hown : path_to items (Some (Item.id (item nd)))
                           (Item.id (item nd) :: path))
      by (constructor; [assumption | now rewrite Hp]).
    destruct (IH _ _ _ Hown Hsub) as [Hnd_sub Hbelow].
    destruct nd as [it sub]. cbn [flatten item children map] in *.
    fold (flatten_forest sub). split.
    - constructor; [|assumption]. intros Hself.
      destruct (Hbelow _ Hself) as [pre [Hne Hloop]].
      pose proof (path_to_functional _ _ _ _ Hnd Hloop Hown) as Heq.
      apply list_length_app_self in Heq. contradiction.
    - intros x [<-|Hx].
      + exists []. exact Hown.
      + destruct (Hbelow x Hx) as [pre [_ Hx']]. exists pre. exact Hx'. }
  assert (Hflat : map Item.id (flatten_forest forest)
                  = flat_map (fun nd => map Item.id (flatten nd)) forest).
  { unfold flatten_forest. clear. induction forest as [|nd forest IHf]; simpl;
      [reflexivity | now rewrite map_app, IHf]. }
  rewrite Hflat. split.
  - apply (NoDup_flat_map_keyed _ (fun nd => Item.id (item nd)) rel);
      [assumption | | assumption].
    rewrite <- (map_map item Item.id).
    rewrite (buildTree_level_items _ _ _ _ Hbuild). now apply NoDup_map_filter.
  - intros x Hx. apply in_flat_map in Hx. destruct Hx as [nd [Hin Hx]].
    destruct (Hnodes nd Hin) as [_ Hrel]. destruct (Hrel x Hx) as [pre Hx'].
    exists (pre ++ [Item.id (item nd)]). split.
    + intros Hnil. apply app_eq_nil in Hnil. destruct Hnil. discriminate.
    + now rewrite <- app_assoc.
Qed.

(** ** Forests, as decided by [is_forest] *)

Lemma item_links_ids (items : list Item.t) :
  map fst (item_links items) = map Item.id items.
Proof. unfold item_links. rewrite map_map. reflexivity. Qed.

Lemma unique_ids_items (items : list Item.t) :
  unique_ids (item_links items) = true <-> NoDup (map Item.id items).
Proof. unfold unique_ids. rewrite distinct_NoDup, item_links_ids. reflexivity. Qed.

Lemma parent_of_item (items : list Item.t) (i : Z) (q : option Z) :
  parent_of (item_links items) i = Some q ->
  exists it, In it items /\ Item.id it = i /\ Item.parent_id it = q.
Proof.
  unfold parent_of.
  destruct (find (fun e => Z.eqb (fst e) i) (item_links items)) as [e|] eqn:E;
    [|discriminate].
  apply find_some in E. destruct E as [Hin Heq]. apply Z.eqb_eq in Heq.
  unfold item_links in Hin. apply in_map_iff in Hin. destruct Hin as [it [<- Hit]].
  simpl in *. intros [= <-]. eauto.
Qed.

Lemma parent_of_present (l : links) (i : Z) :
  In i (map fst l) -> exists q, parent_of l i = Some q.
Proof.
  intros H. unfold parent_of.
  destruct (find (fun e => Z.eqb (fst e) i) l) as [e|] eqn:E; [simpl; eauto|].
  apply in_map_iff in H. destruct H as [e [<- He]].
  pose proof (find_none _ _ E e He) as Hne. simpl in Hne.
  rewrite Z.eqb_refl in Hne. discriminate.
Qed.

Lemma parents_resolve_item (items : list Item.t) (it : Item.t) (p : Z) :
  parents_resolve (item_links items) = true ->
  In it items -> Item.parent_id it = Some p -> In p (map Item.id items).
Proof.
  unfold parents_resolve. rewrite forallb_forall. intros H Hit Hp.
  specialize (H (Item.id it, Item.parent_id it)).
  rewrite Hp in H. simpl in H. rewrite <- item_links_ids.
  apply mem_Z_In, H. unfold item_links.
  rewrite <- Hp. now apply (in_map (fun it => (Item.id it, Item.parent_id it))).
Qed.

(** A chain of parents that ends, among records whose parents are
    records, is a chain to a root. *)
Lemma chain_ends_path (items : list Item.t) :
  parents_resolve (item_links items) = true ->
  forall fuel p,
    chain_ends fuel (item_links items) p = true ->
    (forall i, p = Some i -> In i (map Item.id items)) ->
    exists path, path_to items p path.
Proof.
  intros Hres. induction fuel as [|fuel IH]; intros [i|] Hends Hin;
    try (exists []; constructor).
  - simpl in Hends. rewrite <- item_links_ids in Hin.
    destruct (parent_of_present _ _ (Hin i eq_refl)) as [q Hq].
    rewrite Hq in Hends. discriminate.
  - simpl in Hends. rewrite <- item_links_ids in Hin.
    destruct (parent_of_present _ _ (Hin i eq_refl)) as [q Hq].
    rewrite Hq in Hends.
    destruct (parent_of_item _ _ _ Hq) as [it [Hit [Hid Hp]]].
    destruct (IH q Hends) as [path Hpath].
    + intros j ->. eapply parents_resolve_item; eauto.
    + subst i q. exists (Item.id it :: path). now constructor.
Qed.

Lemma is_forest_paths (items : list Item.t) :
  is_forest (item_links items) = true ->
  NoDup (map Item.id items)
  /\ forall it, In it items -> exists path, path_to items (Item.parent_id it) path.
Proof.
  unfold is_forest. rewrite !andb_true_iff. intros [[Hu Hres] Hcyc].
  split; [now apply unique_ids_items|].
  intros it Hit. unfold no_cycles in Hcyc. rewrite forallb_forall in Hcyc.
  apply (chain_ends_path items Hres (List.length (item_links items))).
  - apply (Hcyc (Item.id it, Item.parent_id it)). unfold item_links.
    now apply (in_map (fun it => (Item.id it, Item.parent_id it))).
  - intros i Hp. eapply parents_resolve_item; eauto.
Qed.

(** ** Claims about the tree builder *)

(** C7.  For records that form a forest (unique ids, every parent_id
    null or the id of a record of the list, no cycle of parents: what
    [is_forest] decides, see [is_forest_spec]), the tree builder returns,
    with a recursion no deeper than the number of records plus one, and
    the records of the forest it returns are the records of the input,
    each exactly once. *)
Theorem buildTree_flatten_round_trip (items : list Item.t) (fuel : nat) :
  is_forest (item_links items) = true ->
  (List.length items < fuel)%nat ->
  exists forest,
    buildTree fuel items None = Some forest
    /\ Permutation (flatten_forest forest) items
    /\ Permutation (map Item.id (flatten_forest forest)) (map Item.id items).
Proof.
  intros Hforest Hfuel.
  destruct (is_forest_paths items Hforest) as [Hnd Hpaths].
  destruct (buildTree_returns items fuel Hnd Hfuel) as [forest Hbuild].
  exists forest. split; [assumption|].
  assert (Hperm : Permutation (flatten_forest forest) items).
  { destruct (buildTree_ids_once items Hnd fuel None [] forest (path_root items) Hbuild)
      as [Honce _].
    apply NoDup_Permutation.
    - now apply NoDup_map_inv in Honce.
    - now apply NoDup_map_inv in Hnd.
    - intros it. rewrite flatten_forest_nodes. split.
      + intros Hin. apply in_map_iff in Hin. destruct Hin as [nd [<- Hnd']].
        now destruct (buildTree_node _ _ _ _ _ Hbuild Hnd') as [Hit _].
      + intros Hit. destruct (Hpaths it Hit) as [path Hpath].
        destruct (buildTree_reaches _ _ _ _ _ Hbuild Hit Hpath) as [nd [Hnd' <-]].
        now apply in_map. }
  split; [assumption | now apply Permutation_map].
Qed.

Lemma buildTree_flatten_round_trip_witness :
  exists forest,
    buildTree 4 (foldersQuery Example.tables "my") None = Some forest
    /\ Permutation (flatten_forest forest) (foldersQuery Example.tables "my")
    /\ Permutation (map Item.id (flatten_forest forest))
                   (map Item.id (foldersQuery Example.tables "my")).
Proof.
  apply (buildTree_flatten_round_trip (foldersQuery Example.tables "my") 4).
  - reflexivity.
  - simpl. lia.
Defined.

(** ** The rows of the folder query *)

Lemma null_int_compare_refl (p : option Z) : Sql.null_int_compare p p = Eq.
Proof. destruct p; simpl; [apply Z.compare_refl | reflexivity]. Qed.

Lemma null_int_compare_eq (a b : option Z) :
  Sql.null_int_compare a b = Eq -> a = b.
Proof.
  destruct a, b; simpl; try discriminate; try reflexivity.
  intros H. apply Z.compare_eq in H. now subst.
Qed.

Lemma null_int_compare_antisym (a b : option Z) :
  Sql.null_int_compare b a = CompOpp (Sql.null_int_compare a b).
Proof. destruct a, b; simpl; try reflexivity. apply Z.compare_antisym. Qed.

Lemma null_int_compare_lt_trans (a b c : option Z) :
  Sql.null_int_compare a b = Lt -> Sql.null_int_compare b c = Lt ->
  Sql.null_int_compare a c = Lt.
Proof.
  destruct a, b, c; simpl; try discriminate; try reflexivity.
  rewrite !Z.compare_lt_iff. lia.
Qed.

Lemma by_parent_then_name_total (a b : Folder.t) :
  by_parent_then_name a b = true \/ by_parent_then_name b a = true.
Proof.
  unfold by_parent_then_name.
  rewrite (null_int_compare_antisym (Folder.parent_id a) (Folder.parent_id b)).
  destruct (Sql.null_int_compare (Folder.parent_id a) (Folder.parent_id b));
    simpl; auto. apply text_leb_total.
Qed.

Lemma by_parent_then_name_trans (a b c : Folder.t) :
  by_parent_then_name a b = true -> by_parent_then_name b c = true ->
  by_parent_then_name a c = true.
Proof.
  unfold by_parent_then_name.
  destruct (Sql.null_int_compare (Folder.parent_id a) (Folder.parent_id b)) eqn:Eab;
    [| |discriminate];
    destruct (Sql.null_int_compare (Folder.parent_id b) (Folder.parent_id c)) eqn:Ebc;
    try discriminate; intros H1 H2.
  - apply null_int_compare_eq in Eab, Ebc. rewrite Eab, Ebc, null_int_compare_refl.
    eapply text_leb_trans; eauto.
  - apply null_int_compare_eq in Eab. now rewrite Eab, Ebc.
  - apply null_int_compare_eq in Ebc. now rewrite <- Ebc, Eab.
  - now rewrite (null_int_compare_lt_trans _ _ _ Eab Ebc).
Qed.

Lemma StronglySorted_map {A B : Type} (f : A -> B) (R : B -> B -> Prop) (l : list A) :
  StronglySorted (fun a b => R (f a) (f b)) l <-> StronglySorted R (map f l).
Proof.
  induction l as [|x l IH]; simpl.
  - split; constructor.
  - split; intros H; apply StronglySorted_inv in H; destruct H as [Hl Hx];
      (constructor; [now apply IH|]).
    + rewrite Forall_forall in *. intros y Hy. apply in_map_iff in Hy.
      destruct Hy as [z [<- Hz]]. auto.
    + rewrite Forall_forall in *. intros y Hy. apply Hx. now apply in_map.
Qed.

Lemma StronglySorted_weaken {A : Type} (R R' : A -> A -> Prop) (l : list A) :
  (forall a b, In a l -> In b l -> R a b -> R' a b) ->
  StronglySorted R l -> StronglySorted R' l.
Proof.
  induction l as [|x l IH]; intros Himp Hs; [constructor|].
  apply StronglySorted_inv in Hs. destruct Hs as [Hl Hx].
  constructor.
  - apply IH; [|assumption]. intros a b Ha Hb. apply Himp; now right.
  - rewrite Forall_forall in *. intros y Hy.
    apply Himp; [now left | now right | auto].
Qed.

Lemma foldersQuery_sorted (d : database) (tab : string) :
  StronglySorted item_le (foldersQuery d tab).
Proof.
  unfold foldersQuery. apply (proj1 (StronglySorted_map Item.of_folder item_le _)).
  eapply StronglySorted_weaken;
    [| apply (order_by_sorted by_parent_then_name by_parent_then_name_total
                              by_parent_then_name_trans)].
  intros a b _ _ H. unfold item_le, by_parent_then_name in *. simpl.
  destruct (Sql.null_int_compare (Folder.parent_id a) (Folder.parent_id b));
    [assumption | exact I | discriminate].
Qed.

Lemma foldersQuery_ids (d : database) (tab : string) :
  NoDup (map Folder.id (folders d)) -> NoDup (map Item.id (foldersQuery d tab)).
Proof.
  intros Hnd. unfold foldersQuery. rewrite map_map. simpl.
  eapply Permutation_NoDup.
  - apply Permutation_map. symmetry. apply order_by_perm.
  - now apply NoDup_map_filter.
Qed.

Lemma folder_links_ids (tbl : list Folder.t) :
  map fst (folder_links tbl) = map Folder.id tbl.
Proof. unfold folder_links. rewrite map_map. reflexivity. Qed.

Lemma unique_ids_folders (tbl : list Folder.t) :
  unique_ids (folder_links tbl) = true <-> NoDup (map Folder.id tbl).
Proof. unfold unique_ids. rewrite distinct_NoDup, folder_links_ids. reflexivity. Qed.

(** ** The tree builder: orphans and order *)

Lemma buildTree_parent_present (fuel : nat) (items : list Item.t)
    (forest : list node) (it : Item.t) (p : Z) :
  buildTree fuel items None = Some forest ->
  In it (flatten_forest forest) ->
  Item.parent_id it = Some p -> In p (map Item.id items).
Proof.
  intros Hbuild Hin Hp. rewrite flatten_forest_nodes in Hin.
  apply in_map_iff in Hin. destruct Hin as [nd [<- Hnd]].
  destruct (buildTree_node _ _ _ _ _ Hbuild Hnd) as [_ [[Hroot|[par [Hpar Heq]]] _]].
  - congruence.
  - rewrite Hp in Heq. injection Heq as ->. now apply in_map.
Qed.

Lemma buildTree_level_sorted (fuel : nat) (items : list Item.t)
    (parentId : option Z) (forest : list node) :
  StronglySorted item_le items ->
  buildTree (S fuel) items parentId = Some forest ->
  names_sorted forest.
Proof.
  intros Hsorted Hbuild. unfold names_sorted.
  apply (proj2 (StronglySorted_map item
                  (fun a b => String.leb (Item.name a) (Item.name b) = true) _)).
  rewrite (buildTree_level_items _ _ _ _ Hbuild).
  eapply StronglySorted_weaken; [|apply filter_sorted; exact Hsorted].
  intros a b Ha Hb H. apply filter_In in Ha, Hb.
  destruct Ha as [_ Ha], Hb as [_ Hb]. apply opt_Z_eqb_eq in Ha, Hb.
  unfold item_le in H. now rewrite Ha, Hb, null_int_compare_refl in H.
Qed.

Lemma buildTree_children_sorted (fuel : nat) (items : list Item.t)
    (forest : list node) (nd : node) :
  StronglySorted item_le items ->
  buildTree fuel items None = Some forest ->
  In nd (all_nodes forest) -> names_sorted (children nd).
Proof.
  intros Hsorted Hbuild Hnd.
  destruct (buildTree_node _ _ _ _ _ Hbuild Hnd) as [_ [_ [n Hsub]]].
  eapply buildTree_level_sorted; eauto.
Qed.

(** C8.  On a folder table with unique ids, when the engine runs the
    query, the route answers with the forest the tree builder makes of
    the rows of the namespace (a recursion no deeper than the number of
    rows plus one is enough).  A row whose parent_id is not null and is
    not the id of a row of the input is not in the forest; no rows give
    the empty forest; and the nodes of every level, the roots and the
    children of each node, are in the order of their names. *)
Theorem list_folders_drops_orphans_and_orders_by_name
    (fuel : nat) (tab : string) (w : world) :
  unique_ids (folder_links (folders (db w))) = true ->
  no_fault 1 w = true ->
  (List.length (foldersQuery (db w) tab) < fuel)%nat ->
  exists forest w',
    list_folders fuel tab w = Some (Json forest, w')
    /\ buildTree fuel (foldersQuery (db w) tab) None = Some forest
    /\ db w' = db w
    /\ (forall it p, In it (foldersQuery (db w) tab) ->
                     Item.parent_id it = Some p ->
                     ~ In p (map Item.id (foldersQuery (db w) tab)) ->
                     ~ In it (flatten_forest forest))
    /\ (foldersQuery (db w) tab = [] -> forest = [])
    /\ names_sorted forest
    /\ (forall nd, In nd (all_nodes forest) -> names_sorted (children nd)).
Proof.
  intros Hu Hok Hfuel.
  apply unique_ids_folders in Hu.
  pose proof (foldersQuery_ids (db w) tab Hu) as Hnd.
  pose proof (foldersQuery_sorted (db w) tab) as Hsorted.
  destruct (buildTree_returns _ fuel Hnd Hfuel) as [forest Hbuild].
  pose proof (no_fault_nth 1 w Hok 0%nat ltac:(lia)) as H0.
  assert (Hhd : hd None (faults w) = None) by (now destruct (faults w)).
  exists forest. eexists. split.
  - unfold list_folders, bind, db_read, say, ret.
    cbn [db fs console faults clock]. rewrite Hhd.
    cbn [db fs console faults clock]. rewrite Hbuild. reflexivity.
  - split; [assumption|]. split; [reflexivity|]. split; [|split; [|split]].
    + intros it p _ Hp Habsent Hin. apply Habsent.
      eapply buildTree_parent_present; eauto.
    + intros Hempty. rewrite Hempty in Hbuild.
      destruct fuel as [|fuel]; [discriminate|]. simpl in Hbuild. congruence.
    + destruct fuel as [|fuel]; [discriminate|].
      eapply buildTree_level_sorted; eauto.
    + intros nd Hin. eapply buildTree_children_sorted; eauto.
Qed.

Lemma list_folders_drops_orphans_and_orders_by_name_witness :
  exists forest w',
    list_folders 6 "my" Example.orphaned = Some (Json forest, w')
    /\ buildTree 6 (foldersQuery (db Example.orphaned) "my") None = Some forest
    /\ db w' = db Example.orphaned
    /\ (forall it p, In it (foldersQuery (db Example.orphaned) "my") ->
                     Item.parent_id it = Some p ->
                     ~ In p (map Item.id (foldersQuery (db Example.orphaned) "my")) ->
                     ~ In it (flatten_forest forest))
    /\ (foldersQuery (db Example.orphaned) "my" = [] -> forest = [])
    /\ names_sorted forest
    /\ (forall nd, In nd (all_nodes forest) -> names_sorted (children nd)).
Proof.
  apply (list_folders_drops_orphans_and_orders_by_name 6 "my" Example.orphaned).
  - reflexivity.
  - reflexivity.
  - simpl. lia.
Defined.

(** On that table the forest is alpha, then zeta with its child beta;
    the orphan 2 and its child 3 are left out. *)
Example list_folders_orphaned :
  exists forest w',
    list_folders 6 "my" Example.orphaned = Some (Json forest, w')
    /\ map Item.name (flatten_forest forest) = ["alpha"; "zeta"; "beta"].
Proof. do 2 eexists. split; [vm_compute; reflexivity | reflexivity]. Qed.

(** ** [is_forest] decides what the specification calls a forest *)

Lemma parent_of_child (l : links) (x : Z) (q : option Z) :
  parent_of l x = Some q -> In (x, q) l.
Proof.
  unfold parent_of.
  destruct (find (fun e => Z.eqb (fst e) x) l) as [[y r]|] eqn:E; [|discriminate].
  apply find_some in E. destruct E as [Hin Heq]. apply Z.eqb_eq in Heq.
  simpl in *. intros [= <-]. now subst.
Qed.

Lemma chain_fails (l : links) (n : nat) (x : Z) :
  chain_ends n l (Some x) = false ->
  exists xs, linked l (x :: xs) /\ List.length xs = n.
Proof.
  revert x. induction n as [|n IH]; intros x H; simpl in H.
  - destruct (parent_of l x) as [q|] eqn:E; [|discriminate].
    exists []. split; [|reflexivity]. constructor.
    apply parent_of_child in E. change x with (fst (x, q)). now apply in_map.
  - destruct (parent_of l x) as [q|] eqn:E; [|discriminate].
    destruct q as [y|]; [|now destruct n].
    destruct (IH y H) as [xs [Hxs Hlen]].
    exists (y :: xs). split; [|simpl; congruence].
    constructor; [|assumption]. now apply parent_of_child.
Qed.

Lemma linked_incl (l : links) (xs : list Z) :
  linked l xs -> incl xs (map fst l).
Proof.
  induction 1 as [x Hx|x y rest Hxy _ IH]; intros z Hz.
  - destruct Hz as [<-|[]]. assumption.
  - destruct Hz as [<-|Hz]; [|now apply IH].
    change x with (fst (x, Some y)). now apply in_map.
Qed.

Lemma linked_ancestor (l : links) (x y : Z) (rest : list Z) :
  linked l (x :: rest) -> In y rest -> ancestor l x y.
Proof.
  revert x. induction rest as [|z rest IH]; intros x Hl Hy; [contradiction|].
  inversion Hl as [|? ? ? Hxz Hrest]; subst.
  destruct Hy as [<-|Hy].
  - now apply t_step.
  - eapply t_trans; [apply t_step; eassumption | now apply IH].
Qed.

Lemma linked_repeat (l : links) (xs : list Z) :
  linked l xs -> ~ NoDup xs -> exists c, ancestor l c c.
Proof.
  induction xs as [|x xs IH]; intros Hl Hdup; [exfalso; apply Hdup; constructor|].
  destruct (in_dec Z.eq_dec x xs) as [Hin|Hnin].
  - exists x. eapply linked_ancestor; eauto.
  - apply IH.
    + inversion Hl; subst; [exfalso; apply Hdup; repeat constructor; auto
                           | assumption].
    + intros Hnd. apply Hdup. now constructor.
Qed.

Lemma acyclic_no_cycles (l : links) :
  (forall c, ~ ancestor l c c) -> no_cycles l = true.
Proof.
  intros Hacyc. unfold no_cycles. apply forallb_forall. intros [c [x|]] Hin;
    [|now destruct (List.length l)].
  simpl. destruct (chain_ends (List.length l) l (Some x)) eqn:E; [reflexivity|].
  exfalso. destruct (chain_fails _ _ _ E) as [xs [Hxs Hlen]].
  destruct (linked_repeat l (x :: xs) Hxs) as [a Ha]; [|now apply (Hacyc a)].
  intros Hnd. apply NoDup_incl_length with (l' := map fst l) in Hnd;
    [|now apply linked_incl].
  rewrite length_map in Hnd. simpl in Hnd. lia.
Qed.

Lemma ancestor_is_higher (l : links) (c a : Z) :
  unique_ids l = true -> no_cycles l = true -> ancestor l c a ->
  (depth (S (List.length l)) l (Some a) < depth (S (List.length l)) l (Some c))%nat.
Proof.
  intros Hu Hc. induction 1 as [c a Hchild|c m a _ IH1 _ IH2]; [|lia].
  rewrite (depth_of_child l c a Hu Hc Hchild). lia.
Qed.

Lemma no_cycles_acyclic (l : links) :
  unique_ids l = true -> no_cycles l = true -> forall c, ~ ancestor l c c.
Proof.
  intros Hu Hc c Hloop. pose proof (ancestor_is_higher l c c Hu Hc Hloop). lia.
Qed.

Theorem is_forest_spec (l : links) : is_forest l = true <-> forest l.
Proof.
  unfold is_forest, forest. rewrite !andb_true_iff. split.
  - intros [[Hu Hres] Hc]. split; [now apply distinct_NoDup|]. split.
    + intros c p Hchild. unfold parents_resolve in Hres.
      rewrite forallb_forall in Hres. specialize (Hres _ Hchild).
      now apply mem_Z_In in Hres.
    + now apply no_cycles_acyclic.
  - intros [Hu [Hres Hacyc]]. split; [split|].
    + now apply distinct_NoDup.
    + unfold parents_resolve. apply forallb_forall. intros [c [p|]] Hin;
        [|reflexivity].
      simpl. apply mem_Z_In. now apply (Hres c p).
    + now apply acyclic_no_cycles.
Qed.

(** ** The recursive query finds the folders at or below its base rows *)

Lemma below_next_round (tbl work : list Folder.t) (f : Folder.t) :
  below tbl work f <-> In f work \/ below tbl (recursive_select tbl work) f.
Proof.
  split.
  - induction 1 as [f Hf|r f _ IH Hf Hp]; [now left|]. right.
    destruct IH as [Hr|Hr].
    + apply below_base. apply recursive_select_In. eauto.
    + eapply below_step; eauto.
  - intros [Hf|Hf]; [now apply below_base|].
    induction Hf as [f Hf|r f _ IH Hf Hp].
    + apply recursive_select_In in Hf. destruct Hf as [r [Hr [Hf Hp]]].
      eapply below_step; eauto. now apply below_base.
    + eapply below_step; eauto.
Qed.

Lemma folder_tree_below (fuel : nat) (tbl work tree : list Folder.t) :
  folder_tree fuel tbl work = Some tree ->
  forall f, In f tree <-> below tbl work f.
Proof.
  revert work tree. induction fuel as [|fuel IH]; intros work tree H f.
  - destruct work; [|discriminate]. injection H as <-. split; [contradiction|].
    induction 1; auto.
  - destruct work as [|r work].
    + injection H as <-. split; [contradiction|]. induction 1; auto.
    + cbn [folder_tree] in H.
      destruct (folder_tree fuel tbl (recursive_select tbl (r :: work)))
        as [rest|] eqn:E; [|discriminate].
      injection H as <-.
      change (In f ((r :: work) ++ rest) <-> below tbl (r :: work) f).
      rewrite in_app_iff, (IH _ _ E f).
      symmetry. apply below_next_round.
Qed.

(** What a cascade delete that succeeds leaves in the two tables: the
    folder rows except those with the target id, and the file rows
    except those in a folder at or below the target. *)
Lemma cascade_delete_tables (fuel : nat) (id : Z) (w w' : world) (o : object) :
  delete_folder fuel id w = Some (Json o, w') ->
  folders (db w')
  = filter (fun f => negb (Z.eqb (Folder.id f) id)) (folders (db w))
  /\ forall f, In f (files (db w')) <->
               In f (files (db w))
               /\ ~ exists r, below (folders (db w)) (base_rows id (db w)) r
                              /\ File.folder_id f = Some (Folder.id r).
Proof.
  intros H.
  destruct (delete_folder_success _ _ _ _ _ H) as [tree [Htree [Hdb _]]].
  rewrite Hdb. simpl. split; [reflexivity|].
  intros f. rewrite filter_In, negb_true_iff. split; intros [Hf Hout];
    (split; [assumption|]).
  - intros [r [Hr Hfid]]. rewrite Hfid in Hout. simpl in Hout.
    apply (folder_tree_below _ _ _ _ Htree) in Hr.
    assert (Hin : mem_Z (Folder.id r) (map Folder.id tree) = true)
      by (apply mem_Z_In; now apply in_map).
    congruence.
  - destruct (in_tree (File.folder_id f) tree) eqn:E; [|reflexivity].
    exfalso. apply Hout. destruct (File.folder_id f) as [i|]; [|discriminate].
    simpl in E. apply mem_Z_In, in_map_iff in E. destruct E as [r [Hid Hr]].
    exists r. split; [|congruence].
    now apply (folder_tree_below _ _ _ _ Htree).
Qed.

Lemma filter_split_length {A : Type} (p : A -> bool) (l : list A) :
  List.length l
  = (List.length (filter (fun x => negb (p x)) l) + List.length (filter p l))%nat.
Proof.
  induction l as [|x l IH]; simpl; [reflexivity|].
  destruct (p x); simpl; lia.
Qed.

(** C10.  The answer of a cascade delete that succeeds is the object
    [{message, deletedRows, folderId}] and nothing else, and
    [deletedRows] is [this.changes] of the last statement,
    [DELETE FROM folders WHERE id = ?]: the number of rows of the folder
    table with the target id, which are the rows, and the only rows, the
    folder table has lost.  The file table has lost every file of a
    folder at or below the target, and no count of them is given.  With
    unique ids [deletedRows] is at most 1, and it is 0 for an id that is
    in no row. *)
Theorem deletedRows_counts_target_row_only
    (fuel : nat) (id : Z) (w w' : world) (o : object) :
  delete_folder fuel id w = Some (Json o, w') ->
  exists n : nat,
    o = [("message", JStr "폴더가 삭제되었습니다.");
         ("deletedRows", JNum (Z.of_nat n));
         ("folderId", JNum id)]
    /\ n = List.length (filter (fun f => Z.eqb (Folder.id f) id) (folders (db w)))
    /\ folders (db w')
       = filter (fun f => negb (Z.eqb (Folder.id f) id)) (folders (db w))
    /\ List.length (folders (db w)) = (List.length (folders (db w')) + n)%nat
    /\ (forall f, In f (files (db w')) <->
                  In f (files (db w))
                  /\ ~ exists r, below (folders (db w)) (base_rows id (db w)) r
                                 /\ File.folder_id f = Some (Folder.id r))
    /\ (NoDup (map Folder.id (folders (db w))) -> (n <= 1)%nat)
    /\ (~ In id (map Folder.id (folders (db w))) -> n = 0%nat).
Proof.
  intros H. destruct (delete_folder_success _ _ _ _ _ H) as [tree [_ [_ Ho]]].
  destruct (cascade_delete_tables _ _ _ _ _ H) as [Hfolders Hfiles].
  exists (List.length (filter (fun f => Z.eqb (Folder.id f) id) (folders (db w)))).
  split; [exact Ho|]. split; [reflexivity|]. split; [exact Hfolders|].
  split; [rewrite Hfolders; apply filter_split_length|].
  split; [exact Hfiles|]. split.
  - intros Hnd. pose proof (rows_with_id_unique id (db w) Hnd) as Hle.
    unfold rows_with_id in Hle. lia.
  - intros Habsent. pose proof (rows_with_id_absent id (db w) Habsent) as H0.
    unfold rows_with_id in H0. lia.
Qed.

Lemma deletedRows_counts_target_row_only_witness :
  exists o w' n,
    delete_folder 3 1 Example.start = Some (Json o, w')
    /\ o = [("message", JStr "폴더가 삭제되었습니다.");
            ("deletedRows", JNum (Z.of_nat n));
            ("folderId", JNum 1)]
    /\ n = List.length (filter (fun f => Z.eqb (Folder.id f) 1)
                               (folders Example.tables))
    /\ folders (db w')
       = filter (fun f => negb (Z.eqb (Folder.id f) 1)) (folders Example.tables)
    /\ List.length (folders Example.tables) = (List.length (folders (db w')) + n)%nat
    /\ (forall f, In f (files (db w')) <->
                  In f (files Example.tables)
                  /\ ~ exists r, below (folders Example.tables)
                                       (base_rows 1 Example.tables) r
                                 /\ File.folder_id f = Some (Folder.id r))
    /\ (NoDup (map Folder.id (folders Example.tables)) -> (n <= 1)%nat)
    /\ (~ In 1 (map Folder.id (folders Example.tables)) -> n = 0%nat).
Proof.
  do 2 eexists.
  assert (Hrun : delete_folder 3 1 Example.start = Some (Json ?[o], ?[w']))
    by (vm_compute; reflexivity).
  destruct (deletedRows_counts_target_row_only 3 1 Example.start _ _ Hrun)
    as [n Hn].
  exists n. split; [exact Hrun | exact Hn].
Defined.

(** ** The helpers on small inputs *)

Example parseInt_leading_digits : Js.parseInt (JStr "  42px") = Some 42.
Proof. reflexivity. Qed.

Example parseInt_hexadecimal : Js.parseInt (JStr "-0x1F") = Some (-31).
Proof. reflexivity. Qed.

Example parseInt_not_a_number : Js.parseInt (JStr "folder") = None.
Proof. reflexivity. Qed.

(** A no-break space (U+00A0) before the digits is stripped. *)
Example parseInt_no_break_space :
  Js.parseInt (JStr (String "194" (String "160" "7"))) = Some 7.
Proof. reflexivity. Qed.

Example parseInt_rounds_to_double :
  Js.parseInt (JStr "9007199254740993") = Some 9007199254740992.
Proof. vm_compute. reflexivity. Qed.

Example to_double_overflows : Js.to_double (10 ^ 309) = Js.infinity.
Proof. vm_compute. reflexivity. Qed.

Example parseInt_of_large_number : Js.parseInt (JNum (10 ^ 21)) = Some 1.
Proof. vm_compute. reflexivity. Qed.

Example parseInt_of_infinity : Js.parseInt (JNum Js.infinity) = None.
Proof. vm_compute. reflexivity. Qed.

Example infinity_is_sent_as_null : Js.sent (JNum Js.infinity) = JNull.
Proof. vm_compute. reflexivity. Qed.

Example like_ignores_ascii_case : Sql.like "Report-2024.PDF" "%report%" = true.
Proof. reflexivity. Qed.

Example like_underscore_is_one_character : Sql.like "abc" "a_c" = true.
Proof. reflexivity. Qed.

Example like_literal_mismatch : Sql.like "abc" "%abd%" = false.
Proof. reflexivity. Qed.

(** One character of three bytes is one character for [_]. *)
Example like_underscore_counts_characters :
  Sql.like "한" "%_%" = true /\ Sql.like "한" "%__%" = false.
Proof. split; vm_compute; reflexivity. Qed.

(** A NUL byte ends the pattern: what is left of [%ab NUL q%] is [%ab]. *)
Example like_pattern_ends_at_nul :
  Sql.like "xab" (String "%" (String "a" (String "b" (String "000" "q%")))) = true
  /\ Sql.like "xabc" (String "%" (String "a" (String "b" (String "000" "q%"))))
     = false.
Proof. split; vm_compute; reflexivity. Qed.

Example folder_tree_of_example :
  option_map (map Folder.id)
             (folder_tree 3 (folders Example.tables) (base_rows 1 Example.tables))
  = Some [1; 2; 3].
Proof. reflexivity. Qed.

Example example_is_forest :
  is_forest (folder_links (folders Example.tables)) = true
  /\ is_forest (folder_links (folders (db Example.orphaned))) = false.
Proof. split; reflexivity. Qed.

(* ================================================================== *)
(** * Part III: further properties of the routes                        *)
(* ================================================================== *)

(** ** Creating folders *)

Lemma max_id_bound (tbl : list Folder.t) (f : Folder.t) :
  In f tbl -> Folder.id f <= max_id tbl.
Proof.
  unfold max_id. induction tbl as [|g tbl IH]; intros H; [contradiction|].
  simpl. destruct H as [->|H]; [lia|]. specialize (IH H). lia.
Qed.

Lemma next_folder_id_fresh (d : database) (f : Folder.t) :
  In f (folders d) -> Folder.id f < next_folder_id d.
Proof. intros H. apply max_id_bound in H. unfold next_folder_id. lia. Qed.

Lemma next_folder_id_positive (d : database) : 0 < next_folder_id d.
Proof.
  unfold next_folder_id, max_id.
  assert (0 <= fold_right Z.max 0 (map Folder.id (folders d)))
    by (induction (folders d); simpl; lia).
  lia.
Qed.

(** The handler with a request that passes its checks: one statement,
    the INSERT. *)
Lemma create_folder_runs (body : folder_body) (w : world) (nm tab : string)
    (parent : option Z) :
  name body = Some nm -> nm <> "" ->
  tabType body = Some tab -> tab <> "" ->
  processed_id (parentId body) = Some parent ->
  create_folder body w =
  let request :=
    Log "폴더 생성 요청:"
        (AObject [("name", of_text (name body)); ("parentId", parentId body);
                  ("tabType", of_text (tabType body))]) in
  let processed := Log "처리된 parentId:" (AValue (of_int parent)) in
  let failed err :=
    Some (Status 500 err,
          mkWorld (db w) (fs w)
                  (console w ++ [request; processed;
                                 Error "폴더 생성 오류:" (AText err)])
                  (tl (faults w)) (clock w)) in
  match hd None (faults w) with
  | Some err => failed err
  | None =>
      match insertFolderQuery (db w) (clock w) nm parent tab with
      | inl err => failed err
      | inr (d', lastID) =>
          Some (Json [("id", JNum lastID); ("name", JStr nm);
                      ("parent_id", of_int parent); ("tab_type", JStr tab)],
                mkWorld d' (fs w)
                        (console w ++ [request; processed;
                                       Log "폴더 생성 성공:" (AId lastID)])
                        (tl (faults w)) (clock w))
      end
  end.
Proof.
  intros Hname Hnm Htab Htabne Hparent.
  unfold create_folder. rewrite Hname, Htab.
  apply String.eqb_neq in Hnm, Htabne. rewrite Hnm, Htabne. cbn [orb].
  unfold processed_id in Hparent.
  unfold bind, say, db_run, ret. cbn [db fs console faults clock].
  destruct (Js.given (parentId body)).
  - destruct (Js.parseInt (parentId body)) as [p|]; [|discriminate].
    injection Hparent as <-. cbn [db fs console faults clock].
    destruct (hd None (faults w)) as [e|];
      [|destruct (insertFolderQuery (db w) (clock w) nm (Some p) tab)
          as [err|[d' lastID]]];
      cbn [db fs console faults clock]; rewrite <- !app_assoc; reflexivity.
  - injection Hparent as <-. cbn [db fs console faults clock].
    destruct (hd None (faults w)) as [e|];
      [|destruct (insertFolderQuery (db w) (clock w) nm None tab)
          as [err|[d' lastID]]];
      cbn [db fs console faults clock]; rewrite <- !app_assoc; reflexivity.
Qed.

(** The handler with a request that fails one of its checks: no
    statement is sent. *)
Lemma create_folder_refuses (body : folder_body) (w : world) :
  (forall nm tab parent,
      name body = Some nm -> nm <> "" -> tabType body = Some tab -> tab <> "" ->
      processed_id (parentId body) <> Some parent) ->
  exists err,
    create_folder body w =
    Some (Status 400 err,
          mkWorld (db w) (fs w)
                  (console w ++ [Log "폴더 생성 요청:"
                                     (AObject [("name", of_text (name body));
                                               ("parentId", parentId body);
                                               ("tabType", of_text (tabType body))])])
                  (faults w) (clock w)).
Proof.
  intros Hbad. unfold create_folder, bind, say, ret. cbn [db fs console faults clock].
  destruct (name body) as [nm|] eqn:Hname; [|eexists; reflexivity].
  destruct (tabType body) as [tab|] eqn:Htab; [|eexists; reflexivity].
  destruct (String.eqb nm "") eqn:Hnm; [eexists; reflexivity|].
  destruct (String.eqb tab "") eqn:Htabne; [eexists; reflexivity|].
  cbn [orb]. apply String.eqb_neq in Hnm, Htabne.
  pose proof (Hbad nm tab) as Hp. unfold processed_id in Hp.
  destruct (Js.given (parentId body)).
  - destruct (Js.parseInt (parentId body)) as [p|]; [|eexists; reflexivity].
    exfalso. now apply (Hp (Some p)).
  - exfalso. now apply (Hp None).
Qed.

Lemma insertFolderQuery_accepts (d d' : database) (now nm tab : string)
    (parent : option Z) (lastID : Z) :
  insertFolderQuery d now nm parent tab = inr (d', lastID) ->
  (tab = "my" \/ tab = "public")
  /\ lastID = next_folder_id d
  /\ d' = mkDb (folders d ++ [Folder.mk (next_folder_id d) nm parent tab now])
               (files d) (next_folder_id d).
Proof.
  unfold insertFolderQuery.
  destruct (String.eqb tab "my") eqn:Hmy; [apply String.eqb_eq in Hmy|];
    [|destruct (String.eqb tab "public") eqn:Hpub;
      [apply String.eqb_eq in Hpub | discriminate]];
    cbn [orb]; destruct (next_folder_id d <=? 9223372036854775807);
    try discriminate; intros [= <- <-]; auto.
Qed.

(** A request is well formed when it passes the checks of the handler. *)
Lemma create_folder_checks (body : folder_body) :
  (exists nm tab parent,
      name body = Some nm /\ nm <> "" /\ tabType body = Some tab /\ tab <> ""
      /\ processed_id (parentId body) = Some parent)
  \/ (name body = None \/ name body = Some "" \/ tabType body = None
      \/ tabType body = Some "" \/ processed_id (parentId body) = None).
Proof.
  destruct (name body) as [nm|]; [|auto].
  destruct (string_dec nm "") as [->|Hnm]; [auto|].
  destruct (tabType body) as [tab|]; [|auto].
  destruct (string_dec tab "") as [->|Htab]; [auto 6|].
  destruct (processed_id (parentId body)) as [parent|]; [|auto 6].
  left. exists nm, tab, parent. auto.
Qed.

Lemma create_folder_success (body : folder_body) (w w' : world) (o : object) :
  create_folder body w = Some (Json o, w') ->
  exists nm tab parent,
    name body = Some nm /\ nm <> ""
    /\ tabType body = Some tab /\ (tab = "my" \/ tab = "public")
    /\ processed_id (parentId body) = Some parent
    /\ hd None (faults w) = None
    /\ db w' = mkDb (folders (db w)
                     ++ [Folder.mk (next_folder_id (db w)) nm parent tab (clock w)])
                    (files (db w)) (next_folder_id (db w))
    /\ fs w' = fs w
    /\ faults w' = tl (faults w)
    /\ clock w' = clock w
    /\ o = [("id", JNum (next_folder_id (db w))); ("name", JStr nm);
            ("parent_id", of_int parent); ("tab_type", JStr tab)].
Proof.
  intros H.
  destruct (create_folder_checks body)
    as [[nm [tab [parent [Hname [Hnm [Htab [Htabne Hparent]]]]]]]|Hbad].
  - rewrite (create_folder_runs body w nm tab parent) in H by assumption.
    cbv zeta in H.
    destruct (hd None (faults w)) as [e|] eqn:Hhd; [discriminate|].
    destruct (insertFolderQuery (db w) (clock w) nm parent tab)
      as [err|[d' lastID]] eqn:Hins; [discriminate|].
    destruct (insertFolderQuery_accepts _ _ _ _ _ _ _ Hins) as [Hns [-> ->]].
    injection H as <- <-. exists nm, tab, parent. cbn. auto 12.
  - destruct (create_folder_refuses body w) as [err Hrun].
    + intros nm tab parent Hname Hnm Htab Htabne Hp.
      destruct Hbad as [Hb|[Hb|[Hb|[Hb|Hb]]]]; congruence.
    + rewrite Hrun in H. discriminate.
Qed.

Lemma create_folder_success_id (body : folder_body) (w w' : world) (o : object) :
  create_folder body w = Some (Json o, w') ->
  next_folder_id (db w) <= 9223372036854775807.
Proof.
  intros H.
  destruct (create_folder_checks body)
    as [[nm [tab [parent [Hname [Hnm [Htab [Htabne Hparent]]]]]]]|Hbad].
  - rewrite (create_folder_runs body w nm tab parent) in H by assumption.
    cbv zeta in H.
    destruct (hd None (faults w)) as [e|]; [discriminate|].
    unfold insertFolderQuery in H.
    destruct (String.eqb tab "my" || String.eqb tab "public"); [|discriminate].
    destruct (Z.leb_spec (next_folder_id (db w)) 9223372036854775807);
      [assumption | discriminate].
  - destruct (create_folder_refuses body w) as [e Hrefuse].
    + intros nm tab parent Hname Hnm Htab Htabne Hp.
      destruct Hbad as [Hb|[Hb|[Hb|[Hb|Hb]]]]; congruence.
    + rewrite Hrefuse in H. discriminate.
Qed.

Lemma row_id_is_finite (n : Z) :
  0 < n -> n <= 9223372036854775807 -> Js.is_finite n = true.
Proof.
  intros Hpos Hle. unfold Js.is_finite. apply Z.ltb_lt.
  assert (9223372036854775807 < Js.infinity) by (vm_compute; reflexivity). lia.
Qed.

(** X1.  Creating a folder is all or nothing: the handler always
    answers; an answer other than the new row leaves both tables and the
    disk as they were; the answer with the new row means exactly one row
    was appended to the folder table, under the next AUTOINCREMENT id,
    and nothing else changed.  The parent of the row is what the handler
    made of [parentId]: null, or the double [parseInt] read.  The answer
    holds the same number; what is sent for it is null when it is an
    infinity. *)
Theorem create_folder_all_or_nothing (body : folder_body) (w : world) :
  exists r w',
    create_folder body w = Some (r, w')
    /\ fs w' = fs w
    /\ files (db w') = files (db w)
    /\ ((forall o, r <> Json o) -> db w' = db w)
    /\ (forall o, r = Json o ->
        exists nm tab parent,
          processed_id (parentId body) = Some parent
          /\ folders (db w')
             = folders (db w)
               ++ [Folder.mk (next_folder_id (db w)) nm parent tab (clock w)]
          /\ o = [("id", JNum (next_folder_id (db w))); ("name", JStr nm);
                  ("parent_id", of_int parent); ("tab_type", JStr tab)]
          /\ Js.sent_object o
             = [("id", JNum (next_folder_id (db w))); ("name", JStr nm);
                ("parent_id",
                 match parent with
                 | Some p => if Js.is_finite p then JNum p else JNull
                 | None => JNull
                 end);
                ("tab_type", JStr tab)]).
Proof.
  destruct (create_folder body w) as [[r w']|] eqn:Hrun.
  - exists r, w'. split; [reflexivity|].
    destruct r as [o|code err].
    + destruct (create_folder_success _ _ _ _ Hrun)
        as [nm [tab [parent [_ [_ [_ [_ [Hp [_ [Hdb [Hfs [_ [_ Ho]]]]]]]]]]]]].
      pose proof (create_folder_success_id _ _ _ _ Hrun) as Hid.
      rewrite Hdb. cbn. split; [assumption|]. split; [reflexivity|]. split.
      * intros Hno. now destruct (Hno o).
      * intros o' [= <-]. exists nm, tab, parent.
        split; [assumption|]. split; [reflexivity|]. split; [assumption|].
        rewrite Ho. cbn [Js.sent_object map fst snd Js.sent of_int].
        rewrite (row_id_is_finite _ (next_folder_id_positive (db w)) Hid).
        destruct parent as [p|]; reflexivity.
    + assert (Hsame : db w' = db w /\ fs w' = fs w).
      { destruct (create_folder_checks body)
          as [[nm [tab [parent [Hname [Hnm [Htab [Htabne Hparent]]]]]]]|Hbad].
        - rewrite (create_folder_runs body w nm tab parent) in Hrun by assumption.
          cbv zeta in Hrun.
          destruct (hd None (faults w)) as [e|];
            [|destruct (insertFolderQuery (db w) (clock w) nm parent tab)
                as [e|[d' lastID]]];
            try discriminate; injection Hrun as _ _ <-; auto.
        - destruct (create_folder_refuses body w) as [e Hrefuse].
          + intros nm tab parent Hname Hnm Htab Htabne Hp.
            destruct Hbad as [Hb|[Hb|[Hb|[Hb|Hb]]]]; congruence.
          + rewrite Hrefuse in Hrun. injection Hrun as _ _ <-. auto. }
      destruct Hsame as [Hdb Hfs]. rewrite Hdb.
      split; [assumption|]. split; [reflexivity|]. split; [auto|].
      intros o H. discriminate H.
  - exfalso.
    destruct (create_folder_checks body)
      as [[nm [tab [parent [Hname [Hnm [Htab [Htabne Hparent]]]]]]]|Hbad].
    + rewrite (create_folder_runs body w nm tab parent) in Hrun by assumption.
      cbv zeta in Hrun.
      destruct (hd None (faults w)) as [e|];
        [|destruct (insertFolderQuery (db w) (clock w) nm parent tab)
            as [e|[d' lastID]]]; discriminate.
    + destruct (create_folder_refuses body w) as [e Hrefuse].
      * intros nm tab parent Hname Hnm Htab Htabne Hp.
        destruct Hbad as [Hb|[Hb|[Hb|[Hb|Hb]]]]; congruence.
      * congruence.
Qed.

(** X2.  The handler answers 400 exactly when the name or the namespace
    is missing or empty, or a parentId is given that [parseInt] cannot
    read; it then sends no statement to the engine. *)
Theorem create_folder_bad_request (body : folder_body) (w : world) :
  ((exists err w', create_folder body w = Some (Status 400 err, w'))
   <-> (name body = None \/ name body = Some "" \/ tabType body = None
        \/ tabType body = Some "" \/ processed_id (parentId body) = None))
  /\ (forall err w', create_folder body w = Some (Status 400 err, w') ->
                     faults w' = faults w /\ db w' = db w).
Proof.
  destruct (create_folder_checks body)
    as [[nm [tab [parent [Hname [Hnm [Htab [Htabne Hparent]]]]]]]|Hbad].
  - assert (Hnot : forall err w', create_folder body w <> Some (Status 400 err, w')).
    { intros err w' Hrun.
      rewrite (create_folder_runs body w nm tab parent) in Hrun by assumption.
      cbv zeta in Hrun.
      destruct (hd None (faults w)) as [e|];
        [|destruct (insertFolderQuery (db w) (clock w) nm parent tab)
            as [e|[d' lastID]]]; discriminate. }
    split; [split|].
    + intros [err [w' Hrun]]. now destruct (Hnot err w').
    + intros [Hb|[Hb|[Hb|[Hb|Hb]]]]; congruence.
    + intros err w' Hrun. now destruct (Hnot err w').
  - destruct (create_folder_refuses body w) as [e Hrefuse].
    + intros nm tab parent Hname Hnm Htab Htabne Hp.
      destruct Hbad as [Hb|[Hb|[Hb|[Hb|Hb]]]]; congruence.
    + split; [split; eauto|].
      intros err w' Hrun. rewrite Hrefuse in Hrun. injection Hrun as _ <-. auto.
Qed.

(** X3.  A namespace other than "my" and "public" passes the checks of
    the handler and is turned down by the CHECK of the table: the answer
    is 500 with a message of the engine, and neither a row is added nor
    the disk touched. *)
Theorem create_folder_unknown_namespace (body : folder_body) (w : world)
    (nm tab : string) (parent : option Z) :
  name body = Some nm -> nm <> "" ->
  tabType body = Some tab -> tab <> "" ->
  processed_id (parentId body) = Some parent ->
  tab <> "my" -> tab <> "public" ->
  no_fault 1 w = true ->
  exists err w',
    create_folder body w = Some (Status 500 err, w')
    /\ db w' = db w
    /\ fs w' = fs w.
Proof.
  intros Hname Hnm Htab Htabne Hparent Hmy Hpub Hok.
  rewrite (create_folder_runs body w nm tab parent) by assumption. cbv zeta.
  pose proof (no_fault_nth 1 w Hok 0%nat ltac:(lia)) as H0.
  assert (Hhd : hd None (faults w) = None) by (now destruct (faults w)).
  rewrite Hhd. unfold insertFolderQuery.
  apply String.eqb_neq in Hmy, Hpub. rewrite Hmy, Hpub. cbn [orb].
  do 2 eexists. split; [reflexivity|]. split; reflexivity.
Qed.

Lemma create_folder_unknown_namespace_witness :
  exists err w',
    create_folder (mkBody (Some "notes") JNull (Some "private")) Example.start
    = Some (Status 500 err, w')
    /\ db w' = db Example.start
    /\ fs w' = fs Example.start.
Proof.
  apply (create_folder_unknown_namespace
           (mkBody (Some "notes") JNull (Some "private")) Example.start
           "notes" "private" None); try reflexivity; discriminate.
Defined.

(** X4.  A folder that is created gets an id above every id of the
    table, so a table with unique ids keeps them unique; and the id
    counter moves to the new id, so the id is not handed out again. *)
Theorem create_folder_fresh_id (body : folder_body) (w w' : world) (o : object) :
  NoDup (map Folder.id (folders (db w))) ->
  create_folder body w = Some (Json o, w') ->
  (forall f, In f (folders (db w)) -> Folder.id f < next_folder_id (db w))
  /\ In (next_folder_id (db w)) (map Folder.id (folders (db w')))
  /\ NoDup (map Folder.id (folders (db w')))
  /\ next_folder_id (db w) < next_folder_id (db w').
Proof.
  intros Hnd Hrun.
  destruct (create_folder_success _ _ _ _ Hrun)
    as [nm [tab [parent [_ [_ [_ [_ [_ [_ [Hdb _]]]]]]]]]].
  rewrite Hdb. cbn [folders]. rewrite map_app. cbn [map Folder.id].
  split; [intros f; apply next_folder_id_fresh|]. split; [|split].
  - apply in_or_app. right. now left.
  - apply NoDup_app; [assumption | repeat constructor; auto |].
    intros i Hi [<-|[]]. apply in_map_iff in Hi. destruct Hi as [f [Hid Hf]].
    apply next_folder_id_fresh in Hf. lia.
  - unfold next_folder_id at 2. cbn [folders folders_seq]. lia.
Qed.

Lemma create_folder_fresh_id_witness :
  exists o w',
    create_folder (mkBody (Some "notes") (JStr "2") (Some "my")) Example.start
    = Some (Json o, w')
    /\ (forall f, In f (folders (db Example.start)) ->
                  Folder.id f < next_folder_id (db Example.start))
    /\ In (next_folder_id (db Example.start)) (map Folder.id (folders (db w')))
    /\ NoDup (map Folder.id (folders (db w')))
    /\ next_folder_id (db Example.start) < next_folder_id (db w').
Proof.
  do 2 eexists. split; [vm_compute; reflexivity|].
  eapply (create_folder_fresh_id
            (mkBody (Some "notes") (JStr "2") (Some "my")) Example.start).
  - apply distinct_NoDup. reflexivity.
  - vm_compute. reflexivity.
Defined.

Lemma ancestor_target (l : links) (n : Z) (q : option Z) (x y : Z) :
  (forall c p, child_of l c p -> In p (map fst l)) ->
  (q = None \/ exists p, q = Some p /\ In p (map fst l)) ->
  ancestor (l ++ [(n, q)]) x y -> In y (map fst l).
Proof.
  intros Hres Hq. induction 1 as [x y Hstep|x m y _ _ _ IH]; [|assumption].
  unfold child_of in Hstep. apply in_app_or in Hstep.
  destruct Hstep as [Hin|[Heq|[]]]; [now apply (Hres x y)|].
  injection Heq as -> ->. destruct Hq as [Hq|[p [Hq Hp]]]; congruence.
Qed.

Lemma ancestor_without_new (l : links) (n : Z) (q : option Z) (x y : Z) :
  (forall c p, child_of l c p -> In p (map fst l)) ->
  (q = None \/ exists p, q = Some p /\ In p (map fst l)) ->
  ~ In n (map fst l) ->
  ancestor (l ++ [(n, q)]) x y -> x <> n -> ancestor l x y.
Proof.
  intros Hres Hq Hfresh. induction 1 as [x y Hstep|x m y H1 IH1 H2 IH2]; intros Hx.
  - apply t_step. unfold child_of in *. apply in_app_or in Hstep.
    destruct Hstep as [Hin|[Heq|[]]]; [assumption|]. congruence.
  - eapply t_trans; [now apply IH1|]. apply IH2. intros ->.
    apply Hfresh. eapply ancestor_target; eauto.
Qed.

(** A forest stays one when a record with a new id is added under no
    parent or under a record of the forest. *)
Lemma forest_extend (l : links) (n : Z) (q : option Z) :
  forest l -> ~ In n (map fst l) ->
  (q = None \/ exists p, q = Some p /\ In p (map fst l)) ->
  forest (l ++ [(n, q)]).
Proof.
  intros [Hnd [Hres Hacyc]] Hfresh Hq. split; [|split].
  - rewrite map_app. apply NoDup_app; [assumption | repeat constructor; auto |].
    intros i Hi [<-|[]]. contradiction.
  - intros c p Hchild. rewrite map_app. apply in_or_app. left.
    unfold child_of in Hchild. apply in_app_or in Hchild.
    destruct Hchild as [Hin|[Heq|[]]]; [now apply (Hres c p)|].
    injection Heq as -> ->. destruct Hq as [Hq|[p' [Hq Hp]]]; congruence.
  - intros c Hloop. apply (Hacyc c).
    eapply ancestor_without_new; eauto.
    intros ->. apply Hfresh. eapply ancestor_target; eauto.
Qed.

(** X5.  A folder table that is a forest is still one after a folder is
    created at the root or under a folder of the table. *)
Theorem create_folder_keeps_forest (body : folder_body) (w w' : world) (o : object) :
  is_forest (folder_links (folders (db w))) = true ->
  create_folder body w = Some (Json o, w') ->
  (processed_id (parentId body) = Some None
   \/ exists p, processed_id (parentId body) = Some (Some p)
                /\ In p (map Folder.id (folders (db w)))) ->
  is_forest (folder_links (folders (db w'))) = true.
Proof.
  intros Hforest Hrun Hparent.
  destruct (create_folder_success _ _ _ _ Hrun)
    as [nm [tab [parent [_ [_ [_ [_ [Hp [_ [Hdb _]]]]]]]]]].
  rewrite Hdb. cbn [folders]. unfold folder_links. rewrite map_app.
  cbn [map Folder.id Folder.parent_id]. fold (folder_links (folders (db w))).
  apply is_forest_spec. apply is_forest_spec in Hforest.
  apply forest_extend; [assumption | |].
  - rewrite folder_links_ids. intros Hin. apply in_map_iff in Hin.
    destruct Hin as [f [Hid Hf]]. apply next_folder_id_fresh in Hf. lia.
  - rewrite folder_links_ids.
    destruct Hparent as [Hnone|[p [Hsome Hin]]]; rewrite Hp in *.
    + left. congruence.
    + right. exists p. split; [congruence | assumption].
Qed.

Lemma create_folder_keeps_forest_witness :
  exists o w',
    create_folder (mkBody (Some "notes") (JStr "2") (Some "my")) Example.start
    = Some (Json o, w')
    /\ is_forest (folder_links (folders (db w'))) = true.
Proof.
  do 2 eexists. split; [vm_compute; reflexivity|].
  eapply (create_folder_keeps_forest
            (mkBody (Some "notes") (JStr "2") (Some "my")) Example.start).
  - reflexivity.
  - vm_compute. reflexivity.
  - right. exists 2. split; [reflexivity | simpl; auto].
Defined.

(** A row that names itself as its parent keeps the recursive query
    going for ever. *)
Lemma folder_tree_own_parent (tbl : list Folder.t) (r : Folder.t) :
  In r tbl -> Folder.parent_id r = Some (Folder.id r) ->
  forall fuel work, In r work -> folder_tree fuel tbl work = None.
Proof.
  intros Hr Hself. induction fuel as [|fuel IH]; intros work Hin.
  - destruct work; [contradiction | reflexivity].
  - destruct work as [|x work]; [contradiction|]. cbn [folder_tree].
    rewrite IH; [reflexivity|]. apply recursive_select_In. eauto.
Qed.

(** X6.  A parentId equal to the id the new folder is about to get is
    accepted: the folder is created as its own parent.  The cascade
    delete of that folder then never answers, whatever the bound on the
    rounds of its recursive query. *)
Theorem create_folder_own_parent_blocks_delete
    (body : folder_body) (w : world) (nm tab : string) :
  name body = Some nm -> nm <> "" ->
  tabType body = Some tab -> tab = "my" \/ tab = "public" ->
  processed_id (parentId body) = Some (Some (next_folder_id (db w))) ->
  no_fault 2 w = true ->
  next_folder_id (db w) <= 9223372036854775807 ->
  exists o w',
    create_folder body w = Some (Json o, w')
    /\ In (Folder.mk (next_folder_id (db w)) nm (Some (next_folder_id (db w)))
                     tab (clock w))
          (folders (db w'))
    /\ forall fuel, delete_folder fuel (next_folder_id (db w)) w' = None.
Proof.
  intros Hname Hnm Htab Hns Hparent Hok Hroom.
  pose proof (no_fault_nth 2 w Hok) as Hnth.
  assert (Hhd : hd None (faults w) = None)
    by (specialize (Hnth 0%nat ltac:(lia)); now destruct (faults w)).
  assert (Htabne : tab <> "") by (destruct Hns; subst; discriminate).
  rewrite (create_folder_runs body w nm tab _ Hname Hnm Htab Htabne Hparent).
  cbv zeta. rewrite Hhd. unfold insertFolderQuery.
  assert (Hcheck : String.eqb tab "my" || String.eqb tab "public" = true)
    by (now destruct Hns; subst).
  rewrite Hcheck. apply Z.leb_le in Hroom. rewrite Hroom.
  do 2 eexists. split; [reflexivity|]. cbn [db folders].
  set (row := Folder.mk (next_folder_id (db w)) nm (Some (next_folder_id (db w)))
                        tab (clock w)).
  assert (Hrow : In row (folders (db w) ++ [row]))
    by (apply in_or_app; right; now left).
  split; [exact Hrow|].
  intros fuel. rewrite delete_folder_cases. cbn [db faults folders].
  replace (nth 0 (tl (faults w)) None) with (nth 1 (faults w) None)
    by (now destruct (faults w)).
  rewrite (Hnth 1%nat) by lia.
  rewrite (folder_tree_own_parent _ row Hrow eq_refl); [reflexivity|].
  unfold base_rows. cbn [folders]. apply filter_In. split; [exact Hrow|].
  apply Z.eqb_refl.
Qed.

Lemma create_folder_own_parent_blocks_delete_witness :
  exists o w',
    create_folder (mkBody (Some "loop") (JNum 4) (Some "my")) Example.start
    = Some (Json o, w')
    /\ In (Folder.mk (next_folder_id (db Example.start)) "loop"
                     (Some (next_folder_id (db Example.start))) "my"
                     (clock Example.start))
          (folders (db w'))
    /\ forall fuel, delete_folder fuel (next_folder_id (db Example.start)) w' = None.
Proof.
  apply (create_folder_own_parent_blocks_delete
           (mkBody (Some "loop") (JNum 4) (Some "my")) Example.start "loop" "my").
  - reflexivity.
  - discriminate.
  - reflexivity.
  - left. reflexivity.
  - reflexivity.
  - reflexivity.
  - vm_compute. discriminate.
Defined.

(** ** Listing folders *)

Lemma foldersQuery_In (d : database) (tab : string) (it : Item.t) :
  In it (foldersQuery d tab) <->
  exists f, In f (folders d) /\ Folder.tab_type f = tab /\ Item.of_folder f = it.
Proof.
  unfold foldersQuery. rewrite in_map_iff. split.
  - intros [f [Heq Hf]]. apply order_by_In in Hf. apply filter_In in Hf.
    destruct Hf as [Hf Htab]. apply String.eqb_eq in Htab. eauto.
  - intros [f [Hf [Htab Heq]]]. exists f. split; [assumption|].
    apply order_by_In. apply filter_In. split; [assumption|].
    now apply String.eqb_eq.
Qed.

Lemma foldersQuery_length (d : database) (tab : string) :
  (List.length (foldersQuery d tab) <= List.length (folders d))%nat.
Proof.
  unfold foldersQuery. rewrite length_map.
  rewrite (Permutation_length (order_by_perm by_parent_then_name _)).
  apply filter_length_le.
Qed.

Lemma list_folders_answer (fuel : nat) (tab : string) (w w' : world)
    (forest : list node) :
  list_folders fuel tab w = Some (Json forest, w') ->
  buildTree fuel (foldersQuery (db w) tab) None = Some forest /\ db w' = db w.
Proof.
  unfold list_folders, bind, db_read, say, ret. cbn [db fs console faults clock].
  destruct (hd None (faults w)) as [e|]; [discriminate|].
  cbn [db fs console faults clock].
  destruct (buildTree fuel (foldersQuery (db w) tab) None) as [result|];
    [|discriminate].
  intros [= <- <-]. auto.
Qed.

Lemma list_folders_runs (fuel : nat) (tab : string) (w : world) :
  NoDup (map Folder.id (folders (db w))) ->
  hd None (faults w) = None ->
  (List.length (folders (db w)) < fuel)%nat ->
  exists forest w',
    list_folders fuel tab w = Some (Json forest, w')
    /\ buildTree fuel (foldersQuery (db w) tab) None = Some forest.
Proof.
  intros Hnd Hhd Hfuel.
  destruct (buildTree_returns (foldersQuery (db w) tab) fuel) as [forest Hbuild].
  - now apply foldersQuery_ids.
  - pose proof (foldersQuery_length (db w) tab). lia.
  - exists forest. eexists. split; [|assumption].
    unfold list_folders, bind, db_read, say, ret.
    cbn [db fs console faults clock]. rewrite Hhd.
    cbn [db fs console faults clock]. rewrite Hbuild. reflexivity.
Qed.

Lemma forest_records (fuel : nat) (d : database) (tab : string)
    (forest : list node) (it : Item.t) :
  buildTree fuel (foldersQuery d tab) None = Some forest ->
  In it (flatten_forest forest) ->
  exists f, In f (folders d) /\ Folder.tab_type f = tab /\ Item.of_folder f = it.
Proof.
  intros Hbuild Hin. rewrite flatten_forest_nodes in Hin.
  apply in_map_iff in Hin. destruct Hin as [nd [<- Hnd]].
  destruct (buildTree_node _ _ _ _ _ Hbuild Hnd) as [Hit _].
  now apply foldersQuery_In.
Qed.

(** X7.  Namespaces do not mix in the folder tree: on a folder table
    with unique ids the route answers, and every record of the forest it
    answers with is the row of a folder of the namespace asked for. *)
Theorem list_folders_stays_in_namespace (fuel : nat) (tab : string) (w : world) :
  unique_ids (folder_links (folders (db w))) = true ->
  no_fault 1 w = true ->
  (List.length (folders (db w)) < fuel)%nat ->
  exists forest w',
    list_folders fuel tab w = Some (Json forest, w')
    /\ forall it, In it (flatten_forest forest) ->
                  exists f, In f (folders (db w))
                            /\ Folder.tab_type f = tab
                            /\ Item.of_folder f = it.
Proof.
  intros Hu Hok Hfuel. apply unique_ids_folders in Hu.
  pose proof (no_fault_nth 1 w Hok 0%nat ltac:(lia)) as H0.
  assert (Hhd : hd None (faults w) = None) by (now destruct (faults w)).
  destruct (list_folders_runs fuel tab w Hu Hhd Hfuel) as [forest [w' [Hrun Hbuild]]].
  exists forest, w'. split; [assumption|].
  intros it. now apply forest_records with (fuel := fuel).
Qed.

Lemma list_folders_stays_in_namespace_witness :
  exists forest w',
    list_folders 5 "public" Example.shared = Some (Json forest, w')
    /\ forall it, In it (flatten_forest forest) ->
                  exists f, In f (folders (db Example.shared))
                            /\ Folder.tab_type f = "public"
                            /\ Item.of_folder f = it.
Proof.
  apply (list_folders_stays_in_namespace 5 "public" Example.shared).
  - reflexivity.
  - reflexivity.
  - simpl. lia.
Defined.

(** X8.  Create, then list: a folder created without parent is one of
    the roots of the forest of its namespace, under its new id and name,
    and it is in the forest of no other namespace. *)
Theorem create_folder_then_list (fuel : nat) (body : folder_body) (w : world)
    (nm tab : string) :
  NoDup (map Folder.id (folders (db w))) ->
  name body = Some nm -> nm <> "" ->
  tabType body = Some tab -> tab = "my" \/ tab = "public" ->
  processed_id (parentId body) = Some None ->
  no_fault 2 w = true ->
  next_folder_id (db w) <= 9223372036854775807 ->
  (List.length (folders (db w)) + 1 < fuel)%nat ->
  exists o w1 forest w2,
    create_folder body w = Some (Json o, w1)
    /\ list_folders fuel tab w1 = Some (Json forest, w2)
    /\ In (Item.mk (next_folder_id (db w)) nm None (clock w)) (map item forest)
    /\ forall tab' forest' w3,
         tab' <> tab ->
         list_folders fuel tab' w1 = Some (Json forest', w3) ->
         ~ In (next_folder_id (db w)) (map Item.id (flatten_forest forest')).
Proof.
  intros Hnd Hname Hnm Htab Hns Hparent Hok Hroom Hfuel.
  pose proof (no_fault_nth 2 w Hok) as Hnth.
  assert (Hhd : hd None (faults w) = None)
    by (specialize (Hnth 0%nat ltac:(lia)); now destruct (faults w)).
  assert (Htabne : tab <> "") by (destruct Hns; subst; discriminate).
  pose proof (create_folder_runs body w nm tab None Hname Hnm Htab Htabne Hparent)
    as Hrun.
  cbv zeta in Hrun. rewrite Hhd in Hrun. unfold insertFolderQuery in Hrun.
  assert (Hcheck : String.eqb tab "my" || String.eqb tab "public" = true)
    by (now destruct Hns; subst).
  rewrite Hcheck in Hrun. apply Z.leb_le in Hroom. rewrite Hroom in Hrun.
  match type of Hrun with
  | _ = Some (Json ?answer, ?after) => set (w1 := after) in *; set (o := answer) in *
  end.
  set (row := Folder.mk (next_folder_id (db w)) nm None tab (clock w)).
  assert (Hnd1 : NoDup (map Folder.id (folders (db w1)))).
  { destruct (create_folder_success _ _ _ _ Hrun)
      as [nm' [tab' [parent [_ [_ [_ [_ [_ [_ [Hdb _]]]]]]]]]].
    cbn [w1 db folders]. rewrite map_app. cbn [map Folder.id].
    apply NoDup_app; [assumption | repeat constructor; auto |].
    intros i Hi [<-|[]]. apply in_map_iff in Hi. destruct Hi as [f [Hid Hf]].
    apply next_folder_id_fresh in Hf. lia. }
  assert (Hhd1 : hd None (faults w1) = None).
  { cbn [w1 faults]. specialize (Hnth 1%nat ltac:(lia)).
    now destruct (faults w) as [|? [|? ?]]. }
  assert (Hfuel1 : (List.length (folders (db w1)) < fuel)%nat).
  { cbn [w1 db folders]. rewrite length_app. simpl. lia. }
  destruct (list_folders_runs fuel tab w1 Hnd1 Hhd1 Hfuel1)
    as [forest [w2 [Hlist Hbuild]]].
  exists o, w1, forest, w2. split; [exact Hrun|]. split; [exact Hlist|]. split.
  - destruct fuel as [|fuel]; [discriminate|].
    rewrite (buildTree_level_items _ _ _ _ Hbuild). apply filter_In. split.
    + apply foldersQuery_In. exists row. split; [|split; reflexivity].
      cbn [w1 db folders]. apply in_or_app. right. now left.
    + reflexivity.
  - intros tab' forest' w3 Hother Hlist' Hin.
    apply list_folders_answer in Hlist'. destruct Hlist' as [Hbuild' _].
    apply in_map_iff in Hin. destruct Hin as [it [Hid Hit]].
    destruct (forest_records _ _ _ _ _ Hbuild' Hit) as [f [Hf [Htab' Hof]]].
    assert (Hrow : In row (folders (db w1)))
      by (cbn [w1 db folders]; apply in_or_app; right; now left).
    assert (Hsame : Folder.id f = Folder.id row)
      by (rewrite <- Hof in Hid; exact Hid).
    assert (f = row).
    { clear - Hnd1 Hf Hrow Hsame. induction (folders (db w1)) as [|x tbl IH];
        [contradiction|].
      simpl in Hnd1. inversion Hnd1 as [|? ? Hx Hrest]; subst.
      destruct Hf as [->|Hf], Hrow as [->|Hrow]; auto.
      - exfalso. apply Hx. rewrite Hsame. now apply in_map.
      - exfalso. apply Hx. rewrite <- Hsame. now apply in_map. }
    subst f. apply Hother. symmetry. exact Htab'.
Qed.

Lemma create_folder_then_list_witness :
  exists o w1 forest w2,
    create_folder (mkBody (Some "inbox") JNull (Some "my")) Example.start
    = Some (Json o, w1)
    /\ list_folders 5 "my" w1 = Some (Json forest, w2)
    /\ In (Item.mk (next_folder_id (db Example.start)) "inbox" None
                   (clock Example.start)) (map item forest)
    /\ forall tab' forest' w3,
         tab' <> "my" ->
         list_folders 5 tab' w1 = Some (Json forest', w3) ->
         ~ In (next_folder_id (db Example.start))
              (map Item.id (flatten_forest forest')).
Proof.
  apply (create_folder_then_list 5 (mkBody (Some "inbox") JNull (Some "my"))
           Example.start "inbox" "my").
  - apply distinct_NoDup. reflexivity.
  - reflexivity.
  - discriminate.
  - reflexivity.
  - left. reflexivity.
  - reflexivity.
  - reflexivity.
  - vm_compute. discriminate.
  - simpl. lia.
Defined.

(** ** Deleting one file *)

Lemma remove_blob_trace (p : string) (w : world) :
  remove_blob p w =
  Some (tt, mkWorld (db w) (fst (blob_trace [p] (fs w)))
                    (console w ++ snd (blob_trace [p] (fs w)))
                    (faults w) (clock w)).
Proof.
  pose proof (forEach_remove_blob_trace (fun x : string => x) [p] w) as H.
  cbn [forEach map] in H. unfold bind, ret in H.
  destruct (remove_blob p w) as [[[] w1]|]; [|discriminate].
  exact H.
Qed.

(** Blobs the loop does not visit stay as they are. *)
Lemma blob_trace_keeps_others (paths : list string) (d : disk) (q : string) :
  ~ In q paths ->
  (In q (present (fst (blob_trace paths d))) <-> In q (present d)).
Proof.
  revert d. induction paths as [|p rest IH]; intros d Hq; simpl; [tauto|].
  assert (Hne : q <> p) by (intros ->; apply Hq; now left).
  assert (Hrest : ~ In q rest) by (intros H; apply Hq; now right).
  destruct (existsSync d p); [|now apply IH].
  destruct (unlinkSync d p) as [d'|] eqn:E; simpl; [|now apply IH].
  rewrite (IH d' Hrest). pose proof (unlinkSync_present d d' p q E). tauto.
Qed.

(** A blob that can be removed is not there after the loop, visited once
    or more, there before or not. *)
Lemma blob_trace_gone (paths : list string) (d : disk) (q : string) :
  In q paths -> ~ In q (undeletable d) ->
  ~ In q (present (fst (blob_trace paths d))).
Proof.
  intros Hin Hu Hafter.
  assert (Hbefore : In q (present d)) by (eapply blob_trace_shrinks; eauto).
  now destruct (blob_trace_removed paths d q Hin Hbefore Hu).
Qed.

Lemma delete_file_runs (id : Z) (w : world) (row : File.t) :
  selectFileQuery (db w) id = Some row ->
  no_fault 2 w = true ->
  let paths := if String.eqb (File.file_path row) "" then []
               else [File.file_path row] in
  delete_file id w =
  Some (Json [("message", JStr "파일이 삭제되었습니다.");
              ("deletedRows", JNum (snd (deleteFileQuery (db w) id)));
              ("fileId", JNum id);
              ("fileName", JStr (File.original_name row))],
        mkWorld (fst (deleteFileQuery (db w) id))
                (fst (blob_trace paths (fs w)))
                (console w
                 ++ [Log "파일 삭제 요청:" (AId id);
                     Log "삭제할 파일 정보:" (AFile row)]
                 ++ snd (blob_trace paths (fs w))
                 ++ [Log "파일 DB 삭제 완료:" (AId id)])
                (skipn 2 (faults w)) (clock w)).
Proof.
  intros Hrow Hok paths.
  pose proof (no_fault_nth 2 w Hok) as Hnth.
  assert (Hf : exists rest, faults w = [] \/ faults w = [None]
                            \/ faults w = None :: None :: rest).
  { pose proof (Hnth 0%nat ltac:(lia)) as H0. pose proof (Hnth 1%nat ltac:(lia)) as H1.
    destruct (faults w) as [|a [|b rest]]; simpl in *; subst;
      [exists [] | exists [] | exists rest]; auto. }
  unfold delete_file, bind at 1 2, say at 1, db_read. cbn [db fs console faults clock].
  rewrite Hrow.
  assert (Hhd : hd None (faults w) = None)
    by (destruct Hf as [rest [H|[H|H]]]; rewrite H; reflexivity).
  rewrite Hhd. unfold bind at 1, say at 1. cbn [db fs console faults clock].
  unfold bind at 1. subst paths.
  destruct (String.eqb (File.file_path row) "") eqn:Hpath; cbn [negb].
  - unfold ret at 1. unfold bind, db_run, say, ret.
    cbn [db fs console faults clock blob_trace fst snd].
    destruct Hf as [rest [H|[H|H]]]; rewrite H; cbn;
      rewrite <- !app_assoc; reflexivity.
  - rewrite remove_blob_trace. unfold bind, db_run, say, ret.
    cbn [db fs console faults clock].
    destruct Hf as [rest [H|[H|H]]]; rewrite H;
      unfold deleteFileQuery; cbn [hd tl skipn fst snd db fs console faults clock];
      rewrite <- !app_assoc; reflexivity.
Qed.

(** X9.  Deleting a file that is there, the engine running both
    statements: the answer names the file, every row with the id leaves
    the file table and no other row does, the folder table is as it was,
    the blob of the row read is gone unless its removal throws or the row
    has no stored path, and no other blob is touched. *)
Theorem delete_file_removes_row_and_blob (id : Z) (w : world) (row : File.t) :
  selectFileQuery (db w) id = Some row ->
  no_fault 2 w = true ->
  exists n w',
    delete_file id w
    = Some (Json [("message", JStr "파일이 삭제되었습니다.");
                  ("deletedRows", JNum n); ("fileId", JNum id);
                  ("fileName", JStr (File.original_name row))], w')
    /\ folders (db w') = folders (db w)
    /\ (forall f, In f (files (db w')) <-> In f (files (db w)) /\ File.id f <> id)
    /\ (File.file_path row <> "" ->
        ~ In (File.file_path row) (undeletable (fs w)) ->
        ~ In (File.file_path row) (present (fs w')))
    /\ (forall q, q <> File.file_path row ->
                  (In q (present (fs w')) <-> In q (present (fs w)))).
Proof.
  intros Hrow Hok. rewrite (delete_file_runs id w row Hrow Hok). cbv zeta.
  do 2 eexists. split; [reflexivity|]. cbn [db fs fst deleteFileQuery folders files].
  split; [reflexivity|]. split; [|split].
  - intros f. rewrite filter_In, negb_true_iff, Z.eqb_neq. tauto.
  - intros Hpath Hu. apply String.eqb_neq in Hpath. rewrite Hpath.
    apply blob_trace_gone; [now left | assumption].
  - intros q Hq. apply blob_trace_keeps_others.
    destruct (String.eqb (File.file_path row) ""); [tauto|].
    intros [Heq|[]]. congruence.
Qed.

Lemma delete_file_removes_row_and_blob_witness :
  exists n w',
    delete_file 2 Example.start
    = Some (Json [("message", JStr "파일이 삭제되었습니다.");
                  ("deletedRows", JNum n); ("fileId", JNum 2);
                  ("fileName",
                   JStr (File.original_name
                           (Example.stored 2 "b" (Some 1) "2024-05-01 09:02:00")))],
            w')
    /\ folders (db w') = folders (db Example.start)
    /\ (forall f, In f (files (db w')) <->
                  In f (files (db Example.start)) /\ File.id f <> 2)
    /\ (File.file_path (Example.stored 2 "b" (Some 1) "2024-05-01 09:02:00") <> "" ->
        ~ In (File.file_path (Example.stored 2 "b" (Some 1) "2024-05-01 09:02:00"))
             (undeletable (fs Example.start)) ->
        ~ In (File.file_path (Example.stored 2 "b" (Some 1) "2024-05-01 09:02:00"))
             (present (fs w')))
    /\ (forall q,
          q <> File.file_path (Example.stored 2 "b" (Some 1) "2024-05-01 09:02:00") ->
          (In q (present (fs w')) <-> In q (present (fs Example.start)))).
Proof.
  apply (delete_file_removes_row_and_blob 2 Example.start
           (Example.stored 2 "b" (Some 1) "2024-05-01 09:02:00"));
    reflexivity.
Defined.

(** X10.  Deleting the same file a second time is refused: after a
    delete that succeeded, the id is in no row, and the next delete of it
    answers 404 and changes nothing. *)
Theorem delete_file_twice (id : Z) (w : world) (row : File.t) :
  selectFileQuery (db w) id = Some row ->
  no_fault 3 w = true ->
  exists o w1 w2,
    delete_file id w = Some (Json o, w1)
    /\ ~ In id (map File.id (files (db w1)))
    /\ delete_file id w1 = Some (Status 404 "파일을 찾을 수 없습니다.", w2)
    /\ db w2 = db w1
    /\ fs w2 = fs w1.
Proof.
  intros Hrow Hok.
  assert (Hok2 : no_fault 2 w = true).
  { unfold no_fault in *. destruct (faults w) as [|a [|b [|c l]]]; simpl in *;
      repeat rewrite andb_true_iff in *; tauto. }
  rewrite (delete_file_runs id w row Hrow Hok2). cbv zeta.
  do 3 eexists. split; [reflexivity|].
  cbn [db fs faults deleteFileQuery fst files].
  assert (Habsent : ~ In id (map File.id
                               (filter (fun f => negb (Z.eqb (File.id f) id))
                                       (files (db w))))).
  { intros Hin. apply in_map_iff in Hin. destruct Hin as [f [Hid Hf]].
    apply filter_In in Hf. destruct Hf as [_ Hne].
    apply negb_true_iff, Z.eqb_neq in Hne. contradiction. }
  split; [exact Habsent|].
  unfold delete_file, bind, say, db_read, ret. cbn [db fs console faults clock].
  rewrite (selectFileQuery_absent
             (mkDb (folders (db w))
                   (filter (fun f => negb (Z.eqb (File.id f) id)) (files (db w)))
                   (folders_seq (db w))) id Habsent).
  pose proof (no_fault_nth 3 w Hok 2%nat ltac:(lia)) as H2.
  assert (Hhd : hd None (skipn 2 (faults w)) = None)
    by (destruct (faults w) as [|a [|b [|c l]]]; simpl in *; auto).
  rewrite Hhd. cbn [db fs console faults clock]. auto.
Qed.

Lemma delete_file_twice_witness :
  exists o w1 w2,
    delete_file 2 Example.start = Some (Json o, w1)
    /\ ~ In 2 (map File.id (files (db w1)))
    /\ delete_file 2 w1 = Some (Status 404 "파일을 찾을 수 없습니다.", w2)
    /\ db w2 = db w1
    /\ fs w2 = fs w1.
Proof.
  apply (delete_file_twice 2 Example.start
           (Example.stored 2 "b" (Some 1) "2024-05-01 09:02:00"));
    reflexivity.
Defined.

(** ** The cascade delete, further *)

Lemma delete_folder_success_world (fuel : nat) (id : Z) (w w' : world) (o : object) :
  delete_folder fuel id w = Some (Json o, w') ->
  exists tree,
    folder_tree fuel (folders (db w)) (base_rows id (db w)) = Some tree
    /\ db w' = without_folder id (without_files_of tree (db w))
    /\ fs w' = fst (blob_trace (stored_paths (sub_items tree (db w))) (fs w))
    /\ faults w' = skipn 3 (skipn 1 (faults w)).
Proof.
  intros H. rewrite delete_folder_cases in H.
  destruct (nth 0 (faults w) None) as [e|] eqn:H0; [discriminate|].
  destruct (folder_tree fuel (folders (db w)) (base_rows id (db w)))
    as [tree|] eqn:Htree; [|discriminate].
  exists tree. split; [reflexivity|].
  unfold bind in H. rewrite blob_phase_trace in H.
  change (database_phase fuel id (after_blobs id tree w) = Some (Json o, w')) in H.
  rewrite (database_phase_spec fuel id (after_blobs id tree w) tree Htree) in H.
  destruct (nth 0 (faults (after_blobs id tree w)) None); [discriminate|].
  destruct (nth 1 (faults (after_blobs id tree w)) None); [discriminate|].
  destruct (nth 2 (faults (after_blobs id tree w)) None); [discriminate|].
  injection H as _ <-. auto.
Qed.

Lemma delete_folder_no_base_rows (fuel : nat) (id : Z) (w : world) :
  ~ In id (map Folder.id (folders (db w))) ->
  no_fault 4 w = true ->
  exists w',
    delete_folder fuel id w
    = Some (Json [("message", JStr "폴더가 삭제되었습니다.");
                  ("deletedRows", JNum 0); ("folderId", JNum id)], w')
    /\ db w' = db w /\ fs w' = fs w.
Proof.
  intros Habsent Hok.
  pose proof (no_fault_nth 4 w Hok) as Hnth.
  assert (Hbase : base_rows id (db w) = [])
    by (apply filter_id_absent; assumption).
  assert (Htree : folder_tree fuel (folders (db w)) (base_rows id (db w)) = Some [])
    by (rewrite Hbase; apply folder_tree_nil).
  rewrite (delete_folder_run fuel id w [] (Hnth 0%nat ltac:(lia)) Htree).
  rewrite (database_phase_spec fuel id (after_blobs id [] w) [] Htree).
  rewrite !after_blobs_faults.
  rewrite (Hnth 1%nat), (Hnth 2%nat), (Hnth 3%nat) by lia.
  unfold after_blobs, before_blobs, stored_paths.
  cbn [db fs console faults clock].
  rewrite sub_items_nil. cbn [filter map blob_trace fst snd].
  rewrite without_files_of_nil, (without_folder_absent id (db w) Habsent).
  rewrite (rows_with_id_absent id (db w) Habsent).
  eexists. split; [reflexivity|]. split; reflexivity.
Qed.

(** X11.  The cascade delete can be repeated: after one that succeeded,
    the next one for the same id succeeds too, with [deletedRows: 0],
    and leaves the tables and the disk as the first left them. *)
Theorem cascade_delete_twice (fuel fuel' : nat) (id : Z) (w w1 : world) (o : object) :
  delete_folder fuel id w = Some (Json o, w1) ->
  no_fault 4 w1 = true ->
  exists w2,
    delete_folder fuel' id w1
    = Some (Json [("message", JStr "폴더가 삭제되었습니다.");
                  ("deletedRows", JNum 0); ("folderId", JNum id)], w2)
    /\ db w2 = db w1 /\ fs w2 = fs w1.
Proof.
  intros Hfirst Hok.
  destruct (delete_folder_success_world _ _ _ _ _ Hfirst) as [tree [_ [Hdb _]]].
  apply delete_folder_no_base_rows; [|assumption].
  rewrite Hdb. cbn [without_folder folders]. intros Hin.
  apply in_map_iff in Hin. destruct Hin as [f [Hid Hf]].
  apply filter_In in Hf. destruct Hf as [_ Hne].
  apply negb_true_iff, Z.eqb_neq in Hne. contradiction.
Qed.

Lemma cascade_delete_twice_witness :
  exists o w1 w2,
    delete_folder 3 1 Example.start = Some (Json o, w1)
    /\ delete_folder 0 1 w1
       = Some (Json [("message", JStr "폴더가 삭제되었습니다.");
                     ("deletedRows", JNum 0); ("folderId", JNum 1)], w2)
    /\ db w2 = db w1 /\ fs w2 = fs w1.
Proof.
  do 2 eexists.
  assert (Hfirst : delete_folder 3 1 Example.start = Some (Json ?[o], ?[w1]))
    by (vm_compute; reflexivity).
  destruct (cascade_delete_twice 3 0 1 Example.start _ _ Hfirst) as [w2 Hsecond];
    [reflexivity|].
  exists w2. split; [exact Hfirst | exact Hsecond].
Defined.

Lemma ancestor_mono (l l' : links) (x y : Z) :
  (forall c p, child_of l' c p -> child_of l c p) ->
  ancestor l' x y -> ancestor l x y.
Proof.
  intros Hsub. induction 1 as [x y H|x m y _ IH1 _ IH2].
  - apply t_step. now apply Hsub.
  - eapply t_trans; eauto.
Qed.

(** Rows taken out of a table with unique ids and no cycle leave one. *)
Lemma filter_keeps_acyclic (tbl : list Folder.t) (keep : Folder.t -> bool) :
  unique_ids (folder_links tbl) = true ->
  no_cycles (folder_links tbl) = true ->
  unique_ids (folder_links (filter keep tbl)) = true
  /\ no_cycles (folder_links (filter keep tbl)) = true.
Proof.
  intros Hu Hc. split.
  - apply unique_ids_folders. apply NoDup_map_filter. now apply unique_ids_folders.
  - apply acyclic_no_cycles. intros c Hloop.
    apply (no_cycles_acyclic _ Hu Hc c).
    eapply ancestor_mono; [|exact Hloop].
    intros x p Hchild. unfold child_of, folder_links in *.
    apply in_map_iff in Hchild. destruct Hchild as [f [Heq Hf]].
    apply filter_In in Hf. destruct Hf as [Hf _].
    rewrite <- Heq. now apply (in_map (fun f => (Folder.id f, Folder.parent_id f))).
Qed.

(** X12.  The cascade delete keeps what the termination of its own
    recursive query rests on: a folder table with unique ids and no cycle
    of parents has both properties again after a delete that succeeded. *)
Theorem cascade_delete_keeps_ids_unique_and_acyclic
    (fuel : nat) (id : Z) (w w' : world) (o : object) :
  unique_ids (folder_links (folders (db w))) = true ->
  no_cycles (folder_links (folders (db w))) = true ->
  delete_folder fuel id w = Some (Json o, w') ->
  unique_ids (folder_links (folders (db w'))) = true
  /\ no_cycles (folder_links (folders (db w'))) = true.
Proof.
  intros Hu Hc Hrun.
  destruct (delete_folder_success_world _ _ _ _ _ Hrun) as [tree [_ [Hdb _]]].
  rewrite Hdb. cbn [without_folder without_files_of folders].
  now apply filter_keeps_acyclic.
Qed.

Lemma cascade_delete_keeps_ids_unique_and_acyclic_witness :
  exists o w',
    delete_folder 3 1 Example.start = Some (Json o, w')
    /\ unique_ids (folder_links (folders (db w'))) = true
    /\ no_cycles (folder_links (folders (db w'))) = true.
Proof.
  do 2 eexists. split; [vm_compute; reflexivity|].
  eapply (cascade_delete_keeps_ids_unique_and_acyclic 3 1 Example.start).
  - reflexivity.
  - reflexivity.
  - vm_compute. reflexivity.
Defined.

(** X13.  What a cascade delete that succeeded did to the disk: the blob
    of every file of the subtree with a stored path is gone, unless its
    removal throws; a path that is the stored path of no file of the
    subtree is on the disk exactly if it was before. *)
Theorem cascade_delete_blobs (fuel : nat) (id : Z) (w w' : world) (o : object) :
  delete_folder fuel id w = Some (Json o, w') ->
  exists tree,
    folder_tree fuel (folders (db w)) (base_rows id (db w)) = Some tree
    /\ (forall f, In f (files (db w)) ->
                  in_tree (File.folder_id f) tree = true ->
                  File.file_path f <> "" ->
                  ~ In (File.file_path f) (undeletable (fs w)) ->
                  ~ In (File.file_path f) (present (fs w')))
    /\ (forall q,
          (forall f, In f (files (db w)) ->
                     in_tree (File.folder_id f) tree = true ->
                     File.file_path f <> q) ->
          (In q (present (fs w')) <-> In q (present (fs w)))).
Proof.
  intros Hrun.
  destruct (delete_folder_success_world _ _ _ _ _ Hrun) as [tree [Htree [_ [Hfs _]]]].
  exists tree. split; [assumption|]. rewrite Hfs. split.
  - intros f Hf Hin Hpath Hu. apply blob_trace_gone; [|assumption].
    apply stored_paths_In. exists f. auto.
  - intros q Hq. apply blob_trace_keeps_others. intros Hin.
    apply stored_paths_In in Hin. destruct Hin as [f [Hf [Hin [Heq _]]]].
    now apply (Hq f).
Qed.

Lemma cascade_delete_blobs_witness :
  exists o w' tree,
    delete_folder 3 1 Example.damaged = Some (Json o, w')
    /\ folder_tree 3 (folders (db Example.damaged))
                   (base_rows 1 (db Example.damaged)) = Some tree
    /\ (forall f, In f (files (db Example.damaged)) ->
                  in_tree (File.folder_id f) tree = true ->
                  File.file_path f <> "" ->
                  ~ In (File.file_path f) (undeletable (fs Example.damaged)) ->
                  ~ In (File.file_path f) (present (fs w')))
    /\ (forall q,
          (forall f, In f (files (db Example.damaged)) ->
                     in_tree (File.folder_id f) tree = true ->
                     File.file_path f <> q) ->
          (In q (present (fs w')) <-> In q (present (fs Example.damaged)))).
Proof.
  do 2 eexists.
  assert (Hrun : delete_folder 3 1 Example.damaged = Some (Json ?[o], ?[w']))
    by (vm_compute; reflexivity).
  destruct (cascade_delete_blobs 3 1 Example.damaged _ _ Hrun) as [tree Htree].
  exists tree. split; [exact Hrun | exact Htree].
Defined.

(** X14.  The blobs go before the rows: when the engine fails the first
    [DELETE], the handler answers 500 and both tables are as they were,
    but the blobs of the files of the subtree have already been removed;
    their rows are still in the file table and now name blobs that are
    not there. *)
Theorem cascade_delete_failure_after_blobs
    (fuel : nat) (id : Z) (w : world) (e : string) :
  unique_ids (folder_links (folders (db w))) = true ->
  no_cycles (folder_links (folders (db w))) = true ->
  (List.length (folders (db w)) + 3 <= fuel)%nat ->
  no_fault 1 w = true ->
  nth 1 (faults w) None = Some e ->
  exists tree w',
    folder_tree fuel (folders (db w)) (base_rows id (db w)) = Some tree
    /\ delete_folder fuel id w = Some (Status 500 e, w')
    /\ db w' = db w
    /\ forall f, In f (files (db w)) ->
                 in_tree (File.folder_id f) tree = true ->
                 File.file_path f <> "" ->
                 ~ In (File.file_path f) (undeletable (fs w)) ->
                 In f (files (db w'))
                 /\ ~ In (File.file_path f) (present (fs w')).
Proof.
  intros Hu Hc Hfuel Hok He.
  destruct (folder_tree_terminates (folders (db w)) (base_rows id (db w)) Hu Hc)
    as [tree Htree].
  specialize (Htree fuel Hfuel).
  pose proof (no_fault_nth 1 w Hok 0%nat ltac:(lia)) as H0.
  exists tree.
  rewrite (delete_folder_run fuel id w tree H0 Htree).
  rewrite (database_phase_spec fuel id (after_blobs id tree w) tree Htree).
  rewrite !after_blobs_faults, He.
  eexists. split; [exact Htree|]. split; [reflexivity|]. split; [reflexivity|].
  intros f Hf Hin Hpath Hundel. cbn [db fs after_blobs]. split; [assumption|].
  apply blob_trace_gone; [|assumption].
  apply stored_paths_In. exists f. auto.
Qed.

Lemma cascade_delete_failure_after_blobs_witness :
  exists tree w',
    folder_tree 6 (folders Example.tables) (base_rows 1 Example.tables) = Some tree
    /\ delete_folder 6 1 (mkWorld Example.tables (fs Example.start) []
                                  [None; Some "SQLITE_IOERR: disk I/O error"]
                                  (clock Example.start))
       = Some (Status 500 "SQLITE_IOERR: disk I/O error", w')
    /\ db w' = Example.tables
    /\ forall f, In f (files Example.tables) ->
                 in_tree (File.folder_id f) tree = true ->
                 File.file_path f <> "" ->
                 ~ In (File.file_path f) (undeletable (fs Example.start)) ->
                 In f (files (db w'))
                 /\ ~ In (File.file_path f) (present (fs w')).
Proof.
  apply (cascade_delete_failure_after_blobs 6 1
           (mkWorld Example.tables (fs Example.start) []
                    [None; Some "SQLITE_IOERR: disk I/O error"]
                    (clock Example.start))
           "SQLITE_IOERR: disk I/O error").
  - reflexivity.
  - reflexivity.
  - simpl. lia.
  - reflexivity.
  - reflexivity.
Defined.

(** X15.  What is left below a deleted folder: on a table with unique
    ids, the folders that named the deleted folder as their parent are
    still rows of the table after the delete, and they are in the forest
    of no namespace any more. *)
Theorem children_of_deleted_folder_vanish
    (fuel fuel' : nat) (id : Z) (tab : string) (w w1 : world) (o : object)
    (child : Folder.t) :
  NoDup (map Folder.id (folders (db w))) ->
  delete_folder fuel id w = Some (Json o, w1) ->
  In child (folders (db w)) ->
  Folder.parent_id child = Some id ->
  Folder.id child <> id ->
  no_fault 1 w1 = true ->
  (List.length (folders (db w)) < fuel')%nat ->
  In child (folders (db w1))
  /\ exists forest w2,
       list_folders fuel' tab w1 = Some (Json forest, w2)
       /\ ~ In (Folder.id child) (map Item.id (flatten_forest forest)).
Proof.
  intros Hnd Hrun Hchild Hparent Hne Hok Hfuel.
  destruct (delete_folder_success_world _ _ _ _ _ Hrun) as [tree [_ [Hdb _]]].
  assert (Hfolders : folders (db w1)
                     = filter (fun f => negb (Z.eqb (Folder.id f) id))
                              (folders (db w)))
    by (rewrite Hdb; reflexivity).
  assert (Hstill : In child (folders (db w1))).
  { rewrite Hfolders. apply filter_In. split; [assumption|].
    now apply negb_true_iff, Z.eqb_neq. }
  split; [assumption|].
  assert (Hnd1 : NoDup (map Folder.id (folders (db w1))))
    by (rewrite Hfolders; now apply NoDup_map_filter).
  pose proof (no_fault_nth 1 w1 Hok 0%nat ltac:(lia)) as H0.
  assert (Hhd : hd None (faults w1) = None) by (now destruct (faults w1)).
  assert (Hfuel1 : (List.length (folders (db w1)) < fuel')%nat).
  { rewrite Hfolders.
    pose proof (filter_length_le (fun f => negb (Z.eqb (Folder.id f) id))
                                 (folders (db w))). lia. }
  destruct (list_folders_runs fuel' tab w1 Hnd1 Hhd Hfuel1)
    as [forest [w2 [Hlist Hbuild]]].
  exists forest, w2. split; [assumption|]. intros Hin.
  apply in_map_iff in Hin. destruct Hin as [it [Hid Hit]].
  destruct (forest_records _ _ _ _ _ Hbuild Hit) as [f [Hf [_ Hof]]].
  assert (Hsame : Folder.id f = Folder.id child)
    by (rewrite <- Hof in Hid; exact Hid).
  assert (Hfc : f = child).
  { clear - Hnd1 Hf Hstill Hsame. induction (folders (db w1)) as [|x tbl IH];
      [contradiction|].
    simpl in Hnd1. inversion Hnd1 as [|? ? Hx Hrest]; subst.
    destruct Hf as [->|Hf], Hstill as [->|Hstill]; auto.
    - exfalso. apply Hx. rewrite Hsame. now apply in_map.
    - exfalso. apply Hx. rewrite <- Hsame. now apply in_map. }
  subst f.
  assert (Hp : Item.parent_id it = Some id) by (rewrite <- Hof; exact Hparent).
  pose proof (buildTree_parent_present _ _ _ _ _ Hbuild Hit Hp) as Hpresent.
  apply in_map_iff in Hpresent. destruct Hpresent as [par [Hparid Hpar]].
  apply foldersQuery_In in Hpar. destruct Hpar as [g [Hg [_ Hog]]].
  rewrite Hfolders in Hg. apply filter_In in Hg. destruct Hg as [_ Hgne].
  apply negb_true_iff, Z.eqb_neq in Hgne. apply Hgne.
  rewrite <- Hog in Hparid. exact Hparid.
Qed.

Lemma children_of_deleted_folder_vanish_witness :
  exists o w1,
    delete_folder 3 1 Example.start = Some (Json o, w1)
    /\ In (Example.folder 2 "child" (Some 1)) (folders (db w1))
    /\ exists forest w2,
         list_folders 4 "my" w1 = Some (Json forest, w2)
         /\ ~ In (Folder.id (Example.folder 2 "child" (Some 1)))
                 (map Item.id (flatten_forest forest)).
Proof.
  do 2 eexists.
  assert (Hrun : delete_folder 3 1 Example.start = Some (Json ?[o], ?[w1]))
    by (vm_compute; reflexivity).
  split; [exact Hrun|].
  apply (children_of_deleted_folder_vanish 3 4 1 "my" Example.start _ _
           (Example.folder 2 "child" (Some 1)) ltac:(apply distinct_NoDup; reflexivity)
           Hrun).
  - simpl. auto.
  - reflexivity.
  - discriminate.
  - reflexivity.
  - simpl. lia.
Defined.

Lemma ids_NoDup_in_table (tbl rows : list Folder.t) :
  NoDup (map Folder.id tbl) -> NoDup rows ->
  (forall r, In r rows -> In r tbl) ->
  NoDup (map Folder.id rows).
Proof.
  intros Htbl Hrows Hin. induction rows as [|r rows IH]; simpl; [constructor|].
  inversion Hrows as [|? ? Hr Hrest]; subst.
  constructor; [|apply IH; [assumption | intros; apply Hin; now right]].
  intros Hid. apply in_map_iff in Hid. destruct Hid as [r' [Heq Hr']].
  assert (r' = r); [|now subst].
  assert (In r tbl) by (apply Hin; now left).
  assert (In r' tbl) by (apply Hin; now right).
  clear - Htbl Heq H H0. induction tbl as [|x tbl IH]; [contradiction|].
  simpl in Htbl. inversion Htbl as [|? ? Hx Htl]; subst.
  destruct H as [->|H], H0 as [->|H0]; auto.
  - exfalso. apply Hx. rewrite <- Heq. now apply in_map.
  - exfalso. apply Hx. rewrite Heq. now apply in_map.
Qed.

(** The rounds of the recursive query on a table with unique ids and no
    cycle: the folders of a round are all one level deeper than those of
    the round before, so no folder comes twice. *)
Lemma folder_tree_once (tbl : list Folder.t) :
  unique_ids (folder_links tbl) = true ->
  no_cycles (folder_links tbl) = true ->
  forall fuel work tree k,
    NoDup work ->
    (forall r, In r work ->
               In r tbl
               /\ depth (S (List.length (folder_links tbl))) (folder_links tbl)
                        (Some (Folder.id r)) = k) ->
    folder_tree fuel tbl work = Some tree ->
    NoDup tree
    /\ forall f, In f tree ->
                 In f tbl
                 /\ (k <= depth (S (List.length (folder_links tbl))) (folder_links tbl)
                                (Some (Folder.id f)))%nat.
Proof.
  intros Hu Hc.
  set (dep := fun f => depth (S (List.length (folder_links tbl))) (folder_links tbl)
                             (Some (Folder.id f))).
  assert (Hids : NoDup (map Folder.id tbl)) by (now apply unique_ids_folders).
  induction fuel as [|fuel IH]; intros work tree k Hnd Hwork Htree.
  - destruct work; [|discriminate]. injection Htree as <-.
    split; [constructor | contradiction].
  - destruct work as [|r0 work0].
    + injection Htree as <-. split; [constructor | contradiction].
    + cbn [folder_tree] in Htree.
      destruct (folder_tree fuel tbl (recursive_select tbl (r0 :: work0)))
        as [rest|] eqn:Erest; [|discriminate].
      injection Htree as <-.
      set (work := r0 :: work0) in *.
      assert (Hnext : forall f, In f (recursive_select tbl work) ->
                                In f tbl /\ dep f = S k).
      { intros f Hf. apply recursive_select_In in Hf.
        destruct Hf as [r [Hr [Hf Hp]]]. split; [assumption|].
        destruct (Hwork r Hr) as [_ Hk]. fold (dep r) in Hk. rewrite <- Hk.
        unfold dep. apply (depth_of_child _ _ _ Hu Hc).
        rewrite <- Hp. now apply folder_links_In. }
      assert (Hndnext : NoDup (recursive_select tbl work)).
      { unfold recursive_select.
        apply (NoDup_flat_map_keyed _ Folder.id
                 (fun f i => Folder.parent_id f = Some i)).
        - intros f c c' H1 H2. congruence.
        - apply (ids_NoDup_in_table tbl); [assumption | assumption|].
          intros r Hr. now destruct (Hwork r Hr).
        - intros r _. split.
          + apply NoDup_filter. now apply (NoDup_map_inv Folder.id).
          + intros f Hf. apply filter_In in Hf. destruct Hf as [_ Heq].
            now apply opt_Z_eqb_eq in Heq. }
      destruct (IH _ _ (S k) Hndnext Hnext Erest) as [Hndrest Hrest].
      split.
      * change (NoDup (work ++ rest)).
        apply NoDup_app; [assumption | assumption|].
        intros f Hf Hf'. destruct (Hwork f Hf) as [_ Hk].
        destruct (Hrest f Hf') as [_ Hd]. fold (dep f) in Hk, Hd. lia.
      * intros f Hf. change (In f (work ++ rest)) in Hf.
        apply in_app_or in Hf. destruct Hf as [Hf|Hf].
        -- destruct (Hwork f Hf) as [Hin Hk]. split; [assumption|].
           fold (dep f) in Hk. fold (dep f). lia.
        -- destruct (Hrest f Hf) as [Hin Hd]. split; [assumption|].
           fold (dep f) in Hd. fold (dep f). lia.
Qed.

(** X16.  The rows the first statement of the cascade delete collects.
    On a table with unique ids and no cycle the statement ends, and its
    rows are, in some order, these and no more: one folder row for each
    folder at or below the target, none of them twice, and one file row
    for each row of the file table whose folder is such a folder. *)
Theorem getSubItemsQuery_collects_subtree (d : database) (id : Z) :
  unique_ids (folder_links (folders d)) = true ->
  no_cycles (folder_links (folders d)) = true ->
  exists tree items,
    (forall fuel, (List.length (folders d) + 3 <= fuel)%nat ->
                  getSubItemsQuery fuel d id = Some items)
    /\ NoDup tree
    /\ (forall f, In f tree <-> below (folders d) (base_rows id d) f)
    /\ Permutation items
         (map (fun f => mkItem "folder" (Folder.id f) (Folder.name f) None) tree
          ++ map (fun f => mkItem "file" (File.id f) (File.original_name f)
                                  (Some (File.file_path f)))
                 (filter (fun f =>
                            existsb (fun g => opt_Z_eqb (File.folder_id f)
                                                        (Some (Folder.id g))) tree)
                         (files d))).
Proof.
  intros Hu Hc.
  destruct (folder_tree_terminates (folders d) (base_rows id d) Hu Hc)
    as [tree Htree].
  pose proof (Htree _ (Nat.le_refl _)) as Hrun.
  exists tree, (sub_items tree d). split; [|split; [|split]].
  - intros fuel Hfuel. rewrite getSubItemsQuery_tree. now rewrite (Htree fuel Hfuel).
  - assert (Hids : NoDup (map Folder.id (folders d)))
      by (now apply unique_ids_folders).
    refine (proj1 (folder_tree_once (folders d) Hu Hc _ (base_rows id d) tree
                     (depth (S (List.length (folder_links (folders d))))
                            (folder_links (folders d)) (Some id))
                     _ _ Hrun)).
    + unfold base_rows. apply NoDup_filter. now apply (NoDup_map_inv Folder.id).
    + intros r Hr. unfold base_rows in Hr. apply filter_In in Hr.
      destruct Hr as [Hr Heq]. apply Z.eqb_eq in Heq. subst id. auto.
  - exact (folder_tree_below _ _ _ _ Hrun).
  - unfold sub_items. apply Permutation_app_head.
    rewrite (filter_ext (fun f => in_tree (File.folder_id f) tree)
               (fun f => existsb (fun g => opt_Z_eqb (File.folder_id f)
                                                     (Some (Folder.id g))) tree));
      [reflexivity|].
    intros f. unfold in_tree, mem_Z.
    destruct (File.folder_id f) as [i|]; simpl.
    + clear. induction tree as [|g tree IH]; simpl; [reflexivity|].
      now rewrite IH.
    + clear. induction tree as [|g tree IH]; simpl; auto.
Qed.

Lemma getSubItemsQuery_collects_subtree_witness :
  exists tree items,
    (forall fuel, (List.length (folders Example.tables) + 3 <= fuel)%nat ->
                  getSubItemsQuery fuel Example.tables 1 = Some items)
    /\ NoDup tree
    /\ (forall f, In f tree <->
                  below (folders Example.tables) (base_rows 1 Example.tables) f)
    /\ Permutation items
         (map (fun f => mkItem "folder" (Folder.id f) (Folder.name f) None) tree
          ++ map (fun f => mkItem "file" (File.id f) (File.original_name f)
                                  (Some (File.file_path f)))
                 (filter (fun f =>
                            existsb (fun g => opt_Z_eqb (File.folder_id f)
                                                        (Some (Folder.id g))) tree)
                         (files Example.tables))).
Proof.
  apply (getSubItemsQuery_collects_subtree Example.tables 1); reflexivity.
Defined.

(** ** Search, further *)

Lemma left_join_file (fs : list File.t) (fos : list Folder.t) (f : File.t) :
  In f fs -> exists r, In r (left_join fs fos) /\ file r = f.
Proof.
  intros Hf. unfold left_join.
  destruct (filter (fun fo => opt_Z_eqb (File.folder_id f) (Some (Folder.id fo))) fos)
    as [|fo matches] eqn:E.
  - exists (mkRow f None). split; [|reflexivity].
    apply in_flat_map. exists f. split; [assumption|]. rewrite E. now left.
  - exists (mkRow f (Some (Folder.name fo))). split; [|reflexivity].
    apply in_flat_map. exists f. split; [assumption|]. rewrite E. now left.
Qed.

Lemma one_folder_per_id (fos : list Folder.t) (o : option Z) :
  NoDup (map Folder.id fos) ->
  (List.length (filter (fun fo => opt_Z_eqb o (Some (Folder.id fo))) fos) <= 1)%nat.
Proof.
  induction fos as [|fo fos IH]; simpl; intros Hnd; [lia|].
  inversion Hnd as [|? ? Hfo Hrest]; subst.
  destruct (opt_Z_eqb o (Some (Folder.id fo))) eqn:E; [|now apply IH].
  apply opt_Z_eqb_eq in E. subst o. simpl.
  rewrite filter_none; [simpl; lia|].
  intros x Hx. simpl. apply Z.eqb_neq. intros Heq. apply Hfo.
  rewrite Heq. now apply in_map.
Qed.

Lemma left_join_length (fs : list File.t) (fos : list Folder.t) :
  NoDup (map Folder.id fos) -> List.length (left_join fs fos) = List.length fs.
Proof.
  intros Hnd. unfold left_join. induction fs as [|f fs IH]; [reflexivity|].
  cbn [flat_map]. rewrite length_app, IH.
  pose proof (one_folder_per_id fos (File.folder_id f) Hnd) as H1.
  destruct (filter _ fos) as [|fo [|fo' matches]]; simpl in *; lia.
Qed.

Lemma limit_all {A : Type} (n : nat) (l : list A) :
  (List.length l <= n)%nat -> Sql.limit n l = l.
Proof. unfold Sql.limit. apply firstn_all2. Qed.

(** X17.  Search misses nothing below its cap: with unique folder ids and
    at most 50 file rows, a term without [LIKE] wildcards finds every
    file of the namespace whose display name or stored name contains it.
    The engine reads term and names as C strings, so the term is one
    without a NUL byte, and a name counts when it has none. *)
Theorem search_finds_every_match (term ns : string) (w : world) :
  term <> "" ->
  wildcard_free term = true ->
  nul_free term = true ->
  hd None (faults w) = None ->
  NoDup (map Folder.id (folders (db w))) ->
  (List.length (files (db w)) <= 50)%nat ->
  exists rows w',
    search (Some term) (Some ns) w = Some (Json rows, w')
    /\ forall f, In f (files (db w)) ->
                 File.tab_type f = ns ->
                 (nul_free (File.original_name f) = true
                  /\ contains_nocase (File.original_name f) term)
                 \/ (nul_free (File.name f) = true
                     /\ contains_nocase (File.name f) term) ->
                 exists r, In r rows /\ file r = f.
Proof.
  intros Hne Hfree Hnul Hhd Hnd Hlen. unfold search.
  destruct term as [|c term]; [congruence|].
  unfold bind, db_read, ret. rewrite Hhd. do 2 eexists. split; [reflexivity|].
  intros f Hf Hns Hmatch.
  destruct (left_join_file (files (db w)) (folders (db w)) f Hf) as [r [Hr Hfile]].
  exists r. split; [|assumption].
  unfold searchQuery. rewrite limit_all.
  - apply order_by_In. apply filter_In. split; [assumption|].
    unfold search_where. rewrite Hfile, Hns, String.eqb_refl. cbn [andb].
    apply orb_true_iff.
    destruct Hmatch as [[Hn H]|[Hn H]]; [left | right];
      now apply (like_contains _ _ Hfree Hnul Hn).
  - rewrite (Permutation_length (order_by_perm _ _)).
    etransitivity; [apply filter_length_le|].
    now rewrite (left_join_length _ _ Hnd).
Qed.

Lemma search_finds_every_match_witness :
  exists rows w',
    search (Some "a") (Some "my") Example.start = Some (Json rows, w')
    /\ forall f, In f (files (db Example.start)) ->
                 File.tab_type f = "my" ->
                 (nul_free (File.original_name f) = true
                  /\ contains_nocase (File.original_name f) "a")
                 \/ (nul_free (File.name f) = true
                     /\ contains_nocase (File.name f) "a") ->
                 exists r, In r rows /\ file r = f.
Proof.
  apply (search_finds_every_match "a" "my" Example.start).
  - discriminate.
  - reflexivity.
  - reflexivity.
  - reflexivity.
  - apply distinct_NoDup. reflexivity.
  - simpl. lia.
Defined.

(** ** The files of a namespace *)

Lemma by_stored_name_total (a b : File.t) :
  by_stored_name a b = true \/ by_stored_name b a = true.
Proof. unfold by_stored_name. apply text_leb_total. Qed.

Lemma by_stored_name_trans (a b c : File.t) :
  by_stored_name a b = true -> by_stored_name b c = true ->
  by_stored_name a c = true.
Proof. unfold by_stored_name. apply text_leb_trans. Qed.

Lemma folder_condition_meaning (folderId : option string) (f : File.t) :
  folder_condition_holds (folder_condition_of folderId) f = true <->
  match folderId with
  | None => True
  | Some s =>
      s = ""
      \/ (s = "null" /\ File.folder_id f = None)
      \/ (s <> "" /\ s <> "null"
          /\ exists n, Js.parseInt (JStr s) = Some n /\ File.folder_id f = Some n)
  end.
Proof.
  destruct folderId as [s|]; cbn [folder_condition_of]; [|simpl; tauto].
  destruct (String.eqb_spec s "") as [->|Hne]; [simpl; tauto|].
  cbn [Js.truthy Js.differs_from].
  destruct (String.eqb_spec s "") as [|_]; [contradiction|]. cbn [negb andb].
  destruct (String.eqb_spec s "null") as [->|Hnull]; cbn [negb].
  - cbn [folder_condition_holds]. destruct (File.folder_id f) as [i|]; split.
    + discriminate.
    + intros [H|[[_ H]|[_ [H _]]]]; congruence.
    + auto.
    + reflexivity.
  - cbn [folder_condition_holds].
    destruct (Js.parseInt (JStr s)) as [n|]; split.
    + intros H. apply opt_Z_eqb_eq in H. right. right. eauto.
    + intros [H|[[H _]|[_ [_ [m [[= <-] H]]]]]]; try contradiction.
      now apply opt_Z_eqb_eq.
    + discriminate.
    + intros [H|[[H _]|[_ [_ [m [H _]]]]]]; try contradiction. discriminate.
Qed.

(** X18.  The three-way filter of the file listing.  When the engine
    runs the query the answer is success, nothing is changed, the rows
    are in the byte-wise order of their stored names, and they are the
    files of the namespace: all of them when [folderId] is absent or
    empty, those with no folder when it is the text null, and otherwise
    those whose folder is the integer [parseInt] reads from it. *)
Theorem list_files_three_way_filter
    (tab : string) (folderId : option string) (w : world) :
  hd None (faults w) = None ->
  exists rows w',
    list_files tab folderId w = Some (Json rows, w')
    /\ db w' = db w /\ fs w' = fs w
    /\ StronglySorted
         (fun a b => String.leb (Listing.name a) (Listing.name b) = true) rows
    /\ forall r,
         In r rows <->
         exists f, In f (files (db w)) /\ File.tab_type f = tab
                   /\ Listing.of_file f = r
                   /\ match folderId with
                      | None => True
                      | Some s =>
                          s = ""
                          \/ (s = "null" /\ File.folder_id f = None)
                          \/ (s <> "" /\ s <> "null"
                              /\ exists n, Js.parseInt (JStr s) = Some n
                                           /\ File.folder_id f = Some n)
                      end.
Proof.
  intros Hhd. unfold list_files, bind, db_read, ret. rewrite Hhd.
  do 2 eexists. split; [reflexivity|]. split; [reflexivity|].
  split; [reflexivity|]. split.
  - unfold filesQuery.
    apply (proj1 (StronglySorted_map Listing.of_file
                    (fun a b => String.leb (Listing.name a) (Listing.name b) = true) _)).
    apply (order_by_sorted by_stored_name by_stored_name_total by_stored_name_trans).
  - intros r. unfold filesQuery. rewrite in_map_iff. split.
    + intros [f [Hr Hf]]. apply order_by_In, filter_In in Hf.
      destruct Hf as [Hf Hkeep]. apply andb_true_iff in Hkeep.
      destruct Hkeep as [Htab Hcond]. apply String.eqb_eq in Htab.
      apply folder_condition_meaning in Hcond. exists f. auto.
    + intros [f [Hf [Htab [Hr Hcond]]]]. exists f. split; [assumption|].
      apply order_by_In, filter_In. split; [assumption|].
      apply andb_true_iff. split; [now apply String.eqb_eq|].
      now apply folder_condition_meaning.
Qed.

Lemma list_files_three_way_filter_witness :
  exists rows w',
    list_files "my" (Some "null") Example.start = Some (Json rows, w')
    /\ db w' = db Example.start /\ fs w' = fs Example.start
    /\ StronglySorted
         (fun a b => String.leb (Listing.name a) (Listing.name b) = true) rows
    /\ forall r,
         In r rows <->
         exists f, In f (files (db Example.start)) /\ File.tab_type f = "my"
                   /\ Listing.of_file f = r
                   /\ ("null" = ""
                       \/ ("null" = "null" /\ File.folder_id f = None)
                       \/ ("null" <> "" /\ "null" <> "null"
                           /\ exists n, Js.parseInt (JStr "null") = Some n
                                        /\ File.folder_id f = Some n)).
Proof.
  apply (list_files_three_way_filter "my" (Some "null") Example.start).
  reflexivity.
Defined.

(** X19.  A [folderId] that is text other than null and starts with no
    integer is no error for the listing: [parseInt] gives NaN, the engine
    compares [folder_id] with NULL, and the answer is success with no
    row, whatever the table holds. *)
Theorem list_files_unreadable_folder_id (tab s : string) (w : world) :
  s <> "" -> s <> "null" ->
  Js.parseInt (JStr s) = None ->
  hd None (faults w) = None ->
  exists w', list_files tab (Some s) w = Some (Json [], w').
Proof.
  intros Hne Hnull Hnan Hhd. unfold list_files, bind, db_read, ret. rewrite Hhd.
  unfold filesQuery, folder_condition_of.
  destruct (String.eqb_spec s "") as [|_]; [contradiction|].
  cbn [Js.truthy Js.differs_from].
  destruct (String.eqb_spec s "") as [|_]; [contradiction|].
  destruct (String.eqb_spec s "null") as [|_]; [contradiction|].
  cbn [negb andb]. rewrite Hnan.
  rewrite filter_none.
  - eexists. reflexivity.
  - intros f _. cbn [folder_condition_holds]. apply andb_false_r.
Qed.

Lemma list_files_unreadable_folder_id_witness :
  exists w', list_files "my" (Some "root") Example.start = Some (Json [], w').
Proof.
  apply (list_files_unreadable_folder_id "my" "root" Example.start);
    [discriminate | discriminate | reflexivity | reflexivity].
Defined.

(** ** Upload *)

Lemma max_file_id_bound (tbl : list File.t) (f : File.t) :
  In f tbl -> File.id f <= max_file_id tbl.
Proof.
  unfold max_file_id. induction tbl as [|g tbl IH]; intros H; [contradiction|].
  simpl. destruct H as [->|H]; [lia|]. specialize (IH H). lia.
Qed.

Lemma next_file_id_fresh (d : database) (files_seq : Z) (f : File.t) :
  In f (files d) -> File.id f < next_file_id d files_seq.
Proof. intros H. apply max_file_id_bound in H. unfold next_file_id. lia. Qed.

(** The upload whose request passes the two checks, up to the answer of
    the engine. *)
Lemma upload_runs (files_seq : Z) (f : Upload.file) (body : Upload.body)
    (processed : option Z) (w : world) :
  processed_id (of_text (Upload.folderId body)) = Some processed ->
  let said := console w ++ [upload_request_line (Some f) body;
                            Log "처리된 folderId:" (AValue (of_int processed))] in
  let failed := fun err =>
    match unlinkSync (fs w) (Upload.path f) with
    | Some disk' =>
        Some ((Status 500 err, files_seq),
              mkWorld (db w) disk'
                      (said ++ [Error "파일 업로드 오류:" (AText err)])
                      (tl (faults w)) (clock w))
    | None =>
        Some ((Status 500 err, files_seq),
              mkWorld (db w) (fs w)
                      (said ++ [Error "파일 업로드 오류:" (AText err)])
                      (tl (faults w)) (clock w))
    end in
  upload files_seq (Some f) body w =
  match hd None (faults w) with
  | Some err => failed err
  | None =>
      match insertFileQuery (db w) files_seq (clock w)
              (Upload.filename f) (Upload.originalname f) (Upload.path f)
              (Upload.size f) (Some (Upload.mimetype f)) processed
              (Upload.tabType body) with
      | inl err => failed err
      | inr (d', lastID) =>
          Some ((Json [("id", JNum lastID);
                       ("name", JStr (Upload.filename f));
                       ("original_name", JStr (Upload.originalname f));
                       ("file_size", JNum (Upload.size f));
                       ("mime_type", JStr (Upload.mimetype f));
                       ("folder_id", of_int processed);
                       ("tab_type", of_text (Upload.tabType body))],
                 lastID),
                mkWorld d' (fs w)
                        (said ++ [Log "파일 업로드 성공:" (AId lastID)])
                        (tl (faults w)) (clock w))
      end
  end.
Proof.
  intros Hp said failed. subst said failed.
  unfold upload, bind at 1, say at 1. rewrite Hp.
  unfold bind at 1, say at 1. unfold bind at 1, db_run.
  cbn [db fs console faults clock]. fold (upload_request_line (Some f) body).
  destruct (hd None (faults w)) as [e|].
  - unfold bind, say, unlink_quiet, ret. cbn [db fs console faults clock].
    rewrite <- !app_assoc. cbn [app].
    destruct (unlinkSync (fs w) (Upload.path f)); reflexivity.
  - destruct (insertFileQuery _ _ _ _ _ _ _ _ _ _) as [err|[d' lastID]].
    + unfold bind, say, unlink_quiet, ret. cbn [db fs console faults clock].
      rewrite <- !app_assoc. cbn [app].
      destruct (unlinkSync (fs w) (Upload.path f)); reflexivity.
    + unfold bind, say, ret. cbn [db fs console faults clock].
      rewrite <- !app_assoc. reflexivity.
Qed.

Lemma insertFileQuery_accepts (d d' : database) (files_seq lastID : Z) (now : string)
    (nm orig p : string) (sz : Z) (mime : option string) (fo : option Z)
    (tabType : option string) :
  insertFileQuery d files_seq now nm orig p sz mime fo tabType = inr (d', lastID) ->
  exists tab,
    tabType = Some tab /\ (tab = "my" \/ tab = "public")
    /\ lastID <= 9223372036854775807
    /\ lastID = next_file_id d files_seq
    /\ d' = mkDb (folders d)
                 (files d ++ [File.mk lastID nm orig p sz mime fo tab now])
                 (folders_seq d).
Proof.
  unfold insertFileQuery. destruct tabType as [tab|]; [|discriminate].
  destruct (String.eqb_spec tab "my") as [Hmy|Hmy];
    destruct (String.eqb_spec tab "public") as [Hpub|Hpub]; cbn [orb];
    try discriminate;
    (destruct (Z.leb_spec (next_file_id d files_seq) 9223372036854775807);
     [|discriminate]; intros [= <- <-]; exists tab; auto).
Qed.

(** What an upload answered with success has done. *)
Lemma upload_success (files_seq : Z) (f : Upload.file) (body : Upload.body)
    (w w' : world) (o : object) (lastID : Z) :
  upload files_seq (Some f) body w = Some ((Json o, lastID), w') ->
  exists tab processed,
    Upload.tabType body = Some tab /\ (tab = "my" \/ tab = "public")
    /\ processed_id (of_text (Upload.folderId body)) = Some processed
    /\ lastID = next_file_id (db w) files_seq
    /\ db w'
       = mkDb (folders (db w))
              (files (db w)
               ++ [File.mk lastID (Upload.filename f) (Upload.originalname f)
                           (Upload.path f) (Upload.size f)
                           (Some (Upload.mimetype f)) processed tab (clock w)])
              (folders_seq (db w))
    /\ fs w' = fs w
    /\ faults w' = tl (faults w)
    /\ o = [("id", JNum lastID);
            ("name", JStr (Upload.filename f));
            ("original_name", JStr (Upload.originalname f));
            ("file_size", JNum (Upload.size f));
            ("mime_type", JStr (Upload.mimetype f));
            ("folder_id", of_int processed);
            ("tab_type", JStr tab)]
    /\ lastID <= 9223372036854775807.
Proof.
  intros Hrun.
  destruct (processed_id (of_text (Upload.folderId body))) as [processed|] eqn:Hp.
  - rewrite (upload_runs files_seq f body processed w Hp) in Hrun. cbv zeta in Hrun.
    destruct (hd None (faults w)) as [e|].
    { destruct (unlinkSync (fs w) (Upload.path f)); discriminate. }
    destruct (insertFileQuery _ _ _ _ _ _ _ _ _ _) as [err|[d' n]] eqn:Hins.
    { destruct (unlinkSync (fs w) (Upload.path f)); discriminate. }
    injection Hrun as <- <- <-.
    destruct (insertFileQuery_accepts _ _ _ _ _ _ _ _ _ _ _ _ Hins)
      as [tab [Htab [Hns [Hle [-> ->]]]]].
    exists tab, processed. cbn [db fs faults]. rewrite Htab. cbn [of_text].
    repeat split; try assumption; reflexivity.
  - unfold upload, bind, say, ret in Hrun. rewrite Hp in Hrun. discriminate.
Qed.

Lemma next_file_id_above (d : database) (files_seq : Z) :
  files_seq < next_file_id d files_seq /\ 0 < next_file_id d files_seq.
Proof.
  unfold next_file_id, max_file_id.
  assert (0 <= fold_right Z.max 0 (map File.id (files d)))
    by (induction (files d); simpl; lia).
  lia.
Qed.

(** X20.  An upload that is answered with success has stored exactly one
    new row: its id is above the counter and above every id of the file
    table, the row records the stored name, display name, path, size and
    content type of the blob as given, the namespace is one of the two,
    and neither the folder table nor the disk is touched.  The folder of
    the row is what the handler made of [folderId]: null, or the double
    [parseInt] read, whether or not it is the id of a folder; the answer
    holds the same number, and what is sent for it is null when it is an
    infinity. *)
Theorem upload_adds_one_row (files_seq : Z) (f : Upload.file) (body : Upload.body)
    (w w' : world) (o : object) (lastID : Z) :
  upload files_seq (Some f) body w = Some ((Json o, lastID), w') ->
  exists tab processed,
    Upload.tabType body = Some tab /\ (tab = "my" \/ tab = "public")
    /\ processed_id (of_text (Upload.folderId body)) = Some processed
    /\ files_seq < lastID
    /\ (forall g, In g (files (db w)) -> File.id g < lastID)
    /\ files (db w')
       = files (db w)
         ++ [File.mk lastID (Upload.filename f) (Upload.originalname f)
                     (Upload.path f) (Upload.size f) (Some (Upload.mimetype f))
                     processed tab (clock w)]
    /\ folders (db w') = folders (db w)
    /\ fs w' = fs w
    /\ In ("id", JNum lastID) (Js.sent_object o)
    /\ In ("folder_id", of_int processed) o
    /\ In ("folder_id",
           match processed with
           | Some p => if Js.is_finite p then JNum p else JNull
           | None => JNull
           end) (Js.sent_object o).
Proof.
  intros Hrun.
  destruct (upload_success _ _ _ _ _ _ _ Hrun)
    as [tab [processed [Htab [Hns [Hp [Hid [Hdb [Hfs [_ [Ho Hle]]]]]]]]]].
  destruct (next_file_id_above (db w) files_seq) as [Habove Hpos].
  exists tab, processed. rewrite Hdb. cbn [files folders].
  do 3 (split; [assumption|]).
  split; [subst lastID; assumption|].
  split; [intros g Hg; subst lastID; now apply next_file_id_fresh|].
  do 2 (split; [reflexivity|]). split; [assumption|].
  rewrite Ho. cbn [Js.sent_object map fst snd Js.sent of_int].
  rewrite (row_id_is_finite lastID) by (subst lastID; assumption).
  split; [now left|]. split; [simpl; tauto|].
  destruct processed as [p|]; simpl; tauto.
Qed.

Lemma upload_adds_one_row_witness :
  exists o lastID w' tab processed,
    upload 3 (Some (Upload.mkFile "1714640400000-d" "d" "uploads/d" 7 "text/plain"))
           (Upload.mkBody (Some "9007199254740993") (Some "my")) Example.start
    = Some ((Json o, lastID), w')
    /\ Upload.tabType (Upload.mkBody (Some "9007199254740993") (Some "my")) = Some tab
    /\ (tab = "my" \/ tab = "public")
    /\ processed_id (of_text (Upload.folderId
                                (Upload.mkBody (Some "9007199254740993") (Some "my"))))
       = Some processed
    /\ 3 < lastID
    /\ (forall g, In g (files (db Example.start)) -> File.id g < lastID)
    /\ files (db w')
       = files (db Example.start)
         ++ [File.mk lastID "1714640400000-d" "d" "uploads/d" 7 (Some "text/plain")
                     processed tab (clock Example.start)]
    /\ folders (db w') = folders (db Example.start)
    /\ fs w' = fs Example.start
    /\ In ("id", JNum lastID) (Js.sent_object o)
    /\ In ("folder_id", of_int processed) o
    /\ In ("folder_id",
           match processed with
           | Some p => if Js.is_finite p then JNum p else JNull
           | None => JNull
           end) (Js.sent_object o).
Proof.
  do 3 eexists.
  assert (Hrun : upload 3 (Some (Upload.mkFile "1714640400000-d" "d" "uploads/d" 7
                                               "text/plain"))
                        (Upload.mkBody (Some "9007199254740993") (Some "my"))
                        Example.start
                 = Some ((Json ?[o], ?[lastID]), ?[w']))
    by (vm_compute; reflexivity).
  destruct (upload_adds_one_row _ _ _ _ _ _ _ Hrun) as [tab [processed H]].
  exists tab, processed. split; [exact Hrun | exact H].
Defined.

(** X21.  The two requests the upload refuses itself: without a file, or
    with a [folderId] that is given and starts with no integer, the
    answer is 400, the counter and the tables are as they were, and the
    disk is not touched, so the blob the middleware stored for the second
    request stays where it is with no row naming it. *)
Theorem upload_bad_request_keeps_blob
    (files_seq : Z) (file : option Upload.file) (body : Upload.body) (w : world) :
  file = None \/ processed_id (of_text (Upload.folderId body)) = None ->
  exists e w',
    upload files_seq file body w = Some ((Status 400 e, files_seq), w')
    /\ db w' = db w
    /\ fs w' = fs w
    /\ faults w' = faults w.
Proof.
  intros H. unfold upload, bind, say, ret.
  destruct file as [f|].
  - destruct H as [H|H]; [discriminate|]. rewrite H.
    do 2 eexists. repeat split.
  - do 2 eexists. repeat split.
Qed.

Lemma upload_bad_request_keeps_blob_witness :
  exists e w',
    upload 3 (Some (Upload.mkFile "1714640400000-d" "d" "uploads/d" 7 "text/plain"))
           (Upload.mkBody (Some "root") (Some "my"))
           (mkWorld Example.tables
                    (mkDisk ["uploads/a"; "uploads/b"; "uploads/c"; "uploads/d"] [])
                    [] [] "2024-05-02 10:00:00")
    = Some ((Status 400 e, 3), w')
    /\ db w' = Example.tables
    /\ fs w' = mkDisk ["uploads/a"; "uploads/b"; "uploads/c"; "uploads/d"] []
    /\ faults w' = [].
Proof.
  apply (upload_bad_request_keeps_blob 3
           (Some (Upload.mkFile "1714640400000-d" "d" "uploads/d" 7 "text/plain"))
           (Upload.mkBody (Some "root") (Some "my"))
           (mkWorld Example.tables
                    (mkDisk ["uploads/a"; "uploads/b"; "uploads/c"; "uploads/d"] [])
                    [] [] "2024-05-02 10:00:00")).
  right. reflexivity.
Defined.

(** X22.  When the row cannot be stored, the blob is taken back: if the
    engine fails the [INSERT], or the namespace is absent or none of the
    two, the answer is 500, the counter and the tables are as they were,
    the blob of the request is not on the disk afterwards unless its
    removal fails, and no other blob is touched. *)
Theorem upload_failure_removes_blob
    (files_seq : Z) (f : Upload.file) (body : Upload.body) (processed : option Z)
    (w : world) :
  processed_id (of_text (Upload.folderId body)) = Some processed ->
  hd None (faults w) <> None
  \/ Upload.tabType body = None
  \/ (exists tab, Upload.tabType body = Some tab /\ tab <> "my" /\ tab <> "public") ->
  exists e w',
    upload files_seq (Some f) body w = Some ((Status 500 e, files_seq), w')
    /\ db w' = db w
    /\ (~ In (Upload.path f) (undeletable (fs w)) ->
        ~ In (Upload.path f) (present (fs w')))
    /\ (forall q, q <> Upload.path f ->
                  (In q (present (fs w')) <-> In q (present (fs w)))).
Proof.
  intros Hp Hwhy. rewrite (upload_runs files_seq f body processed w Hp). cbv zeta.
  assert (Hfail : forall err cons flts,
            exists e w',
              match unlinkSync (fs w) (Upload.path f) with
              | Some disk' =>
                  Some ((Status 500 err, files_seq),
                        mkWorld (db w) disk' cons flts (clock w))
              | None =>
                  Some ((Status 500 err, files_seq),
                        mkWorld (db w) (fs w) cons flts (clock w))
              end = Some ((@Status object 500 e, files_seq), w')
              /\ db w' = db w
              /\ (~ In (Upload.path f) (undeletable (fs w)) ->
                  ~ In (Upload.path f) (present (fs w')))
              /\ (forall q, q <> Upload.path f ->
                            (In q (present (fs w')) <-> In q (present (fs w))))).
  { intros err cons flts.
    destruct (unlinkSync (fs w) (Upload.path f)) as [disk'|] eqn:E.
    - do 2 eexists. split; [reflexivity|]. cbn [db fs]. split; [reflexivity|].
      split.
      + intros _ Hin.
        apply (proj2 (proj2 (unlinkSync_present _ _ _ (Upload.path f) E))) in Hin.
        now destruct Hin.
      + intros q Hq.
        pose proof (proj2 (proj2 (unlinkSync_present _ _ _ q E))). tauto.
    - do 2 eexists. split; [reflexivity|]. cbn [db fs]. split; [reflexivity|].
      split; [|tauto].
      intros Hu Hin. destruct (unlinkSync_removes _ _ Hin Hu) as [d' Hd'].
      congruence. }
  destruct (hd None (faults w)) as [e|] eqn:Hhd; [apply Hfail|].
  destruct Hwhy as [H|[H|[tab [H [Hmy Hpub]]]]]; [congruence| |].
  - unfold insertFileQuery. rewrite H. apply Hfail.
  - unfold insertFileQuery. rewrite H.
    destruct (String.eqb_spec tab "my") as [|_]; [contradiction|].
    destruct (String.eqb_spec tab "public") as [|_]; [contradiction|].
    cbn [orb]. apply Hfail.
Qed.

Lemma upload_failure_removes_blob_witness :
  exists e w',
    upload 3 (Some (Upload.mkFile "1714640400000-d" "d" "uploads/d" 7 "text/plain"))
           (Upload.mkBody (Some "1") (Some "team"))
           (mkWorld Example.tables
                    (mkDisk ["uploads/a"; "uploads/b"; "uploads/c"; "uploads/d"] [])
                    [] [] "2024-05-02 10:00:00")
    = Some ((Status 500 e, 3), w')
    /\ db w' = Example.tables
    /\ (~ In "uploads/d" [] -> ~ In "uploads/d" (present (fs w')))
    /\ (forall q, q <> "uploads/d" ->
                  (In q (present (fs w'))
                   <-> In q ["uploads/a"; "uploads/b"; "uploads/c"; "uploads/d"])).
Proof.
  apply (upload_failure_removes_blob 3
           (Upload.mkFile "1714640400000-d" "d" "uploads/d" 7 "text/plain")
           (Upload.mkBody (Some "1") (Some "team")) (Some 1)
           (mkWorld Example.tables
                    (mkDisk ["uploads/a"; "uploads/b"; "uploads/c"; "uploads/d"] [])
                    [] [] "2024-05-02 10:00:00")).
  - reflexivity.
  - right. right. exists "team". repeat split; discriminate.
Defined.

Lemma find_fresh_last (tbl : list File.t) (row : File.t) :
  (forall g, In g tbl -> File.id g < File.id row) ->
  find (fun g => Z.eqb (File.id g) (File.id row)) (tbl ++ [row]) = Some row.
Proof.
  induction tbl as [|g tbl IH]; intros H; simpl.
  - now rewrite Z.eqb_refl.
  - pose proof (H g (or_introl eq_refl)) as Hg.
    destruct (Z.eqb_spec (File.id g) (File.id row)); [lia|].
    apply IH. intros; apply H; now right.
Qed.

Lemma filter_fresh_last (tbl : list File.t) (row : File.t) :
  (forall g, In g tbl -> File.id g < File.id row) ->
  filter (fun g => negb (Z.eqb (File.id g) (File.id row))) (tbl ++ [row]) = tbl.
Proof.
  intros H. rewrite filter_app. simpl. rewrite Z.eqb_refl. simpl.
  rewrite app_nil_r. apply filter_all. intros g Hg.
  apply negb_true_iff, Z.eqb_neq. specialize (H g Hg). lia.
Qed.

(** X23.  Upload and delete are inverse on the tables: deleting the id
    an upload answered with, the engine running both statements, gives
    back the tables as they were before the upload; the blob of the
    upload is gone unless its removal throws, and no other blob is
    touched. *)
Theorem upload_then_delete_file
    (files_seq : Z) (f : Upload.file) (body : Upload.body)
    (w w1 : world) (o : object) (lastID : Z) :
  upload files_seq (Some f) body w = Some ((Json o, lastID), w1) ->
  no_fault 2 w1 = true ->
  exists o2 w2,
    delete_file lastID w1 = Some (Json o2, w2)
    /\ db w2 = db w
    /\ (Upload.path f <> "" ->
        ~ In (Upload.path f) (undeletable (fs w)) ->
        ~ In (Upload.path f) (present (fs w2)))
    /\ (forall q, q <> Upload.path f ->
                  (In q (present (fs w2)) <-> In q (present (fs w)))).
Proof.
  intros Hrun Hok.
  destruct (upload_success _ _ _ _ _ _ _ Hrun)
    as [tab [processed [_ [_ [_ [Hid [Hdb [Hfs _]]]]]]]].
  set (row := File.mk lastID (Upload.filename f) (Upload.originalname f)
                      (Upload.path f) (Upload.size f) (Some (Upload.mimetype f))
                      processed tab (clock w)) in *.
  assert (Hfresh : forall g, In g (files (db w)) -> File.id g < File.id row).
  { intros g Hg. cbn [row File.id]. subst lastID. now apply next_file_id_fresh. }
  assert (Hrow : selectFileQuery (db w1) lastID = Some row).
  { unfold selectFileQuery. rewrite Hdb. cbn [files].
    exact (find_fresh_last (files (db w)) row Hfresh). }
  rewrite (delete_file_runs lastID w1 row Hrow Hok). cbv zeta.
  do 2 eexists. split; [reflexivity|]. cbn [db fs]. split; [|split].
  - unfold deleteFileQuery. cbn [fst]. rewrite Hdb. cbn [folders files folders_seq].
    transitivity (mkDb (folders (db w)) (files (db w)) (folders_seq (db w)));
      [|apply database_eta].
    f_equal. exact (filter_fresh_last (files (db w)) row Hfresh).
  - intros Hpath Hu. rewrite Hfs. cbn [row File.file_path].
    apply String.eqb_neq in Hpath. rewrite Hpath.
    apply blob_trace_gone; [now left | assumption].
  - intros q Hq. rewrite Hfs. apply blob_trace_keeps_others.
    cbn [row File.file_path].
    destruct (String.eqb (Upload.path f) ""); [tauto|].
    intros [Heq|[]]. congruence.
Qed.

Lemma upload_then_delete_file_witness :
  exists o lastID w1 o2 w2,
    upload 3 (Some (Upload.mkFile "1714640400000-d" "d" "uploads/d" 7 "text/plain"))
           (Upload.mkBody (Some "2") (Some "my"))
           (mkWorld Example.tables
                    (mkDisk ["uploads/a"; "uploads/b"; "uploads/c"; "uploads/d"] [])
                    [] [] "2024-05-02 10:00:00")
    = Some ((Json o, lastID), w1)
    /\ delete_file lastID w1 = Some (Json o2, w2)
    /\ db w2 = Example.tables
    /\ ("uploads/d" <> "" -> ~ In "uploads/d" [] ->
        ~ In "uploads/d" (present (fs w2)))
    /\ (forall q, q <> "uploads/d" ->
                  (In q (present (fs w2))
                   <-> In q ["uploads/a"; "uploads/b"; "uploads/c"; "uploads/d"])).
Proof.
  do 3 eexists.
  assert (Hrun : upload 3 (Some (Upload.mkFile "1714640400000-d" "d" "uploads/d" 7
                                               "text/plain"))
                        (Upload.mkBody (Some "2") (Some "my"))
                        (mkWorld Example.tables
                                 (mkDisk ["uploads/a"; "uploads/b"; "uploads/c";
                                          "uploads/d"] [])
                                 [] [] "2024-05-02 10:00:00")
                 = Some ((Json ?[o], ?[lastID]), ?[w1]))
    by (vm_compute; reflexivity).
  destruct (upload_then_delete_file _ _ _ _ _ _ _ Hrun eq_refl) as [o2 [w2 H]].
  exists o2, w2. split; [exact Hrun | exact H].
Defined.

Lemma processed_folder_is_listed (folderId : option string) (processed : option Z)
    (row : File.t) :
  processed_id (of_text folderId) = Some processed ->
  File.folder_id row = processed ->
  folder_condition_holds (folder_condition_of folderId) row = true.
Proof.
  intros Hp Hrow. destruct folderId as [s|]; [|reflexivity].
  unfold processed_id, Js.given in Hp. cbn [of_text Js.truthy Js.differs_from] in Hp.
  cbn [folder_condition_of Js.truthy Js.differs_from].
  destruct (String.eqb_spec s "") as [|_]; [reflexivity|]. cbn [negb andb] in *.
  destruct (String.eqb_spec s "null") as [|_]; cbn [negb andb] in *.
  - injection Hp as <-. cbn [folder_condition_holds]. now rewrite Hrow.
  - destruct (Js.parseInt (JStr s)) as [n|]; [|discriminate].
    injection Hp as <-. cbn [folder_condition_holds]. rewrite Hrow.
    apply Z.eqb_refl.
Qed.

(** X24.  The upload and the listing read [folderId] alike: after an
    upload answered with success, listing the namespace of the upload
    with the same [folderId] text, the engine running the query, shows
    the new file under the id of the answer, with the display name, size
    and content type of the upload. *)
Theorem upload_then_list_files
    (files_seq : Z) (f : Upload.file) (body : Upload.body) (tab : string)
    (w w1 : world) (o : object) (lastID : Z) :
  upload files_seq (Some f) body w = Some ((Json o, lastID), w1) ->
  Upload.tabType body = Some tab ->
  hd None (faults w1) = None ->
  exists rows w2 folder,
    list_files tab (Upload.folderId body) w1 = Some (Json rows, w2)
    /\ In (Listing.mk lastID (Upload.filename f) (Upload.originalname f)
                      (Upload.size f) (Some (Upload.mimetype f)) folder (clock w))
          rows.
Proof.
  intros Hrun Htab Hhd.
  destruct (upload_success _ _ _ _ _ _ _ Hrun)
    as [tab' [processed [Htab' [_ [Hp [_ [Hdb _]]]]]]].
  assert (tab' = tab) by congruence. subst tab'.
  unfold list_files, bind, db_read, ret. rewrite Hhd.
  do 2 eexists. exists processed. split; [reflexivity|].
  unfold filesQuery. rewrite Hdb. cbn [files].
  set (row := File.mk lastID (Upload.filename f) (Upload.originalname f)
                      (Upload.path f) (Upload.size f) (Some (Upload.mimetype f))
                      processed tab (clock w)).
  apply in_map_iff. exists row. split; [reflexivity|].
  apply order_by_In, filter_In. split.
  - apply in_or_app. right. now left.
  - apply andb_true_iff. split; [apply String.eqb_refl|].
    now apply (processed_folder_is_listed _ processed).
Qed.

Lemma upload_then_list_files_witness :
  exists o lastID w1 rows w2 folder,
    upload 3 (Some (Upload.mkFile "1714640400000-d" "d" "uploads/d" 7 "text/plain"))
           (Upload.mkBody (Some "2") (Some "my")) Example.start
    = Some ((Json o, lastID), w1)
    /\ list_files "my" (Some "2") w1 = Some (Json rows, w2)
    /\ In (Listing.mk lastID "1714640400000-d" "d" 7 (Some "text/plain") folder
                      (clock Example.start))
          rows.
Proof.
  do 3 eexists.
  assert (Hrun : upload 3 (Some (Upload.mkFile "1714640400000-d" "d" "uploads/d" 7
                                               "text/plain"))
                        (Upload.mkBody (Some "2") (Some "my")) Example.start
                 = Some ((Json ?[o], ?[lastID]), ?[w1]))
    by (vm_compute; reflexivity).
  destruct (upload_then_list_files _ _ _ "my" _ _ _ _ Hrun eq_refl eq_refl)
    as [rows [w2 [folder H]]].
  exists rows, w2, folder. split; [exact Hrun | exact H].
Defined.

(** ** Download and preview *)

(** X25.  Download and preview, two handlers written out apart, decide
    alike.  For the same id and the same behaviour of the stream, both
    refuse with the same status, 404 or 500, and message and write
    nothing; or both stream the same blob to its end, which is on the
    disk and is the one the row of the id names (its stored path, or the
    stored name under the upload directory when the path is empty); or
    both meet the same error of the stream, log it, and answer with the
    500 of the error handler when no header had gone out and with nothing
    more otherwise; or both throw, which happens exactly when the row is
    there with its blob and its content type is no value a header can
    take.  Neither touches the tables or the disk. *)
Theorem download_and_preview_agree
    (join : string -> string) (createReadStream : string -> stream_outcome)
    (fileId : Z) (w : world) :
  match download join createReadStream fileId w,
        preview join createReadStream fileId w with
  | Some (a, w'), Some (b, w2) =>
      w2 = w' /\ db w' = db w /\ fs w' = fs w
      /\ match a, b with
         | SendFile p _, SendFile q _ =>
             p = q /\ In p (present (fs w)) /\ createReadStream p = Piped
             /\ console w' = console w
             /\ exists row, selectFileQuery (db w) fileId = Some row
                            /\ p = (if String.eqb (File.file_path row) ""
                                    then join (File.name row)
                                    else File.file_path row)
         | Refused c e, Refused c' e' =>
             c = c' /\ e = e' /\ (c = 404 \/ c = 500) /\ console w' = console w
         | StreamError _ e, StreamError _ e' =>
             e = e'
             /\ exists row err,
                  selectFileQuery (db w) fileId = Some row
                  /\ createReadStream (blob_path join row) = Broke false err
                  /\ console w' = console w ++ [Error "파일 전송 오류:" (AText err)]
         | Cut p _, Cut q _ =>
             p = q
             /\ exists err,
                  createReadStream p = Broke true err
                  /\ console w' = console w ++ [Error "파일 전송 오류:" (AText err)]
         | _, _ => False
         end
  | None, None =>
      hd None (faults w) = None
      /\ exists row, selectFileQuery (db w) fileId = Some row
                     /\ In (blob_path join row) (present (fs w))
                     /\ header_safe (content_type row) = false
  | _, _ => False
  end.
Proof.
  unfold download, preview, bind, db_read, ret, say, throw.
  destruct (hd None (faults w)) as [e|]; [cbn; auto 10|].
  destruct (selectFileQuery (db w) fileId) as [row|] eqn:Hrow; [|cbn; auto 10].
  cbn [db fs console faults clock].
  destruct (existsSync (fs w) (blob_path join row)) eqn:Hblob; [|cbn; auto 10].
  apply mem_string_In in Hblob.
  destruct (header_safe (content_type row)) eqn:Hsafe; [|eauto].
  destruct (createReadStream (blob_path join row)) as [|sent err] eqn:Hread.
  - cbn [db fs console]. do 3 (split; [reflexivity|]).
    split; [reflexivity|]. split; [assumption|].
    split; [assumption|]. split; [reflexivity|]. exists row. split; reflexivity.
  - destruct sent; cbn [db fs console]; do 3 (split; [reflexivity|]).
    + split; [reflexivity|]. exists err. split; [assumption | reflexivity].
    + split; [reflexivity|]. exists row, err. auto.
Qed.

(** X26.  A cascade delete takes the files of the subtree out of reach:
    with unique file ids, after a cascade delete answered with success, a
    download of a file that was in a folder at or below the target is
    answered 404 when the engine runs the query. *)
Theorem cascade_delete_then_download
    (fuel : nat) (id : Z) (join : string -> string)
    (createReadStream : string -> stream_outcome) (w w1 : world) (o : object)
    (f : File.t) (g : Folder.t) :
  delete_folder fuel id w = Some (Json o, w1) ->
  NoDup (map File.id (files (db w))) ->
  In f (files (db w)) ->
  below (folders (db w)) (base_rows id (db w)) g ->
  File.folder_id f = Some (Folder.id g) ->
  hd None (faults w1) = None ->
  exists w2,
    download join createReadStream (File.id f) w1
    = Some (Refused 404 "파일을 찾을 수 없습니다.", w2).
Proof.
  intros Hrun Hnd Hf Hg Hfg Hhd.
  destruct (cascade_delete_tables _ _ _ _ _ Hrun) as [_ Hfiles].
  assert (Habsent : ~ In (File.id f) (map File.id (files (db w1)))).
  { intros Hin. apply in_map_iff in Hin. destruct Hin as [h [Hid Hh]].
    apply Hfiles in Hh. destruct Hh as [Hh Hout].
    assert (h = f).
    { clear - Hnd Hf Hh Hid. induction (files (db w)) as [|x tbl IH];
        [contradiction|].
      simpl in Hnd. inversion Hnd as [|? ? Hx Hrest]; subst.
      destruct Hh as [->|Hh], Hf as [->|Hf]; auto.
      - exfalso. apply Hx. rewrite Hid. now apply in_map.
      - exfalso. apply Hx. rewrite <- Hid. now apply in_map. }
    subst h. apply Hout. eauto. }
  unfold download, bind, db_read, ret. rewrite Hhd.
  rewrite (selectFileQuery_absent (db w1) (File.id f) Habsent).
  eexists. reflexivity.
Qed.

Lemma cascade_delete_then_download_witness :
  exists o w1 w2,
    delete_folder 3 1 Example.start = Some (Json o, w1)
    /\ download (fun n => ("uploads/" ++ n)%string) (fun _ => Piped)
                (File.id (Example.stored 1 "a" (Some 3) "2024-05-01 09:01:00")) w1
       = Some (Refused 404 "파일을 찾을 수 없습니다.", w2).
Proof.
  do 2 eexists.
  assert (Hrun : delete_folder 3 1 Example.start = Some (Json ?[o], ?[w1]))
    by (vm_compute; reflexivity).
  destruct (cascade_delete_then_download 3 1 (fun n => ("uploads/" ++ n)%string)
              (fun _ => Piped) Example.start _ _
              (Example.stored 1 "a" (Some 3) "2024-05-01 09:01:00")
              (Example.folder 3 "grandchild" (Some 2)) Hrun) as [w2 H].
  - apply distinct_NoDup. reflexivity.
  - simpl. auto.
  - apply (below_step _ _ (Example.folder 2 "child" (Some 1)));
      [|simpl; auto | reflexivity].
    apply (below_step _ _ (Example.folder 1 "root" None));
      [|simpl; auto | reflexivity].
    apply below_base. simpl. auto.
  - reflexivity.
  - reflexivity.
  - exists w2. split; [exact Hrun | exact H].
Defined.

Lemma percent_encode_alphabet (b : ascii) :
  forallb (fun c => unreserved c || Ascii.eqb c "%"
                    || existsb (Ascii.eqb c) (bytes "0123456789ABCDEF"))
          (percent_encode b) = true.
Proof. destruct b as [[] [] [] [] [] [] [] []]; vm_compute; reflexivity. Qed.

Lemma hex_digit_inj (n m : N) :
  (n < 16)%N -> (m < 16)%N -> hex_digit n = hex_digit m -> n = m.
Proof.
  intros Hn Hm H. apply (f_equal N_of_ascii) in H. unfold hex_digit in H.
  destruct (N.ltb_spec n 10), (N.ltb_spec m 10);
    rewrite !N_ascii_embedding in H by lia; lia.
Qed.

Lemma percent_encode_prefix_free (a b : ascii) (r s : list ascii) :
  percent_encode a ++ r = percent_encode b ++ s -> a = b /\ r = s.
Proof.
  unfold percent_encode.
  destruct (unreserved a) eqn:Ha, (unreserved b) eqn:Hb; cbn [app]; intros H.
  - injection H as -> ->. auto.
  - injection H as -> _. discriminate Ha.
  - injection H as <- _. discriminate Hb.
  - injection H as Hhi Hlo ->. split; [|reflexivity].
    pose proof (N_ascii_bounded a) as Ba. pose proof (N_ascii_bounded b) as Bb.
    apply hex_digit_inj in Hhi;
      [| apply N.Div0.div_lt_upper_bound; lia
       | apply N.Div0.div_lt_upper_bound; lia].
    apply hex_digit_inj in Hlo; [| apply N.mod_lt; lia | apply N.mod_lt; lia].
    rewrite <- (ascii_N_embedding a), <- (ascii_N_embedding b). f_equal.
    rewrite (N.div_mod (N_of_ascii a) 16), (N.div_mod (N_of_ascii b) 16) by lia.
    now rewrite Hhi, Hlo.
Qed.

(** X27.  The file name the download and preview headers carry.  The
    encoding of a name holds only unreserved characters, the percent
    sign and the sixteen upper-case hexadecimal digits, so none of its
    bytes is a double quote, a control character or outside ASCII; and
    names that differ have encodings that differ. *)
Theorem encodeURIComponent_is_safe_and_injective (s : string) :
  forallb (fun c => unreserved c || Ascii.eqb c "%"
                    || existsb (Ascii.eqb c) (bytes "0123456789ABCDEF"))
          (bytes (encodeURIComponent s)) = true
  /\ forallb (fun c => (32 <? N_of_ascii c)%N && (N_of_ascii c <? 127)%N
                       && negb (N_of_ascii c =? 34)%N)
             (bytes (encodeURIComponent s)) = true
  /\ forall t, encodeURIComponent s = encodeURIComponent t -> s = t.
Proof.
  unfold encodeURIComponent, bytes. rewrite list_ascii_of_string_of_list_ascii.
  assert (Hsafe : forallb (fun c => unreserved c || Ascii.eqb c "%"
                             || existsb (Ascii.eqb c) (bytes "0123456789ABCDEF"))
                          (flat_map percent_encode (list_ascii_of_string s)) = true).
  { induction (list_ascii_of_string s) as [|b l IH]; [reflexivity|].
    cbn [flat_map]. rewrite forallb_app, IH, percent_encode_alphabet. reflexivity. }
  split; [exact Hsafe|]. split.
  - rewrite forallb_forall in *. intros c Hc. specialize (Hsafe c Hc).
    clear - Hsafe. revert Hsafe.
    destruct c as [[] [] [] [] [] [] [] []]; vm_compute; intros H;
      try reflexivity; discriminate.
  - intros t Heq.
    apply (f_equal list_ascii_of_string) in Heq.
    rewrite !list_ascii_of_string_of_list_ascii in Heq.
    rewrite <- (string_of_list_ascii_of_string s),
            <- (string_of_list_ascii_of_string t).
    f_equal. clear Hsafe. revert Heq.
    generalize (list_ascii_of_string t). induction (list_ascii_of_string s) as [|a l IH];
      intros [|b l'] Heq.
    + reflexivity.
    + cbn [flat_map] in Heq. unfold percent_encode in Heq.
      destruct (unreserved b); discriminate.
    + cbn [flat_map] in Heq. unfold percent_encode in Heq.
      destruct (unreserved a); discriminate.
    + cbn [flat_map] in Heq. apply percent_encode_prefix_free in Heq.
      destruct Heq as [-> Heq]. f_equal. now apply IH.
Qed.

(** ** The Office preview *)

Lemma has_extension_app (exts more : list string) (name : string) :
  has_extension (exts ++ more) name
  = has_extension exts name || has_extension more name.
Proof. unfold has_extension. apply existsb_app. Qed.

Lemma isOfficeFile_document (row : File.t) :
  isOfficeFile row = true -> document_kind row <> None.
Proof.
  unfold isOfficeFile, document_kind.
  destruct (File.mime_type row) as [m|]; [|discriminate].
  change ["doc"; "docx"; "xls"; "xlsx"; "ppt"; "pptx"]
    with (["doc"; "docx"] ++ ["xls"; "xlsx"] ++ ["ppt"; "pptx"]).
  rewrite !has_extension_app.
  destruct (includes m "word"), (includes m "excel"), (includes m "powerpoint"),
    (includes m "spreadsheet"), (includes m "presentation"),
    (has_extension ["doc"; "docx"] (File.original_name row)),
    (has_extension ["xls"; "xlsx"] (File.original_name row)),
    (has_extension ["ppt"; "pptx"] (File.original_name row));
    cbn [orb andb negb]; try discriminate;
    rewrite andb_false_r; discriminate.
Qed.

(** X28.  Every page of the Office preview has a sample document: a page
    is answered only for an id whose row is in the file table with its
    blob on the disk and a content type that is not empty, the title is
    the display name of the row, and the type test of the route never
    lets through a file for which the template picks no document. *)
Theorem office_preview_page_has_document
    (join : string -> string) (fileId : Z) (w w' : world)
    (title : string) (document : option office_kind) :
  office_preview join fileId w = Some (Page title document, w') ->
  document <> None
  /\ db w' = db w /\ fs w' = fs w
  /\ exists row m,
       selectFileQuery (db w) fileId = Some row
       /\ title = File.original_name row
       /\ File.mime_type row = Some m /\ m <> ""
       /\ In (blob_path join row) (present (fs w)).
Proof.
  unfold office_preview, bind, db_read, ret. intros H.
  destruct (hd None (faults w)); [discriminate|].
  destruct (selectFileQuery (db w) fileId) as [row|]; [|discriminate].
  cbn [fs] in H.
  destruct (existsSync (fs w) (blob_path join row)) eqn:Eblob; [|discriminate].
  destruct (isOfficeFile row) eqn:Eoffice; [|discriminate].
  injection H as <- <- <-. split; [now apply isOfficeFile_document|].
  split; [reflexivity|]. split; [reflexivity|].
  unfold isOfficeFile in Eoffice.
  destruct (File.mime_type row) as [m|] eqn:Em; [|discriminate].
  exists row, m. do 3 (split; [first [reflexivity | exact Em]|]). split.
  - intros ->. discriminate Eoffice.
  - now apply mem_string_In.
Qed.

Lemma office_preview_page_has_document_witness :
  exists w' title document,
    office_preview (fun n => ("uploads/" ++ n)%string) 1
      (mkWorld (mkDb [] [File.mk 1 "1714554000000-plan.DOCX" "plan.DOCX"
                                 "uploads/plan" 2048
                                 (Some "application/octet-stream") None "my"
                                 "2024-05-01 09:01:00"] 0)
               (mkDisk ["uploads/plan"] []) [] [] "2024-05-02 10:00:00")
    = Some (Page title document, w')
    /\ document <> None
    /\ title = "plan.DOCX".
Proof.
  do 3 eexists.
  assert (Hrun : office_preview (fun n => ("uploads/" ++ n)%string) 1
      (mkWorld (mkDb [] [File.mk 1 "1714554000000-plan.DOCX" "plan.DOCX"
                                 "uploads/plan" 2048
                                 (Some "application/octet-stream") None "my"
                                 "2024-05-01 09:01:00"] 0)
               (mkDisk ["uploads/plan"] []) [] [] "2024-05-02 10:00:00")
      = Some (Page ?[title] ?[document], ?[w']))
    by (vm_compute; reflexivity).
  split; [exact Hrun|].
  split; [exact (proj1 (office_preview_page_has_document _ _ _ _ _ _ Hrun))
         | reflexivity].
Defined.

(** X29.  The Office preview asks for a content type first: a file whose
    row has no content type, or an empty one, is refused with 400 when
    its blob is there, whatever its name ends in; the extension counts
    only for a row that has some content type. *)
Theorem office_preview_needs_content_type
    (join : string -> string) (fileId : Z) (w : world) (row : File.t) :
  hd None (faults w) = None ->
  selectFileQuery (db w) fileId = Some row ->
  In (blob_path join row) (present (fs w)) ->
  File.mime_type row = None \/ File.mime_type row = Some "" ->
  exists w',
    office_preview join fileId w
    = Some (NoPage 400 "지원되지 않는 파일 형식입니다.", w')
    /\ db w' = db w /\ fs w' = fs w.
Proof.
  intros Hhd Hrow Hblob Hmime. unfold office_preview, bind, db_read, ret.
  rewrite Hhd, Hrow. cbn [fs].
  apply mem_string_In in Hblob. unfold existsSync. rewrite Hblob.
  assert (Hno : isOfficeFile row = false)
    by (unfold isOfficeFile; destruct Hmime as [-> | ->]; reflexivity).
  rewrite Hno. eexists. repeat split.
Qed.

Lemma office_preview_needs_content_type_witness :
  exists w',
    office_preview (fun n => ("uploads/" ++ n)%string) 1
      (mkWorld (mkDb [] [File.mk 1 "1714554000000-plan.docx" "plan.docx"
                                 "uploads/plan" 2048 None None "my"
                                 "2024-05-01 09:01:00"] 0)
               (mkDisk ["uploads/plan"] []) [] [] "2024-05-02 10:00:00")
    = Some (NoPage 400 "지원되지 않는 파일 형식입니다.", w')
    /\ db w' = mkDb [] [File.mk 1 "1714554000000-plan.docx" "plan.docx"
                                "uploads/plan" 2048 None None "my"
                                "2024-05-01 09:01:00"] 0
    /\ fs w' = mkDisk ["uploads/plan"] [].
Proof.
  apply (office_preview_needs_content_type (fun n => ("uploads/" ++ n)%string) 1
           (mkWorld (mkDb [] [File.mk 1 "1714554000000-plan.docx" "plan.docx"
                                      "uploads/plan" 2048 None None "my"
                                      "2024-05-01 09:01:00"] 0)
                    (mkDisk ["uploads/plan"] []) [] [] "2024-05-02 10:00:00")
           (File.mk 1 "1714554000000-plan.docx" "plan.docx" "uploads/plan" 2048
                    None None "my" "2024-05-01 09:01:00")).
  - reflexivity.
  - reflexivity.
  - simpl. auto.
  - left. reflexivity.
Defined.

(** ** The headers of download and preview *)

Lemma header_safe_printable (a b : list ascii) :
  forallb (fun c => (32 <=? N_of_ascii c)%N && (N_of_ascii c <=? 126)%N) a = true ->
  header_safe_bytes (a ++ b) = header_safe_bytes b.
Proof.
  induction a as [|c a IH]; simpl; [reflexivity|]. intros H.
  apply andb_true_iff in H. destruct H as [Hc Ha].
  rewrite Hc, orb_true_r. now apply IH.
Qed.

Lemma encoded_is_printable (s : string) :
  forallb (fun c => (32 <=? N_of_ascii c)%N && (N_of_ascii c <=? 126)%N)
          (bytes (encodeURIComponent s)) = true.
Proof.
  unfold encodeURIComponent, bytes. rewrite list_ascii_of_string_of_list_ascii.
  induction (list_ascii_of_string s) as [|b l IH]; [reflexivity|].
  cbn [flat_map]. rewrite forallb_app, IH, andb_true_r.
  pose proof (percent_encode_alphabet b) as H.
  rewrite forallb_forall in H. apply forallb_forall. intros c Hc.
  specialize (H c Hc). clear - H. revert H.
  destruct c as [[] [] [] [] [] [] [] []]; vm_compute; intros H;
    try reflexivity; discriminate.
Qed.

(** X30.  The Content-Disposition header never makes the two handlers
    throw: whatever the display name of the row, the value they build
    from it is one [res.setHeader] accepts. *)
Theorem disposition_is_header_safe (row : File.t) :
  header_safe (disposition "attachment" row) = true
  /\ header_safe (disposition "inline" row) = true.
Proof.
  assert (H : forall kind,
             forallb (fun c => (32 <=? N_of_ascii c)%N && (N_of_ascii c <=? 126)%N)
                     (bytes kind) = true ->
             header_safe (disposition kind row) = true).
  { intros kind Hkind. unfold header_safe, disposition.
    rewrite !bytes_append.
    rewrite (header_safe_printable _ _ Hkind).
    rewrite (header_safe_printable (bytes "; filename=")) by reflexivity.
    rewrite (header_safe_printable (bytes double_quote)) by reflexivity.
    rewrite (header_safe_printable _ _ (encoded_is_printable _)).
    reflexivity. }
  split; apply H; reflexivity.
Qed.
